(** * ConfigArrayFactory: flattening of cascading configuration

    A shallow embedding of [lib/lookup/config-array-factory.js]: the factory
    that turns a config data (with [extends], [plugins], [parser] and
    [overrides]) into an ordered array of config array elements.

    The JavaScript generators of the source are drained by their consumer
    ([new ConfigArray(...elements)]), so a generator is modelled by the list it
    yields.  Exceptions, the module resolutions and the file loads that the
    code performs are kept in a small trace-and-error monad.  The recursion
    through [extends] follows files on disk and need not terminate, so the
    recursive functions take fuel. *)

From Stdlib Require Import List String Ascii Bool Arith ZArith Lia.
From Stdlib Require Import DecimalString.
Import ListNotations.
Local Open Scope string_scope.
Local Open Scope nat_scope.

Set Implicit Arguments.
Set Warnings "-register-all".

(* ------------------------------------------------------------------ *)
(** ** JavaScript strings *)
(* ------------------------------------------------------------------ *)

Module Js.

(** A string is truthy when it is not empty. *)
Definition truthy (s : string) : bool :=
  match s with EmptyString => false | String _ _ => true end.

(** [a || b] on strings. *)
Definition or_else (a b : string) : string := if truthy a then a else b.

(** [s.startsWith(p)]. *)
Definition startsWith (p s : string) : bool := String.prefix p s.

(** The names of the properties of [Object.prototype], which every plain
    object inherits. *)
Definition objectPrototypeNames : list string :=
  [ "constructor"; "__defineGetter__"; "__defineSetter__"; "hasOwnProperty";
    "__lookupGetter__"; "__lookupSetter__"; "isPrototypeOf";
    "propertyIsEnumerable"; "toString"; "valueOf"; "__proto__";
    "toLocaleString" ].

Definition dquote : string := String (ascii_of_nat 34) EmptyString.
Definition newline : string := String (ascii_of_nat 10) EmptyString.

(** The separator used in the names of extended configs. *)
Definition raquo : string :=
  String (ascii_of_nat 194) (String (ascii_of_nat 187) EmptyString).

(** Template literal of a number: its decimal digits. *)
Definition of_nat (n : nat) : string :=
  NilEmpty.string_of_uint (Nat.to_uint n).

(** [s.lastIndexOf(c)] for a one-character needle; [-1] when absent. *)
Fixpoint lastIndexOf_from (c : ascii) (s : string) (i : Z) (acc : Z) : Z :=
  match s with
  | EmptyString => acc
  | String a rest =>
      lastIndexOf_from c rest (i + 1) (if Ascii.eqb a c then i else acc)
  end.

Definition lastIndexOf (c : ascii) (s : string) : Z :=
  lastIndexOf_from c s 0 (-1).

Definition len (s : string) : Z := Z.of_nat (String.length s).

(** The clamping of a relative index of [slice]: negative counts from the
    end. *)
Definition clamp (n i : Z) : Z :=
  if (i <? 0)%Z then Z.max (n + i) 0 else Z.min i n.

(** [s.slice(from, to)]. *)
Definition slice (s : string) (from to : Z) : string :=
  let n := len s in
  let a := clamp n from in
  let b := clamp n to in
  String.substring (Z.to_nat a) (Z.to_nat (Z.max (b - a) 0)) s.

(** [s.slice(from)]. *)
Definition slice_from (s : string) (from : Z) : string :=
  slice s from (len s).

(** Does the regular expression [\s+] (with the [u] flag) match somewhere
    in [s]?  Strings are sequences of UTF-8 bytes here, so the white space
    outside ASCII is recognised by its encoding. *)
Definition ascii_space (a : ascii) : bool :=
  let n := nat_of_ascii a in
  ((9 <=? n) && (n <=? 13)) || (n =? 32).

Definition bytes_space (a b c : nat) : bool :=
  ((a =? 225) && (b =? 154) && (c =? 128))                     (* U+1680 *)
  || ((a =? 226) && (b =? 128)
      && (((128 <=? c) && (c <=? 138))                         (* U+2000-200A *)
          || (c =? 168) || (c =? 169) || (c =? 175)))          (* U+2028/9, 202F *)
  || ((a =? 226) && (b =? 129) && (c =? 159))                  (* U+205F *)
  || ((a =? 227) && (b =? 128) && (c =? 128))                  (* U+3000 *)
  || ((a =? 239) && (b =? 187) && (c =? 191)).                 (* U+FEFF *)

Fixpoint has_whitespace (s : string) : bool :=
  match s with
  | EmptyString => false
  | String a rest =>
      ascii_space a
      || match rest with
         | String b rest' =>
             ((nat_of_ascii a =? 194) && (nat_of_ascii b =? 160))  (* U+00A0 *)
             || match rest' with
                | String c _ =>
                    bytes_space (nat_of_ascii a) (nat_of_ascii b) (nat_of_ascii c)
                | EmptyString => false
                end
         | EmptyString => false
         end
      || has_whitespace rest
  end.

(** The byte order mark, removed from the start of a file that is read. *)
Definition bom : string :=
  String (ascii_of_nat 239)
    (String (ascii_of_nat 187) (String (ascii_of_nat 191) EmptyString)).

Definition strip_bom (s : string) : string :=
  if String.prefix bom s
  then String.substring 3 (String.length s - 3) s
  else s.

End Js.

(* ------------------------------------------------------------------ *)
(** ** Plain data carried through unchanged *)
(* ------------------------------------------------------------------ *)

(** The values of [env], [globals], [parserOptions], [rules] and [settings]
    are copied from the config data to the element without being looked at. *)
Inductive Json : Type :=
| JNull
| JBool (b : bool)
| JNum (z : Z)
| JStr (s : string)
| JArr (l : list Json)
| JObj (fields : list (string * Json)).

(** A property that holds a string or an array of strings ([extends],
    [files], [excludedFiles]), or is not defined. *)
Inductive StrOrList : Type :=
| Undef
| One (s : string)
| Many (l : list string).

(** The raw config data.  The same shape serves the top level of a file and
    an entry of [overrides] (which adds [files] and [excludedFiles]). *)
Inductive ConfigData : Type := mkConfigData {
  cd_files : StrOrList;
  cd_excludedFiles : StrOrList;
  cd_env : option Json;
  cd_extends : StrOrList;
  cd_globals : option Json;
  cd_parser : option string;
  cd_parserOptions : option Json;
  cd_plugins : option (list string);
  cd_processor : option string;
  cd_root : option bool;
  cd_rules : option Json;
  cd_settings : option Json;
  cd_overrides : list ConfigData
}.

(** [{}] *)
Definition emptyConfigData : ConfigData :=
  mkConfigData Undef Undef None Undef None None None None None None None None [].

(** What a config file evaluates to: an object, or a falsy value ([null],
    [undefined], an empty document).  A file that evaluates to a truthy
    value that is no object (a number, a text) is not represented. *)
Definition JsConfig : Type := option ConfigData.

(** A parsed JSON document: [null], or an object seen as config data
    together with its own property [eslintConfig] when it has one. *)
Inductive JsonDoc : Type :=
| JsonNull
| JsonObject (self : ConfigData) (eslintConfig : option JsConfig).

(** An error object with the properties that the code reads or sets. *)
Record Error : Type := mkError {
  err_message : string;
  err_code : option string;
  err_messageTemplate : option string;
  err_messageData : list (string * string)
}.

Definition newError (msg : string) : Error := mkError msg None None [].

(** The exports of a loaded module: a parser or a plugin.  A plugin may
    export [configs] and [processors]; of the processors only the keys, in
    enumeration order, are used, and of the configs the own properties.
    The exports are an object: a module that exports [null] is not
    represented. *)
Record Module : Type := mkModule {
  mod_tag : string;
  mod_configs : option (list (string * ConfigData));
  mod_processors : option (list string)
}.

(** Lookup in a list of pairs keyed by strings. *)
Fixpoint assoc {A : Type} (k : string) (l : list (string * A)) : option A :=
  match l with
  | [] => None
  | (k', v) :: rest => if String.eqb k k' then Some v else assoc k rest
  end.

(** A JavaScript object used as a map from string keys: the keys are
    enumerated with the array indices first, in ascending order, and then the
    other keys in the order of their insertion. *)
Module JsObject.

Definition is_digit (a : ascii) : bool :=
  let n := nat_of_ascii a in (48 <=? n) && (n <=? 57).

Fixpoint all_digits (s : string) : bool :=
  match s with
  | EmptyString => true
  | String a rest => is_digit a && all_digits rest
  end.

Fixpoint digits_value (s : string) (acc : N) : N :=
  match s with
  | EmptyString => acc
  | String a rest =>
      digits_value rest (acc * 10 + N.of_nat (nat_of_ascii a - 48))%N
  end.

(** The array index that a key denotes, if it is the canonical decimal
    form of an integer below [2^32 - 1]. *)
Definition array_index (k : string) : option N :=
  match k with
  | EmptyString => None
  | String a rest =>
      if all_digits k
         && (negb (Ascii.eqb a "0"%char)
             || match rest with EmptyString => true | _ => false end)
      then
        let v := digits_value k 0%N in
        if (String.length k <=? 10) && (v <? 4294967295)%N
        then Some v else None
      else None
  end.

(** [obj[k] = v]: an existing key keeps its place. *)
Fixpoint set {A : Type} (k : string) (v : A) (obj : list (string * A))
  : list (string * A) :=
  match obj with
  | [] => [(k, v)]
  | (k', v') :: rest =>
      if String.eqb k k' then (k, v) :: rest
      else
        match array_index k, array_index k' with
        | Some i, Some j =>
            if (i <? j)%N then (k, v) :: (k', v') :: rest
            else (k', v') :: set k v rest
        | Some _, None => (k, v) :: (k', v') :: rest
        | None, _ => (k', v') :: set k v rest
        end
  end.

(** [obj[k] = v] on an object whose prototype is [Object.prototype]: the
    key [__proto__] is the accessor of the prototype, and assigning to it
    adds no key to the object. *)
Definition assign {A : Type} (k : string) (v : A) (obj : list (string * A))
  : list (string * A) :=
  if String.eqb k "__proto__" then obj else set k v obj.

End JsObject.

(* ------------------------------------------------------------------ *)
(** ** Effects: exceptions and the trace of loads *)
(* ------------------------------------------------------------------ *)

(** What the code asks of the module system and of the file system. *)
Inductive Event : Type :=
| EvLoadConfigFile (filePath : string)
| EvResolve (request relativeTo : string)
| EvRequire (request : string).

(** The result of a call of a library function: a value or an exception. *)
Inductive Res (A : Type) : Type :=
| Returns (a : A)
| Throws (e : Error).
Arguments Returns {A} a.
Arguments Throws {A} e.

(** The outcome of a call of the factory. *)
Inductive Outcome (A : Type) : Type :=
| Ok (a : A)
| Throw (e : Error)
| OutOfFuel.
Arguments Ok {A} a.
Arguments Throw {A} e.
Arguments OutOfFuel {A}.

(** A computation: the events it caused, in order, and its outcome. *)
Definition M (A : Type) : Type := (list Event * Outcome A)%type.

Definition ret {A} (a : A) : M A := ([], Ok a).
Definition throw {A} (e : Error) : M A := ([], Throw e).
Definition out_of_fuel {A} : M A := ([], OutOfFuel).
Definition emit (ev : Event) : M unit := ([ev], Ok tt).

Definition bind {A B} (m : M A) (f : A -> M B) : M B :=
  match m with
  | (t1, Ok a) => let (t2, o) := f a in ((t1 ++ t2)%list, o)
  | (t1, Throw e) => (t1, Throw e)
  | (t1, OutOfFuel) => (t1, OutOfFuel)
  end.

(** [try { m } catch (error) { h error }] *)
Definition catch {A} (m : M A) (h : Error -> M A) : M A :=
  match m with
  | (t1, Throw e) => let (t2, o) := h e in ((t1 ++ t2)%list, o)
  | other => other
  end.

Definition lift {A} (r : Res A) : M A :=
  match r with Returns a => ret a | Throws e => throw e end.

Definition trace {A} (m : M A) : list Event := fst m.
Definition outcome {A} (m : M A) : Outcome A := snd m.

Declare Scope m_scope.
Delimit Scope m_scope with M.
Notation "x <- m ;; k" := (bind m (fun x => k))
  (at level 61, m at next level, right associativity) : m_scope.
Notation "' pat <- m ;; k" :=
  (bind m (fun x => match x with pat => k end))
  (at level 61, pat pattern, m at next level, right associativity) : m_scope.
Notation "m ;;; k" := (bind m (fun _ => k))
  (at level 61, right associativity) : m_scope.
Local Open Scope m_scope.

(** [for (const x of xs) { yield* f(x) }] *)
Fixpoint yield_each {A B} (f : A -> M (list B)) (xs : list A) : M (list B) :=
  match xs with
  | [] => ret []
  | x :: rest =>
      ys <- f x ;;
      zs <- yield_each f rest ;;
      ret (ys ++ zs)%list
  end.

(** The same for a library call that only returns or throws. *)
Definition res_bind {A B} (r : Res A) (f : A -> Res B) : Res B :=
  match r with Returns a => f a | Throws e => Throws e end.

(** [try { r } catch (e) { ...change e...; throw e }] *)
Definition rethrow {A} (f : Error -> Error) (r : Res A) : Res A :=
  match r with Returns a => Returns a | Throws e => Throws (f e) end.

Definition set_message (msg : string) (e : Error) : Error :=
  mkError msg (err_code e) (err_messageTemplate e) (err_messageData e).

(* ------------------------------------------------------------------ *)
(** ** The collaborators of the factory *)
(* ------------------------------------------------------------------ *)

(** The compiled criteria of [files] and [excludedFiles]
    ([lib/lookup/override-tester.js]). *)
Module OverrideTester.

(** Modelled from the spec: the class [OverrideTester] is not part of the
    sources at hand.  Its instances hold the patterns, one pair of [files]
    and [excludedFiles] per config level that contributed some, and the
    base path that the factory assigns. *)
Record t : Type := mk {
  patterns : list (list string * list string);
  basePath : string
}.

Definition normalizePatterns (p : StrOrList) : list string :=
  match p with
  | Undef => []
  | One s => [s]
  | Many l => l
  end.

(** Modelled from the spec: [OverrideTester.create] is not part of the
    sources at hand.  It compiles the patterns of [files] and
    [excludedFiles] with the base path they are relative to; a level
    that declares neither has no criteria ([null]). *)
Definition create (files excludedFiles : StrOrList) (base : string)
  : option t :=
  match files, excludedFiles with
  | Undef, Undef => None
  | _, _ =>
      Some (mk [(normalizePatterns files, normalizePatterns excludedFiles)]
               base)
  end.

(** Modelled from the spec: [OverrideTester.and] is not part of the
    sources at hand.  [null] is the identity; two criteria combine into
    one that requires both. *)
Definition and (a b : option t) : option t :=
  match a, b with
  | None, _ => b
  | Some x, None => Some x
  | Some x, Some y =>
      Some (mk (patterns x ++ patterns y)%list (basePath x))
  end.

Definition set_basePath (base : string) (c : t) : t :=
  mk (patterns c) base.

Section Test.
(** Shell-glob matching of a pattern against a relative path, and
    [path.relative]. *)
Variable minimatch : string -> string -> bool.
Variable relative : string -> string -> string.

(** Modelled from the spec: [test] is not part of the sources at hand.
    The path, taken relative to the base path, has to match at least
    one pattern of [files] and none of [excludedFiles], for every
    level that was combined. *)
Definition test (c : t) (filePath : string) : bool :=
  let rel := relative (basePath c) filePath in
  forallb
    (fun p : list string * list string =>
       existsb (fun g => minimatch g rel) (fst p)
       && negb (existsb (fun g => minimatch g rel) (snd p)))
    (patterns c).

(** Modelled from the spec: an element applies to a file when it has no
    criteria or its criteria match. *)
Definition applies (c : option t) (filePath : string) : bool :=
  match c with
  | None => true
  | Some x => test x filePath
  end.
End Test.

End OverrideTester.

(** The outcome of loading a parser or a plugin
    ([lib/lookup/config-dependency.js]): a definition or an error. *)
Record ConfigDependency : Type := mkConfigDependency {
  dep_definition : option Module;
  dep_error : option Error;
  dep_filePath : option string;
  dep_id : string;
  dep_importerName : option string;
  dep_importerPath : string
}.

(** The [parser] of an element, [parserName && this._loadParser(...)]:
    nothing when the config data names no parser, the name itself when it
    is the empty string, and the dependency otherwise. *)
Inductive ParserValue : Type :=
| NoParser
| EmptyParserName
| Parser (dependency : ConfigDependency).

(** An element of the config array. *)
Record ConfigArrayElement : Type := mkElement {
  el_name : string;
  el_filePath : string;
  el_criteria : option OverrideTester.t;
  el_env : option Json;
  el_globals : option Json;
  el_parser : ParserValue;
  el_parserOptions : option Json;
  el_plugins : option (list (string * ConfigDependency));
  el_processor : option string;
  el_root : option bool;
  el_rules : option Json;
  el_settings : option Json
}.

Definition ConfigArray : Type := list ConfigArrayElement.

(** What the factory finds around it: the path functions of Node, the file
    system, the parsers of the config formats, the schema validator, the
    module resolver and the naming conventions of packages. *)
Record World : Type := mkWorld {
  path_resolve : string -> string -> string;
  path_dirname : string -> string;
  path_join : string -> string -> string;
  path_relative : string -> string -> string;
  path_isAbsolute : string -> bool;
  path_extname : string -> string;
  path_basename : string -> string;
  fs_readFileSync : string -> Res string;
  stripComments : string -> string;
  JSON_parse : string -> Res JsonDoc;
  yaml_safeLoad : string -> Res JsConfig;
  importFresh : string -> Res JsConfig;
  validateConfigSchema : JsConfig -> string -> option Error;
  ModuleResolver_resolve : string -> string -> Res string;
  (** [require(filePath)]: the exports of the module, taken to be an
      object, or the error object that loading it throws. *)
  require : string -> Res Module;
  (** [require("espree")] and [require.resolve("espree")] from the
      factory's own directory: the bundled parser. *)
  espree_bundled : Module;
  espree_bundled_path : string;
  naming_normalizePackageName : string -> string -> string;
  naming_getShorthandName : string -> string -> string;
  eslintRecommendedPath : string;
  eslintAllPath : string
}.

(** The fields of a factory instance. *)
Record ConfigArrayFactory : Type := mkFactory {
  _additionalParserPool : list (string * Module);
  _additionalPluginPool : list (string * Module);
  _cwd : string
}.

Definition configFilenames : list string :=
  [ ".eslintrc.js";
    ".eslintrc.yaml";
    ".eslintrc.yml";
    ".eslintrc.json";
    ".eslintrc";
    "package.json" ].

(* ------------------------------------------------------------------ *)
(** ** Helpers of [config-array-factory.js] *)
(* ------------------------------------------------------------------ *)

Definition is_sep (a : ascii) : bool :=
  Ascii.eqb a "/"%char || Ascii.eqb a "\"%char.

(** The regular expression [^\.{1,2}[/\\]]. *)
Definition dot_relative (s : string) : bool :=
  match s with
  | String a (String b rest) =>
      Ascii.eqb a "."%char
      && (is_sep b
          || (Ascii.eqb b "."%char
              && match rest with
                 | String c _ => is_sep c
                 | EmptyString => false
                 end))
  | _ => false
  end.

Definition code_is (c : string) (e : Error) : bool :=
  match err_code e with
  | Some c' => String.eqb c c'
  | None => false
  end.

(** [configMissingError(configName)] *)
Definition configMissingError (configName : string) : Error :=
  mkError
    ("Failed to load config " ++ Js.dquote ++ configName ++ Js.dquote
       ++ " to extend from.")
    None
    (Some "extend-config-missing")
    [("configName", configName)].

(** Modelled from the spec: the getter [root] of [ConfigArray]
    ([lib/lookup/config-array.js]) is not part of the sources at hand.  A
    parent is prepended only when the first element of the child array does
    not declare [root: true]. *)
Definition ConfigArray_root (arr : ConfigArray) : bool :=
  match arr with
  | e :: _ => match el_root e with Some true => true | _ => false end
  | [] => false
  end.

(** [createConfigArray(elements, parentConfigArray)]; the iterator
    [elements] has been drained into a list. *)
Definition createConfigArray (elements : option (list ConfigArrayElement))
  (parentConfigArray : option ConfigArray) : ConfigArray :=
  match elements with
  | None =>
      match parentConfigArray with
      | Some parent => parent
      | None => []
      end
  | Some configArray =>
      match parentConfigArray with
      | Some parent =>
          if negb (ConfigArray_root configArray)
          then (parent ++ configArray)%list
          else configArray
      | None => configArray
      end
  end.

(** A generator object of [_normalizeObjectConfigData] that has not run
    yet: the call with its arguments. *)
Record Gen : Type := mkGen {
  gen_configData : JsConfig;
  gen_filePath : string;
  gen_name : string
}.

(** The body of the loop of [_normalizeObjectConfigData]: combine the
    criteria of the level with those of the element, and for an element
    with criteria adopt the base path of the level and erase [root]. *)
Definition applyCriteria (criteria : option OverrideTester.t)
  (basePath : string) (element : ConfigArrayElement) : ConfigArrayElement :=
  match OverrideTester.and criteria (el_criteria element) with
  | Some c =>
      mkElement (el_name element) (el_filePath element)
        (Some (OverrideTester.set_basePath basePath c))
        (el_env element) (el_globals element) (el_parser element)
        (el_parserOptions element) (el_plugins element)
        (el_processor element)
        None
        (el_rules element) (el_settings element)
  | None =>
      mkElement (el_name element) (el_filePath element)
        None
        (el_env element) (el_globals element) (el_parser element)
        (el_parserOptions element) (el_plugins element)
        (el_processor element)
        (el_root element)
        (el_rules element) (el_settings element)
  end.

Section Factory.

Variable w : World.
Variable this : ConfigArrayFactory.

(** [isFilePath(nameOrPath)] *)
Definition isFilePath (nameOrPath : string) : bool :=
  dot_relative nameOrPath || path_isAbsolute w nameOrPath.

(** [readFile(filePath)] *)
Definition readFile (filePath : string) : Res string :=
  res_bind (fs_readFileSync w filePath)
    (fun content => Returns (Js.strip_bom content)).

Definition cannot_read (filePath : string) (e : Error) : Error :=
  set_message
    ("Cannot read config file: " ++ filePath ++ Js.newline ++ "Error: "
       ++ err_message e) e.

(** [value || {}] *)
Definition or_empty (v : JsConfig) : JsConfig :=
  match v with
  | Some c => Some c
  | None => Some emptyConfigData
  end.

Definition loadYAMLConfigFile (filePath : string) : Res JsConfig :=
  rethrow (cannot_read filePath)
    (res_bind (readFile filePath) (fun content =>
     res_bind (yaml_safeLoad w content) (fun v =>
     Returns (or_empty v)))).

Definition loadJSONConfigFile (filePath : string) : Res JsonDoc :=
  rethrow
    (fun e =>
       let e' := cannot_read filePath e in
       mkError (err_message e') (err_code e') (Some "failed-to-read-json")
         [("path", filePath); ("message", err_message e')])
    (res_bind (readFile filePath) (fun content =>
     JSON_parse w (stripComments w content))).

Definition loadLegacyConfigFile (filePath : string) : Res JsConfig :=
  rethrow (cannot_read filePath)
    (res_bind (readFile filePath) (fun content =>
     res_bind (yaml_safeLoad w (stripComments w content)) (fun v =>
     Returns (or_empty v)))).

Definition loadJSConfigFile (filePath : string) : Res JsConfig :=
  rethrow (cannot_read filePath) (importFresh w filePath).

Definition loadPackageJSONConfigFile (filePath : string) : Res JsConfig :=
  rethrow (cannot_read filePath)
    (res_bind (loadJSONConfigFile filePath) (fun packageData =>
     match packageData with
     | JsonNull =>
         Throws (newError "Cannot convert undefined or null to object")
     | JsonObject _ None =>
         Throws
           (mkError "package.json file doesn't have 'eslintConfig' field."
              (Some "ESLINT_CONFIG_FIELD_NOT_FOUND") None [])
     | JsonObject _ (Some eslintConfig) => Returns eslintConfig
     end)).

(** [loadConfigFile(filePath)]: the format follows the extension. *)
Definition loadConfigFile (filePath : string) : Res JsConfig :=
  let ext := path_extname w filePath in
  if String.eqb ext ".js" then loadJSConfigFile filePath
  else if String.eqb ext ".json" then
    if String.eqb (path_basename w filePath) "package.json"
    then loadPackageJSONConfigFile filePath
    else
      res_bind (loadJSONConfigFile filePath) (fun doc =>
      Returns match doc with
              | JsonNull => None
              | JsonObject self _ => Some self
              end)
  else if String.eqb ext ".yaml" || String.eqb ext ".yml"
  then loadYAMLConfigFile filePath
  else loadLegacyConfigFile filePath.

(** [_normalizeConfigData(configData, filePath, name)]: the part that
    runs at the call, before the generator it returns is asked for its
    first element.  An absent [filePath] or [name] is the empty
    string. *)
Definition _normalizeConfigData (configData : JsConfig)
  (filePath name : string) : M Gen :=
  let filePath :=
    if negb (Js.truthy filePath) then ""
    else path_resolve w (_cwd this) filePath in
  let name :=
    if negb (Js.truthy name)
    then (if Js.truthy filePath
          then path_relative w (_cwd this) filePath else filePath)
    else name in
  match validateConfigSchema w configData (Js.or_else name filePath) with
  | Some e => throw e
  | None => ret (mkGen configData filePath name)
  end.

(** [_loadConfigData(filePath, name)] *)
Definition _loadConfigData (filePath name : string) : M Gen :=
  emit (EvLoadConfigFile filePath) ;;;
  configData <- lift (loadConfigFile filePath) ;;
  _normalizeConfigData configData filePath name.

Definition soft_code (e : Error) : bool :=
  code_is "ENOENT" e || code_is "MODULE_NOT_FOUND" e
  || code_is "ESLINT_CONFIG_FIELD_NOT_FOUND" e.

(** The loop of [_loadConfigDataOnDirectory] over the file names that
    are left. *)
Fixpoint loadFirstOf (directoryPath name : string) (filenames : list string)
  : M (option Gen) :=
  match filenames with
  | [] => ret None
  | filename :: rest =>
      let filePath := path_join w directoryPath filename in
      configData <-
        catch (emit (EvLoadConfigFile filePath) ;;;
               lift (loadConfigFile filePath))
              (fun error =>
                 if negb (soft_code error) then throw error else ret None) ;;
      match configData with
      | Some _ =>
          gen <- _normalizeConfigData configData filePath name ;;
          ret (Some gen)
      | None => loadFirstOf directoryPath name rest
      end
  end.

(** [_loadConfigDataOnDirectory(directoryPath, name)] *)
Definition _loadConfigDataOnDirectory (directoryPath name : string)
  : M (option Gen) :=
  loadFirstOf directoryPath name configFilenames.

(* ---------------------------------------------------------------- *)
(** *** Parsers and plugins *)

(** The [relativeTo] of a resolution from the project root. *)
Definition projectRootRc : string := path_join w (_cwd this) ".eslintrc".

(** [importerPath || path.join(this._cwd, ".eslintrc")] *)
Definition relativeToOf (importerPath : string) : string :=
  if Js.truthy importerPath then importerPath else projectRootRc.

(** [ModuleResolver.resolve(request, relativeTo)] and then
    [require(filePath)], as the [try] blocks of [_loadParser] and
    [_loadPlugin] do.  The debug log between the two is off. *)
Definition resolveAndRequire (request relativeTo : string)
  : M (string * Module) :=
  emit (EvResolve request relativeTo) ;;;
  filePath <- lift (ModuleResolver_resolve w request relativeTo) ;;
  emit (EvRequire filePath) ;;;
  definition <- lift (require w filePath) ;;
  ret (filePath, definition).

Definition loaded (definition : Module) (filePath id importerName
  importerPath : string) : ConfigDependency :=
  mkConfigDependency (Some definition) None (Some filePath) id
    (Some importerName) importerPath.

Definition failed (error : Error) (id importerName importerPath : string)
  : ConfigDependency :=
  mkConfigDependency None (Some error) None id (Some importerName)
    importerPath.

Definition parserNotFound (nameOrPath relativeTo : string) (error : Error)
  : Error :=
  if code_is "MODULE_NOT_FOUND" error
  then set_message
         ("Failed to load parser " ++ nameOrPath ++ ": "
            ++ err_message error ++ " (relative to " ++ relativeTo ++ ")")
         error
  else error.

(** [_loadParser(nameOrPath, importerPath, importerName)] *)
Definition _loadParser (nameOrPath importerPath importerName : string)
  : M ConfigDependency :=
  match assoc nameOrPath (_additionalParserPool this) with
  | Some definition =>
      ret (loaded definition importerPath nameOrPath importerName
             importerPath)
  | None =>
      let relativeTo := relativeToOf importerPath in
      catch
        ('(filePath, definition) <- resolveAndRequire nameOrPath relativeTo ;;
         ret (loaded definition filePath nameOrPath importerName
                importerPath))
        (fun error =>
           let error := parserNotFound nameOrPath relativeTo error in
           if String.eqb nameOrPath "espree"
           then
             emit (EvRequire "espree") ;;;
             ret (loaded (espree_bundled w) (espree_bundled_path w)
                    nameOrPath importerName importerPath)
           else ret (failed error nameOrPath importerName importerPath))
  end.

Definition whitespaceError (nameOrPath request : string) : Error :=
  mkError ("Whitespace found in plugin name '" ++ nameOrPath ++ "'")
    None (Some "whitespace-found") [("pluginName", request)].

Definition pluginNotFound (request : string) (error : Error) : Error :=
  if code_is "MODULE_NOT_FOUND" error
  then mkError
         ("Failed to load plugin " ++ request ++ ": " ++ err_message error
            ++ " (project root is " ++ _cwd this ++ ")")
         (err_code error)
         (Some "plugin-missing")
         [("pluginName", request); ("projectRoot", _cwd this)]
  else error.

(** The [try] statement that ends [_loadPlugin]. *)
Definition resolvePlugin (request id importerPath importerName : string)
  : M ConfigDependency :=
  catch
    ('(filePath, definition) <- resolveAndRequire request projectRootRc ;;
     ret (loaded definition filePath id importerName importerPath))
    (fun error =>
       ret (failed (pluginNotFound request error) id importerName
              importerPath)).

(** [_loadPlugin(nameOrPath, importerPath, importerName)] *)
Definition _loadPlugin (nameOrPath importerPath importerName : string)
  : M ConfigDependency :=
  if isFilePath nameOrPath
  then resolvePlugin nameOrPath nameOrPath importerPath importerName
  else
    let request :=
      naming_normalizePackageName w nameOrPath "eslint-plugin" in
    let id := naming_getShorthandName w request "eslint-plugin" in
    if Js.has_whitespace nameOrPath
    then
      ret (mkConfigDependency None
             (Some (whitespaceError nameOrPath request)) None id None
             importerPath)
    else
      match
        match assoc request (_additionalPluginPool this) with
        | Some plugin => Some plugin
        | None => assoc id (_additionalPluginPool this)
        end
      with
      | Some plugin =>
          ret (loaded plugin importerPath id importerName importerPath)
      | None => resolvePlugin request id importerPath importerName
      end.

Definition filePathInPlugins : Error :=
  newError "Plugins array cannot includes file paths.".

(** The [reduce] of [_loadPlugins] over the names that are left; [map]
    holds the keys of the object that is built, in their order. *)
Fixpoint loadPluginsInto (map : list (string * ConfigDependency))
  (names : list string) (importerPath importerName : string)
  : M (list (string * ConfigDependency)) :=
  match names with
  | [] => ret map
  | name :: rest =>
      if isFilePath name then throw filePathInPlugins
      else
        plugin <- _loadPlugin name importerPath importerName ;;
        loadPluginsInto (JsObject.assign (dep_id plugin) plugin map) rest
          importerPath importerName
  end.

(** [_loadPlugins(names, importerPath, importerName)] *)
Definition _loadPlugins (names : list string)
  (importerPath importerName : string)
  : M (list (string * ConfigDependency)) :=
  loadPluginsInto [] names importerPath importerName.

(* ---------------------------------------------------------------- *)
(** *** [extends] *)

(** [_loadExtendedBuiltInConfig(extendName, importerName)] *)
Definition _loadExtendedBuiltInConfig (extendName importerName : string)
  : M Gen :=
  let name := importerName ++ " " ++ Js.raquo ++ " " ++ extendName in
  if String.eqb extendName "eslint:recommended"
  then _loadConfigData (eslintRecommendedPath w) name
  else if String.eqb extendName "eslint:all"
  then _loadConfigData (eslintAllPath w) name
  else throw (configMissingError extendName).

(** [_loadExtendedPluginConfig(extendName, importerPath, importerName)] *)
Definition _loadExtendedPluginConfig (extendName importerPath
  importerName : string) : M Gen :=
  let slashIndex := Js.lastIndexOf "/"%char extendName in
  let pluginName := Js.slice extendName 7 slashIndex in
  let configName := Js.slice_from extendName (slashIndex + 1) in
  if isFilePath pluginName
  then throw (newError "'extends' cannot use a file path for plugins.")
  else
    plugin <- _loadPlugin pluginName importerPath importerName ;;
    let configData :=
      match dep_definition plugin with
      | Some definition =>
          match mod_configs definition with
          | Some configs => assoc configName configs
          | None => None
          end
      | None => None
      end in
    match configData with
    | Some _ =>
        _normalizeConfigData configData
          (match dep_filePath plugin with Some f => f | None => "" end)
          (importerName ++ " " ++ Js.raquo ++ " plugin:" ++ dep_id plugin
             ++ "/" ++ configName)
    | None =>
        throw (match dep_error plugin with
               | Some error => error
               | None => configMissingError extendName
               end)
    end.

(** [_loadExtendedShareableConfig(extendName, importerPath, importerName)] *)
Definition _loadExtendedShareableConfig (extendName importerPath
  importerName : string) : M Gen :=
  let relativeTo := relativeToOf importerPath in
  let request :=
    if isFilePath extendName then extendName
    else if Js.startsWith "." extendName then "./" ++ extendName
    else naming_normalizePackageName w extendName "eslint-config" in
  catch
    (emit (EvResolve request relativeTo) ;;;
     filePath <- lift (ModuleResolver_resolve w request relativeTo) ;;
     _loadConfigData filePath
       (importerName ++ " " ++ Js.raquo ++ " " ++ request))
    (fun error =>
       if negb (code_is "MODULE_NOT_FOUND" error)
       then throw error
       else throw (configMissingError extendName)).

Definition referencedFrom (importerPath importerName : string) (e : Error)
  : Error :=
  set_message
    (err_message e ++ Js.newline ++ "Referenced from: "
       ++ Js.or_else importerPath importerName) e.

(** [_loadExtends(extendName, importerPath, importerName)] *)
Definition _loadExtends (extendName importerPath importerName : string)
  : M Gen :=
  catch
    (if Js.startsWith "eslint:" extendName
     then _loadExtendedBuiltInConfig extendName importerName
     else if Js.startsWith "plugin:" extendName
     then _loadExtendedPluginConfig extendName importerPath importerName
     else _loadExtendedShareableConfig extendName importerPath importerName)
    (fun error => throw (referencedFrom importerPath importerName error)).

(* ---------------------------------------------------------------- *)
(** *** Flattening *)

(** [Array.isArray(extend) ? extend : [extend]] and then
    [.filter(Boolean)]. *)
Definition extendListOf (extend : StrOrList) : list string :=
  filter Js.truthy
    match extend with
    | Many l => l
    | One s => [s]
    | Undef => []
    end.

Definition indexed {A : Type} (l : list A) : list (nat * A) :=
  combine (seq 0 (List.length l)) l.

(** The element that a level yields for itself. *)
Definition ownElement (configData : ConfigData) (filePath name : string)
  (parser : ParserValue)
  (plugins : option (list (string * ConfigDependency)))
  : ConfigArrayElement :=
  mkElement name filePath None
    (cd_env configData) (cd_globals configData) parser
    (cd_parserOptions configData) plugins (cd_processor configData)
    (cd_root configData) (cd_rules configData) (cd_settings configData).

(** The config data made up for a processor named like a file
    extension. *)
Definition processorConfig (pluginId processorId : string) : ConfigData :=
  mkConfigData (Many ["*" ++ processorId]) Undef None Undef None None None
    None (Some (pluginId ++ "/" ++ processorId)) None None None [].

Definition processorName (name pluginId processorId : string) : string :=
  name ++ "#processors[" ++ Js.dquote ++ pluginId ++ "/" ++ processorId
    ++ Js.dquote ++ "]".

Definition overrideName (name : string) (i : nat) : string :=
  name ++ "#overrides[" ++ Js.of_nat i ++ "]".

Section Generators.

(** The recursive call: [this._normalizeObjectConfigData], drained. *)
Variable normalize :
  JsConfig -> string -> string -> M (list ConfigArrayElement).

(** [yield* generator] *)
Definition run (g : Gen) : M (list ConfigArrayElement) :=
  normalize (gen_configData g) (gen_filePath g) (gen_name g).

(** [_takeFileExtensionProcessors(plugins, filePath, name)] *)
Definition _takeFileExtensionProcessors
  (plugins : list (string * ConfigDependency)) (filePath name : string)
  : M (list ConfigArrayElement) :=
  yield_each
    (fun entry : string * ConfigDependency =>
       let (pluginId, plugin) := entry in
       match
         match dep_definition plugin with
         | Some definition => mod_processors definition
         | None => None
         end
       with
       | None => ret []
       | Some processors =>
           yield_each
             (fun processorId =>
                normalize (Some (processorConfig pluginId processorId))
                  filePath (processorName name pluginId processorId))
             (filter (Js.startsWith ".") processors)
       end)
    plugins.

(** The loop over [extends] of [_normalizeObjectConfigDataBody]. *)
Definition flattenExtends (extend : StrOrList) (filePath name : string)
  : M (list ConfigArrayElement) :=
  yield_each
    (fun extendName =>
       g <- _loadExtends extendName filePath name ;;
       run g)
    (extendListOf extend).

(** The loading of [parser] and [plugins].  An empty parser name is
    falsy: it loads nothing and is itself the value of [parser]. *)
Definition loadParserOf (configData : ConfigData) (filePath name : string)
  : M ParserValue :=
  match cd_parser configData with
  | Some parserName =>
      if Js.truthy parserName
      then parser <- _loadParser parserName filePath name ;;
           ret (Parser parser)
      else ret EmptyParserName
  | None => ret NoParser
  end.

Definition loadPluginsOf (configData : ConfigData) (filePath name : string)
  : M (option (list (string * ConfigDependency))) :=
  match cd_plugins configData with
  | Some pluginList =>
      plugins <- _loadPlugins pluginList filePath name ;;
      ret (Some plugins)
  | None => ret None
  end.

Definition processorsOf
  (plugins : option (list (string * ConfigDependency)))
  (filePath name : string) : M (list ConfigArrayElement) :=
  match plugins with
  | Some plugins => _takeFileExtensionProcessors plugins filePath name
  | None => ret []
  end.

(** The loop over [overrides] of [_normalizeObjectConfigDataBody]. *)
Definition flattenOverrides (overrideList : list ConfigData)
  (filePath name : string) : M (list ConfigArrayElement) :=
  yield_each
    (fun entry : nat * ConfigData =>
       normalize (Some (snd entry)) filePath
         (overrideName name (fst entry)))
    (indexed overrideList).

(** [_normalizeObjectConfigDataBody(configBody, filePath, name)] *)
Definition _normalizeObjectConfigDataBody (configData : ConfigData)
  (filePath name : string) : M (list ConfigArrayElement) :=
  extended <- flattenExtends (cd_extends configData) filePath name ;;
  parser <- loadParserOf configData filePath name ;;
  plugins <- loadPluginsOf configData filePath name ;;
  processors <- processorsOf plugins filePath name ;;
  overridden <-
    flattenOverrides (cd_overrides configData) filePath name ;;
  ret (extended ++ processors
         ++ [ownElement configData filePath name parser plugins]
         ++ overridden)%list.

End Generators.

(** [filePath ? path.dirname(filePath) : this._cwd] *)
Definition basePathOf (filePath : string) : string :=
  if Js.truthy filePath then path_dirname w filePath else _cwd this.

Definition destructureNull : Error :=
  newError "Cannot destructure a value that is null or undefined.".

(** [_normalizeObjectConfigData(configData, filePath, name)], drained.
    Every call takes one unit of fuel. *)
Fixpoint _normalizeObjectConfigData (fuel : nat) (configData : JsConfig)
  (filePath name : string) : M (list ConfigArrayElement) :=
  match fuel with
  | O => out_of_fuel
  | S fuel' =>
      match configData with
      | None => throw destructureNull
      | Some data =>
          let basePath := basePathOf filePath in
          let criteria :=
            OverrideTester.create (cd_files data) (cd_excludedFiles data)
              basePath in
          elements <-
            _normalizeObjectConfigDataBody
              (_normalizeObjectConfigData fuel') data filePath name ;;
          ret (map (applyCriteria criteria basePath) elements)
      end
  end.

(* ---------------------------------------------------------------- *)
(** *** The public methods *)

(** [create(configData, { filePath, name, parent })] *)
Definition create (fuel : nat) (configData : JsConfig)
  (filePath name : string) (parent : option ConfigArray) : M ConfigArray :=
  match configData with
  | Some _ =>
      g <- _normalizeConfigData configData filePath name ;;
      elements <- run (_normalizeObjectConfigData fuel) g ;;
      ret (createConfigArray (Some elements) parent)
  | None => ret (createConfigArray None parent)
  end.

(** [loadFile(filePath, { name, parent })] *)
Definition loadFile (fuel : nat) (filePath name : string)
  (parent : option ConfigArray) : M ConfigArray :=
  let absolutePath := path_resolve w (_cwd this) filePath in
  g <- _loadConfigData absolutePath name ;;
  elements <- run (_normalizeObjectConfigData fuel) g ;;
  ret (createConfigArray (Some elements) parent).

(** [loadOnDirectory(directoryPath, { name, parent })] *)
Definition loadOnDirectory (fuel : nat) (directoryPath name : string)
  (parent : option ConfigArray) : M ConfigArray :=
  let absolutePath := path_resolve w (_cwd this) directoryPath in
  found <- _loadConfigDataOnDirectory absolutePath name ;;
  match found with
  | Some g =>
      elements <- run (_normalizeObjectConfigData fuel) g ;;
      ret (createConfigArray (Some elements) parent)
  | None => ret (createConfigArray None parent)
  end.

End Factory.

(* ------------------------------------------------------------------ *)
(** ** A small project on which the factory can be run *)
(* ------------------------------------------------------------------ *)

Module Demo.

Definition isAbsolute (s : string) : bool := Js.startsWith "/" s.

Definition resolve (from to : string) : string :=
  if isAbsolute to then to else from ++ "/" ++ to.

Definition join (a b : string) : string := a ++ "/" ++ b.

Definition dirname (s : string) : string :=
  let i := Js.lastIndexOf "/"%char s in
  if (i <=? 0)%Z then "/" else Js.slice s 0 i.

Definition basename (s : string) : string :=
  Js.slice_from s (Js.lastIndexOf "/"%char s + 1).

Definition extname (s : string) : string :=
  let b := basename s in
  let i := Js.lastIndexOf "."%char b in
  if (i <=? 0)%Z then "" else Js.slice_from b i.

Definition relative (from to : string) : string :=
  if Js.startsWith (from ++ "/") to
  then Js.slice_from to (Js.len from + 1)
  else to.

Definition enoent (p : string) : Error :=
  mkError ("ENOENT: no such file or directory, open '" ++ p ++ "'")
    (Some "ENOENT") None [].

Definition moduleNotFound (request : string) : Error :=
  mkError ("Cannot find module '" ++ request ++ "'")
    (Some "MODULE_NOT_FOUND") None [].

Definition rulesOf (k : string) (v : Z) : option Json :=
  Some (JObj [(k, JNum v)]).

Definition config (extend : StrOrList) (plugins : option (list string))
  (root : option bool) (rules : option Json) (overrides : list ConfigData)
  : ConfigData :=
  mkConfigData Undef Undef None extend None None None plugins None root
    rules None overrides.

Definition override (files : string) (extend : StrOrList)
  (rules : option Json) (overrides : list ConfigData) : ConfigData :=
  mkConfigData (One files) Undef None extend None None None None None None
    rules None overrides.

(** The config files that are scripts, with what they export. *)
Definition scripts : list (string * ConfigData) :=
  [ ("/proj/node_modules/eslint-config-foo/index.js",
     config Undef None None (rulesOf "eqeqeq" 2) []);
    ("/proj/node_modules/eslint-config-root/index.js",
     config Undef None (Some true) (rulesOf "eqeqeq" 2) []);
    ("/proj/node_modules/eslint-config-has-overrides/index.js",
     config Undef None None (rulesOf "eqeqeq" 2)
       [override "**/foo/**/*.js" Undef (rulesOf "eqeqeq" 0) []]);
    ("/conf/eslint-recommended.js",
     config Undef None None (rulesOf "no-undef" 2) []);
    ("/conf/eslint-all.js",
     config Undef None None (rulesOf "curly" 2) []) ].

(** The config file of the project. *)
Definition rc : ConfigData :=
  config (One "foo") None (Some true) (rulesOf "semi" 2)
    [override "*.xxx" (One "root") (rulesOf "semi" 0) []].

(** The JSON files, with the document they hold. *)
Definition documents : list (string * JsonDoc) :=
  [ ("/proj/.eslintrc.json", JsonObject rc None);
    ("/proj/bare/package.json",
     JsonObject emptyConfigData None);
    ("/proj/pkg/package.json",
     JsonObject emptyConfigData
       (Some (Some (config Undef None None (rulesOf "quotes" 1) [])))) ].

(** The modules that [require] can load. *)
Definition modules : list (string * Module) :=
  [ ("/proj/node_modules/eslint-plugin-md/index.js",
     mkModule "eslint-plugin-md"
       (Some [("strict", config Undef None None (rulesOf "md" 2) [])])
       (Some [".md"; "other"]));
    ("/proj/sub/node_modules/eslint-plugin-local/index.js",
     mkModule "eslint-plugin-local" None None);
    ("/proj/sub/node_modules/my-parser/index.js",
     mkModule "my-parser" None None) ].

Definition has {A} (k : string) (l : list (string * A)) : bool :=
  match assoc k l with Some _ => true | None => false end.

(** Resolution looks only into the [node_modules] next to the
    importer. *)
Definition resolveModule (request relativeTo : string) : Res string :=
  let candidate :=
    dirname relativeTo ++ "/node_modules/" ++ request ++ "/index.js" in
  if has candidate scripts || has candidate modules
  then Returns candidate
  else Throws (moduleNotFound request).

Definition normalizePackageName (name prefix : string) : string :=
  if Js.startsWith (prefix ++ "-") name then name
  else prefix ++ "-" ++ name.

Definition getShorthandName (fullname prefix : string) : string :=
  if Js.startsWith (prefix ++ "-") fullname
  then Js.slice_from fullname (Js.len prefix + 1)
  else fullname.

Definition world : World :=
  {| path_resolve := resolve;
     path_dirname := dirname;
     path_join := join;
     path_relative := relative;
     path_isAbsolute := isAbsolute;
     path_extname := extname;
     path_basename := basename;
     fs_readFileSync := fun p =>
       if has p documents then Returns p else Throws (enoent p);
     stripComments := fun s => s;
     JSON_parse := fun content =>
       match assoc content documents with
       | Some doc => Returns doc
       | None => Throws (newError "Unexpected token")
       end;
     yaml_safeLoad := fun _ => Returns None;
     importFresh := fun p =>
       match assoc p scripts with
       | Some data => Returns (Some data)
       | None => Throws (moduleNotFound p)
       end;
     validateConfigSchema := fun _ _ => None;
     ModuleResolver_resolve := resolveModule;
     require := fun p =>
       match assoc p modules with
       | Some m => Returns m
       | None => Throws (moduleNotFound p)
       end;
     espree_bundled := mkModule "espree" None None;
     espree_bundled_path := "/eslint/node_modules/espree/espree.js";
     naming_normalizePackageName := normalizePackageName;
     naming_getShorthandName := getShorthandName;
     eslintRecommendedPath := "/conf/eslint-recommended.js";
     eslintAllPath := "/conf/eslint-all.js" |}.

Definition factory : ConfigArrayFactory :=
  {| _additionalParserPool := [];
     _additionalPluginPool := [];
     _cwd := "/proj" |}.

End Demo.


(* ------------------------------------------------------------------ *)
(** ** Statements about the factory *)
(* ------------------------------------------------------------------ *)

(** A call of one of the three public methods. *)
Inductive Request : Type :=
| Create (configData : JsConfig) (filePath name : string)
| LoadFile (filePath name : string)
| LoadOnDirectory (directoryPath name : string).

Definition resolution (w : World) (this : ConfigArrayFactory) (fuel : nat)
  (r : Request) (parent : option ConfigArray) : M ConfigArray :=
  match r with
  | Create configData filePath name =>
      create w this fuel configData filePath name parent
  | LoadFile filePath name => loadFile w this fuel filePath name parent
  | LoadOnDirectory directoryPath name =>
      loadOnDirectory w this fuel directoryPath name parent
  end.

(** An element with criteria does not say [root]. *)
Definition scoped_has_no_root (e : ConfigArrayElement) : Prop :=
  el_criteria e <> None -> el_root e = None.

(** The elements of the project of [Demo], loaded from its config file. *)
Definition demo_elements : list ConfigArrayElement :=
  Eval vm_compute in
    match
      outcome (_normalizeObjectConfigData Demo.world Demo.factory 3
                 (Some Demo.rc)
                 "/proj/.eslintrc.json" ".eslintrc.json")
    with
    | Ok l => l
    | _ => []
    end.

(** The criteria of an element, when it has some, are relative to
    [base]. *)
Definition based_at (base : string) (e : ConfigArrayElement) : Prop :=
  forall c, el_criteria e = Some c -> OverrideTester.basePath c = base.

(** What Node guarantees of [path.resolve] and [path.join]: the resolved
    path is absolute, so it is not empty and resolving it again changes
    nothing; a joined path is not empty. *)
Record NodePath (w : World) (this : ConfigArrayFactory) : Prop := {
  resolve_nonempty :
    forall p, Js.truthy (path_resolve w (_cwd this) p) = true;
  resolve_absolute :
    forall p,
      path_resolve w (_cwd this) (path_resolve w (_cwd this) p)
      = path_resolve w (_cwd this) p;
  join_nonempty :
    forall d f, Js.truthy (path_join w d f) = true
}.

(** The array of the project of [Demo], as [loadFile] returns it. *)
Definition demo_array : ConfigArray :=
  Eval vm_compute in
    match
      outcome (loadFile Demo.world Demo.factory 3 ".eslintrc.json" "" None)
    with
    | Ok l => l
    | _ => []
    end.

(** The array of the directory [pkg] of the project, with the array of
    the project as its parent. *)
Definition demo_cascade : ConfigArray :=
  Eval vm_compute in
    match
      outcome (loadOnDirectory Demo.world Demo.factory 3 "pkg" ""
                 (Some demo_array))
    with
    | Ok l => l
    | _ => []
    end.

(** A level with [files: "*.xxx"] that holds an entry of [overrides] with
    [files: "*.yyy"], and what it flattens to in the project of [Demo]. *)
Definition demo_nested : ConfigData :=
  Demo.override "*.xxx" Undef (Demo.rulesOf "semi" 1)
    [Demo.override "*.yyy" Undef (Demo.rulesOf "semi" 2) []].

Definition demo_nested_elements : list ConfigArrayElement :=
  Eval vm_compute in
    match
      outcome (_normalizeObjectConfigData Demo.world Demo.factory 2
                 (Some demo_nested) "" "#overrides[0]")
    with
    | Ok l => l
    | _ => []
    end.

(** The element that an entry of [overrides] yields for itself is found in
    the elements of the level that declares it, with the conjunction of
    both criteria. *)
Definition has_grandchild (w : World) (this : ConfigArrayFactory)
  (data : ConfigData) (filePath name : string) (i : nat) (entry : ConfigData)
  (elements : list ConfigArrayElement) : Prop :=
  let base := basePathOf w this filePath in
  let X := OverrideTester.create (cd_files data) (cd_excludedFiles data) base in
  let Y :=
    OverrideTester.create (cd_files entry) (cd_excludedFiles entry) base in
  exists before after parser plugins,
    elements
    = (before
         ++ applyCriteria X base
              (applyCriteria Y base
                 (ownElement entry filePath (overrideName name i) parser
                    plugins))
         :: after)%list
    /\ el_criteria
         (applyCriteria X base
            (applyCriteria Y base
               (ownElement entry filePath (overrideName name i) parser
                  plugins)))
       = OverrideTester.and X Y.

(** A config that names a plugin with a space in its name. *)
Definition demo_whitespace : ConfigData :=
  Demo.config Undef (Some ["a b"]) None None [].

Definition is_require (ev : Event) : Prop :=
  match ev with
  | EvRequire _ => True
  | _ => False
  end.

(** The dependency that [_loadPlugin] returns for a name with white
    space. *)
Definition whitespaceDependency (w : World) (nameOrPath importerPath : string)
  : ConfigDependency :=
  let request := naming_normalizePackageName w nameOrPath "eslint-plugin" in
  mkConfigDependency None (Some (whitespaceError nameOrPath request)) None
    (naming_getShorthandName w request "eslint-plugin") None importerPath.



(** A name that is a file path at sight: it starts with [./] or [../], or
    it is absolute. *)
Definition looks_like_path (w : World) (name : string) : Prop :=
  Js.startsWith "./" name = true
  \/ Js.startsWith "../" name = true
  \/ path_isAbsolute w name = true.

(** A candidate that the search in a directory passes over: loading it
    throws an error with one of the three codes, or gives a falsy value. *)
Definition skipped (w : World) (filePath : string) : Prop :=
  match loadConfigFile w filePath with
  | Returns None => True
  | Returns (Some _) => False
  | Throws e => soft_code e = true
  end.

(** There is no file at [filePath]: reading it and evaluating it fail with
    the codes of Node for a missing file and a missing module. *)
Definition absent (w : World) (filePath : string) : Prop :=
  (exists e,
     fs_readFileSync w filePath = Throws e /\ err_code e = Some "ENOENT")
  /\ (exists e,
        importFresh w filePath = Throws e
        /\ err_code e = Some "MODULE_NOT_FOUND").

(** [filePath] is a [package.json] that holds an object without the
    property [eslintConfig]. *)
Definition manifest_without_field (w : World) (filePath : string) : Prop :=
  path_extname w filePath = ".json"
  /\ path_basename w filePath = "package.json"
  /\ exists content self,
       fs_readFileSync w filePath = Returns content
       /\ JSON_parse w (stripComments w (Js.strip_bom content))
          = Returns (JsonObject self None).

Definition loadEvents (w : World) (directoryPath : string)
  (filenames : list string) : list Event :=
  map (fun filename => EvLoadConfigFile (path_join w directoryPath filename))
    filenames.

(** [parent || new ConfigArray()] *)
Definition parentOrEmpty (parent : option ConfigArray) : ConfigArray :=
  match parent with
  | Some p => p
  | None => []
  end.

(** What is left of [loadOnDirectory] once the config data of the file at
    [filePath] is at hand. *)
Definition loadFound (w : World) (this : ConfigArrayFactory) (fuel : nat)
  (data : ConfigData) (filePath name : string) (parent : option ConfigArray)
  : M ConfigArray :=
  g <- _normalizeConfigData w this (Some data) filePath name ;;
  elements <- run (_normalizeObjectConfigData w this fuel) g ;;
  ret (createConfigArray (Some elements) parent).

(* ------------------------------------------------------------------ *)
(** ** Further statements and examples *)
(* ------------------------------------------------------------------ *)

(** The world [w] with another file system and another YAML parser. *)
Definition withFiles (w : World) (read : string -> Res string)
  (yaml : string -> Res JsConfig) : World :=
  mkWorld (path_resolve w) (path_dirname w) (path_join w) (path_relative w)
    (path_isAbsolute w) (path_extname w) (path_basename w)
    read (stripComments w) (JSON_parse w) yaml (importFresh w)
    (validateConfigSchema w) (ModuleResolver_resolve w) (require w)
    (espree_bundled w) (espree_bundled_path w)
    (naming_normalizePackageName w) (naming_getShorthandName w)
    (eslintRecommendedPath w) (eslintAllPath w).

(** The project of [Demo] where every file that is read holds a byte order
    mark and nothing else, which is an empty YAML document. *)
Definition demo_bom_world : World :=
  withFiles Demo.world (fun _ => Returns (Js.bom ++ ""))
    (fun _ => Returns None).

(** A config without [extends], [parser], [plugins] and [overrides]. *)
Definition demo_leaf : ConfigData :=
  mkConfigData Undef Undef (Some (JObj [("node", JBool true)])) Undef None
    None None None None (Some true) (Demo.rulesOf "semi" 2) None [].

(** The message of an error that names the config file that could not be
    read. *)
Definition wrapped (filePath : string) (e : Error) : Prop :=
  exists cause,
    err_message e
    = "Cannot read config file: " ++ filePath ++ Js.newline ++ "Error: "
        ++ cause.

(** What [loadConfigFile] throws in the project of [Demo] for a JSON file
    that does not exist. *)
Definition demo_missing_error : Error :=
  Eval vm_compute in
    match loadConfigFile Demo.world "/proj/none.json" with
    | Throws e => e
    | Returns _ => newError ""
    end.

(** The id under which [_loadPlugin] files a plugin. *)
Definition pluginIdOf (w : World) (nameOrPath : string) : string :=
  if isFilePath w nameOrPath then nameOrPath
  else
    naming_getShorthandName w
      (naming_normalizePackageName w nameOrPath "eslint-plugin")
      "eslint-plugin".

(** The element made up for the processor [processorId] of the plugin
    [pluginId]. *)
Definition processorElement (w : World) (this : ConfigArrayFactory)
  (filePath name pluginId processorId : string) : ConfigArrayElement :=
  mkElement (processorName name pluginId processorId) filePath
    (Some (OverrideTester.mk [(["*" ++ processorId], [])]
             (basePathOf w this filePath)))
    None None NoParser None None
    (Some (pluginId ++ "/" ++ processorId))
    None None None.

(** The processors of a plugin that are named like a file extension. *)
Definition extensionProcessors (plugin : ConfigDependency) : list string :=
  match dep_definition plugin with
  | Some definition =>
      match mod_processors definition with
      | Some processors => filter (Js.startsWith ".") processors
      | None => []
      end
  | None => []
  end.

(** The entries of [extends] as they are written: a string stands for
    the list of that one string. *)
Definition writtenExtends (extend : StrOrList) : list string :=
  match extend with
  | Many l => l
  | One s => [s]
  | Undef => []
  end.

(** The non-empty ones among them, in the declared order. *)
Definition nonEmptyExtends (data : ConfigData) : list string :=
  filter (fun entry => negb (String.eqb entry ""))
    (writtenExtends (cd_extends data)).

(** The value of [parser] in the element of a level: the dependency that
    [_loadParser] returns for the name, the name itself when it is empty,
    nothing when no parser is named. *)
Definition parserOf (w : World) (this : ConfigArrayFactory)
  (data : ConfigData) (filePath name : string) (parser : ParserValue)
  : Prop :=
  match cd_parser data with
  | None => parser = NoParser
  | Some parserName =>
      if String.eqb parserName "" then parser = EmptyParserName
      else
        exists dep,
          outcome (_loadParser w this parserName filePath name) = Ok dep
          /\ parser = Parser dep
  end.

(** The value of [plugins] in the element of a level: the map that
    [_loadPlugins] returns for the list, nothing when there is no list. *)
Definition pluginsOf (w : World) (this : ConfigArrayFactory)
  (data : ConfigData) (filePath name : string)
  (plugins : option (list (string * ConfigDependency))) : Prop :=
  match cd_plugins data with
  | None => plugins = None
  | Some names =>
      exists loadedPlugins,
        outcome (_loadPlugins w this names filePath name) = Ok loadedPlugins
        /\ plugins = Some loadedPlugins
  end.

(** The elements made up for the file-extension processors of the plugins
    of a level: plugin by plugin, processor by processor. *)
Definition processorElements (w : World) (this : ConfigArrayFactory)
  (filePath name : string)
  (plugins : option (list (string * ConfigDependency)))
  : list ConfigArrayElement :=
  match plugins with
  | Some loadedPlugins =>
      flat_map
        (fun entry : string * ConfigDependency =>
           map (processorElement w this filePath name (fst entry))
             (extensionProcessors (snd entry)))
        loadedPlugins
  | None => []
  end.

(** The order of the elements of one level.  [extended] holds the elements
    of each non-empty entry of [extends], [overridden] those of each entry
    of [overrides]; between them come the elements of the file-extension
    processors and the element of the level itself. *)
Definition flattened_as (w : World) (this : ConfigArrayFactory) (fuel : nat)
  (data : ConfigData) (filePath name : string)
  (elements : list ConfigArrayElement) : Prop :=
  let normalize := _normalizeObjectConfigData w this fuel in
  let basePath := basePathOf w this filePath in
  let criteria :=
    OverrideTester.create (cd_files data) (cd_excludedFiles data) basePath in
  exists (extended overridden : list (list ConfigArrayElement))
         (parser : ParserValue)
         (plugins : option (list (string * ConfigDependency))),
    Forall2
      (fun extendName r =>
         exists g,
           outcome (_loadExtends w this extendName filePath name) = Ok g
           /\ outcome (normalize (gen_configData g) (gen_filePath g)
                         (gen_name g)) = Ok r)
      (nonEmptyExtends data) extended
    /\ Forall2
         (fun (entry : nat * ConfigData) r =>
            outcome (normalize (Some (snd entry)) filePath
                       (name ++ "#overrides[" ++ Js.of_nat (fst entry)
                          ++ "]")) = Ok r)
         (combine (seq 0 (List.length (cd_overrides data)))
            (cd_overrides data))
         overridden
    /\ parserOf w this data filePath name parser
    /\ pluginsOf w this data filePath name plugins
    /\ elements
       = map (applyCriteria criteria basePath)
           (List.concat extended
              ++ processorElements w this filePath name plugins
              ++ [ownElement data filePath name parser plugins]
              ++ List.concat overridden)%list.

(** A config with the plugin [md], which defines the processors [.md] and
    [other], and with neither [extends] nor [overrides]. *)
Definition demo_with_processor : ConfigData :=
  Demo.config Undef (Some ["md"]) None None [].

(** The project of [Demo] with one more shareable config, [chain], which
    extends an unknown built-in config. *)
Definition demo_chain_world : World :=
  mkWorld Demo.resolve Demo.dirname Demo.join Demo.relative Demo.isAbsolute
    Demo.extname Demo.basename
    (fs_readFileSync Demo.world) (stripComments Demo.world)
    (JSON_parse Demo.world) (yaml_safeLoad Demo.world)
    (fun p =>
       if String.eqb p "/proj/node_modules/eslint-config-chain/index.js"
       then Returns (Some (Demo.config (One "eslint:foo") None None None []))
       else importFresh Demo.world p)
    (validateConfigSchema Demo.world)
    (fun request relativeTo =>
       if String.eqb request "eslint-config-chain"
       then Returns "/proj/node_modules/eslint-config-chain/index.js"
       else ModuleResolver_resolve Demo.world request relativeTo)
    (require Demo.world)
    (espree_bundled Demo.world) (espree_bundled_path Demo.world)
    Demo.normalizePackageName Demo.getShorthandName
    (eslintRecommendedPath Demo.world) (eslintAllPath Demo.world).

(** A config that extends [chain]. *)
Definition demo_chained : ConfigData :=
  Demo.config (One "chain") None None None [].

(** [definition && definition.configs && definition.configs[configName]]
    for the definition of a plugin, among the own properties of
    [configs]. *)
Definition pluginConfig (plugin : ConfigDependency) (configName : string)
  : option ConfigData :=
  match dep_definition plugin with
  | Some definition =>
      match mod_configs definition with
      | Some configs => assoc configName configs
      | None => None
      end
  | None => None
  end.

(** What [_loadExtendedShareableConfig] asks of the module resolver. *)
Definition shareableRequest (w : World) (extendName : string) : string :=
  if isFilePath w extendName then extendName
  else if Js.startsWith "." extendName then "./" ++ extendName
  else naming_normalizePackageName w extendName "eslint-config".

(** A computation that did not stop for lack of fuel. *)
Definition finished {A} (m : M A) : Prop := outcome m <> OutOfFuel.

(** No level of the config data has a non-empty entry of [extends]. *)
Fixpoint extends_nothing (data : ConfigData) : bool :=
  match data with
  | mkConfigData _ _ _ extend _ _ _ _ _ _ _ _ overrides =>
      match extendListOf extend with
      | [] => forallb extends_nothing overrides
      | _ :: _ => false
      end
  end.

(** How deep the [overrides] of a config data nest, from 1. *)
Fixpoint nesting (data : ConfigData) : nat :=
  match data with
  | mkConfigData _ _ _ _ _ _ _ _ _ _ _ _ overrides =>
      S (list_max (map nesting overrides))
  end.

(** A computation that returns, or throws the error of a file path among
    the plugins. *)
Definition returns_or_refuses_path {A} (m : M A) : Prop :=
  (exists a, outcome m = Ok a) \/ outcome m = Throw filePathInPlugins.

(** A config with [overrides] in [overrides], none of which extends
    anything. *)
Definition demo_deep : ConfigData :=
  Demo.config Undef (Some ["md"]) None (Demo.rulesOf "semi" 2)
    [Demo.override "*.a" Undef None
       [Demo.override "*.b" Undef None [];
        Demo.override "*.c" Undef None
          [Demo.override "*.d" Undef None []]]].

(* ------------------------------------------------------------------ *)
(** ** The engine that uses the factory: its helpers *)
(* ------------------------------------------------------------------ *)

Module CLIEngine.

(** A fix attached to a message. *)
Record Fix : Type := mkFix {
  fix_range : Z * Z;
  fix_text : string
}.

(** A message of the linter, with the properties that the engine reads. *)
Record LintMessage : Type := mkMessage {
  msg_ruleId : option string;
  msg_fatal : option bool;
  msg_severity : Z;
  msg_message : string;
  msg_fix : option Fix
}.

(** The four counters. *)
Record Stats : Type := mkStats {
  errorCount : nat;
  warningCount : nat;
  fixableErrorCount : nat;
  fixableWarningCount : nat
}.

(** The result for one file. *)
Record LintResult : Type := mkResult {
  res_filePath : string;
  res_messages : list LintMessage;
  res_errorCount : nat;
  res_warningCount : nat;
  res_fixableErrorCount : nat;
  res_fixableWarningCount : nat;
  res_output : option string;
  res_source : option string
}.

(** [message.fatal || message.severity === 2] *)
Definition isError (message : LintMessage) : bool :=
  match msg_fatal message with
  | Some true => true
  | _ => (msg_severity message =? 2)%Z
  end.

(** [message.fix], as a condition. *)
Definition hasFix (message : LintMessage) : bool :=
  match msg_fix message with
  | Some _ => true
  | None => false
  end.

Definition noStats : Stats := mkStats 0 0 0 0.

(** [calculateStatsPerFile(messages)] *)
Definition calculateStatsPerFile (messages : list LintMessage) : Stats :=
  fold_left
    (fun stat message =>
       if isError message
       then mkStats (S (errorCount stat)) (warningCount stat)
              (if hasFix message then S (fixableErrorCount stat)
               else fixableErrorCount stat)
              (fixableWarningCount stat)
       else mkStats (errorCount stat) (S (warningCount stat))
              (fixableErrorCount stat)
              (if hasFix message then S (fixableWarningCount stat)
               else fixableWarningCount stat))
    messages noStats.

(** [calculateStatsPerRun(results)] *)
Definition calculateStatsPerRun (results : list LintResult) : Stats :=
  fold_left
    (fun stat result =>
       mkStats (errorCount stat + res_errorCount result)
         (warningCount stat + res_warningCount result)
         (fixableErrorCount stat + res_fixableErrorCount result)
         (fixableWarningCount stat + res_fixableWarningCount result))
    results noStats.

Definition validFixTypes : list string := ["problem"; "suggestion"; "layout"].

Definition isValidFixType (fixType : string) : bool :=
  existsb (String.eqb fixType) validFixTypes.

(** [validateFixTypes(fixTypes)] *)
Fixpoint validateFixTypes (fixTypes : list string) : Res unit :=
  match fixTypes with
  | [] => Returns tt
  | fixType :: rest =>
      if negb (isValidFixType fixType)
      then Throws
             (newError ("Invalid fix type " ++ Js.dquote ++ fixType
                          ++ Js.dquote ++ " found."))
      else validateFixTypes rest
  end.

(** [s.split(c)] for a one-character separator. *)
Fixpoint split (c : ascii) (s : string) : list string :=
  match s with
  | EmptyString => [EmptyString]
  | String a rest =>
      if Ascii.eqb a c then EmptyString :: split c rest
      else
        match split c rest with
        | first :: others => String a first :: others
        | [] => [String a EmptyString]
        end
  end.

(** The value of [envs] or [globals] in the options: falsy, an array, or
    something else. *)
Inductive Keys : Type :=
| KeysFalsy
| KeysArray (keys : list string)
| KeysOther.

(** The callback of the [reduce] of [toBooleanMap]. *)
Definition addKey (defaultValue : bool) (map : list (string * bool))
  (def : string) : list (string * bool) :=
  let parts := split ":" def in
  let key := hd EmptyString parts in
  if negb (String.eqb key "__proto__")
  then JsObject.set key
         (match nth_error parts 1 with
          | None => defaultValue
          | Some value => String.eqb value "true"
          end)
         map
  else map.

(** [toBooleanMap(keys, defaultValue, displayName)] *)
Definition toBooleanMap (keys : Keys) (defaultValue : bool)
  (displayName : string) : Res (option (list (string * bool))) :=
  match keys with
  | KeysOther => Throws (newError (displayName ++ " must be an array."))
  | KeysArray (def :: rest) =>
      Returns (Some (fold_left (addKey defaultValue) (def :: rest) []))
  | KeysArray [] => Returns None
  | KeysFalsy => Returns None
  end.

(** The options from which the config data of the command line is made. *)
Record Options : Type := mkOptions {
  opt_envs : Keys;
  opt_globals : Keys;
  opt_parser : option string;
  opt_parserOptions : option Json;
  opt_plugins : option (list string);
  opt_rules : option Json
}.

Definition booleanMapJson (map : list (string * bool)) : Json :=
  JObj (List.map (fun entry => (fst entry, JBool (snd entry))) map).

(** [createConfigDataFromOptions(options)] *)
Definition createConfigDataFromOptions (options : Options) : Res JsConfig :=
  res_bind (toBooleanMap (opt_envs options) true "envs") (fun env =>
  res_bind (toBooleanMap (opt_globals options) false "globals") (fun globals =>
  match env, globals, opt_parser options, opt_parserOptions options,
        opt_plugins options, opt_rules options with
  | None, None, None, None, None, None => Returns None
  | _, _, _, _, _, _ =>
      Returns
        (Some
           (mkConfigData Undef Undef (option_map booleanMapJson env) Undef
              (option_map booleanMapJson globals) (opt_parser options)
              (opt_parserOptions options) (opt_plugins options) None None
              (opt_rules options) None []))
  end)).

(** What [linter.verifyAndFix] returns. *)
Record Verified : Type := mkVerified {
  vf_fixed : bool;
  vf_messages : list LintMessage;
  vf_output : string
}.

(** [s.endsWith(suffix)] *)
Definition endsWith (suffix s : string) : bool :=
  (String.length suffix <=? String.length s)
  && String.eqb
       (String.substring (String.length s - String.length suffix)
          (String.length suffix) s)
       suffix.

(** [verifyText] from the result of the linter on: [basename] stands for
    [path.basename(filePath, path.extname(filePath))]. *)
Definition verifyText (basename : string) (text filePath : string)
  (verified : Verified) : LintResult :=
  let resultFilePath :=
    if Js.startsWith "<" basename && endsWith ">" basename
    then basename else filePath in
  let stats := calculateStatsPerFile (vf_messages verified) in
  let output :=
    if vf_fixed verified then Some (vf_output verified) else None in
  mkResult resultFilePath (vf_messages verified)
    (errorCount stats) (warningCount stats)
    (fixableErrorCount stats) (fixableWarningCount stats)
    output
    (if (0 <? errorCount stats + warningCount stats)
        && match output with None => true | Some _ => false end
     then Some text else None).

Definition ignoredHidden : string :=
  "File ignored by default.  Use a negated ignore pattern (like "
    ++ Js.dquote ++ "--ignore-pattern '!<relative/path/to/filename>'"
    ++ Js.dquote ++ ") to override.".

Definition ignoredIn (directory : string) : string :=
  "File ignored by default. Use " ++ Js.dquote ++ "--ignore-pattern '!"
    ++ directory ++ "/*'" ++ Js.dquote ++ " to override.".

Definition ignoredByPattern : string :=
  "File ignored because of a matching ignore pattern. Use " ++ Js.dquote
    ++ "--no-ignore" ++ Js.dquote ++ " to override.".

(** [createIgnoreResult(filePath, baseDir)]; [processCwd] is the working
    directory of the process, against which [path.resolve(filePath)]
    resolves. *)
Definition createIgnoreResult (w : World) (processCwd : string)
  (filePath baseDir : string) : LintResult :=
  let isHidden := Js.startsWith "." (path_basename w filePath) in
  let isInNodeModules :=
    Js.truthy baseDir
    && Js.startsWith "node_modules" (path_relative w baseDir filePath) in
  let isInBowerComponents :=
    Js.truthy baseDir
    && Js.startsWith "bower_components" (path_relative w baseDir filePath) in
  let message :=
    if isHidden then ignoredHidden
    else if isInNodeModules then ignoredIn "node_modules"
    else if isInBowerComponents then ignoredIn "bower_components"
    else ignoredByPattern in
  mkResult (path_resolve w processCwd filePath)
    [mkMessage None (Some false) 1 message None]
    0 1 0 0 None None.

(** The counters of a result are those of its messages. *)
Definition consistent (result : LintResult) : Prop :=
  calculateStatsPerFile (res_messages result)
  = mkStats (res_errorCount result) (res_warningCount result)
      (res_fixableErrorCount result) (res_fixableWarningCount result).

End CLIEngine.

(** The key and the value that [toBooleanMap] reads from [key:value]. *)
Definition keyOf (def : string) : string :=
  hd EmptyString (CLIEngine.split ":" def).

Definition valueOf (defaultValue : bool) (def : string) : bool :=
  match nth_error (CLIEngine.split ":" def) 1 with
  | None => defaultValue
  | Some value => String.eqb value "true"
  end.

(** Does the character occur in the string? *)
Fixpoint has_char (c : ascii) (s : string) : bool :=
  match s with
  | EmptyString => false
  | String a rest => Ascii.eqb a c || has_char c rest
  end.

(** Results as the engine makes them: one for an ignored hidden file, one
    for a file with an error that has a fix and a warning. *)
Definition demo_results : list CLIEngine.LintResult :=
  [ CLIEngine.createIgnoreResult Demo.world "/proj" "/proj/.hidden.js" "/proj";
    CLIEngine.verifyText "a" "var x" "/proj/a.js"
      (CLIEngine.mkVerified false
         [ CLIEngine.mkMessage (Some "semi") None 2 "Missing semicolon."
             (Some (CLIEngine.mkFix (5, 5)%Z ";"));
           CLIEngine.mkMessage (Some "no-unused-vars") None 1
             "'x' is defined but never used." None ]
         "") ].

(** A value of [envs] or [globals] that names nothing. *)
Definition names_nothing (keys : CLIEngine.Keys) : Prop :=
  keys = CLIEngine.KeysFalsy \/ keys = CLIEngine.KeysArray [].

(** The project of [Demo] where every script exports [null]. *)
Definition demo_null_world : World :=
  mkWorld Demo.resolve Demo.dirname Demo.join Demo.relative Demo.isAbsolute
    Demo.extname Demo.basename
    (fs_readFileSync Demo.world) (stripComments Demo.world)
    (JSON_parse Demo.world) (yaml_safeLoad Demo.world)
    (fun _ => Returns None)
    (validateConfigSchema Demo.world) Demo.resolveModule
    (require Demo.world)
    (espree_bundled Demo.world) (espree_bundled_path Demo.world)
    Demo.normalizePackageName Demo.getShorthandName
    (eslintRecommendedPath Demo.world) (eslintAllPath Demo.world).

(* ------------------------------------------------------------------ *)
(** ** Reasoning about computations *)
(* ------------------------------------------------------------------ *)

Lemma append_assoc (a b c : string) : ((a ++ b) ++ c = a ++ (b ++ c))%string.
Proof. induction a as [| x a IH]; simpl; [| rewrite IH]; reflexivity. Qed.

Lemma outcome_bind_Ok {A B} (m : M A) (f : A -> M B) (b : B) :
  outcome (bind m f) = Ok b ->
  exists a, outcome m = Ok a /\ outcome (f a) = Ok b.
Proof.
  destruct m as [t [a | e |]]; simpl; try discriminate.
  destruct (f a) as [t2 o] eqn:E. simpl. intros ->.
  exists a. rewrite E. auto.
Qed.

(** Split a hypothesis [outcome (x <- m ;; k) = Ok b] into the two runs. *)
Tactic Notation "bind_ok" hyp(H) "as" ident(x) ident(Hx) :=
  apply outcome_bind_Ok in H; destruct H as (x & Hx & H).

Lemma outcome_bind_step {A B} (m : M A) (f : A -> M B) (a : A) :
  outcome m = Ok a -> outcome (bind m f) = outcome (f a).
Proof.
  destruct m as [t o]. simpl. intros ->. destruct (f a). reflexivity.
Qed.

Lemma outcome_bind_Throw {A B} (m : M A) (f : A -> M B) (e : Error) :
  outcome m = Throw e -> outcome (bind m f) = Throw e.
Proof. destruct m as [t o]. simpl. intros ->. reflexivity. Qed.

Lemma run_pair {A} (m : M A) : m = (trace m, outcome m).
Proof. destruct m. reflexivity. Qed.

(** A loop that yields returns the concatenation of what its rounds
    yield. *)
Lemma yield_each_Ok {A B} (f : A -> M (list B)) (xs : list A) (ys : list B) :
  outcome (yield_each f xs) = Ok ys ->
  exists yss,
    Forall2 (fun x r => outcome (f x) = Ok r) xs yss /\ ys = List.concat yss.
Proof.
  revert ys. induction xs as [| x rest IH]; simpl; intros ys H.
  - inversion H. exists []. split; constructor.
  - bind_ok H as r Hr.
    bind_ok H as zs Hz.
    inversion H. destruct (IH _ Hz) as (yss & HF & ->).
    exists (r :: yss). split; [constructor; assumption | reflexivity].
Qed.

Lemma yield_each_total {A B} (f : A -> M (list B)) (xs : list A) :
  (forall x, In x xs -> exists r, outcome (f x) = Ok r) ->
  exists ys, outcome (yield_each f xs) = Ok ys.
Proof.
  induction xs as [| x rest IH]; simpl; intros H.
  - eexists. reflexivity.
  - destruct (H x (or_introl eq_refl)) as (r & Hr).
    destruct IH as (zs & Hz); [intros; apply H; right; assumption |].
    exists (r ++ zs)%list.
    rewrite (outcome_bind_step _ _ Hr), (outcome_bind_step _ _ Hz).
    reflexivity.
Qed.

(* ------------------------------------------------------------------ *)
(** ** The order of the flattened elements *)
(* ------------------------------------------------------------------ *)

Section Order.

Variable w : World.
Variable this : ConfigArrayFactory.

(** What [_normalizeObjectConfigDataBody] returns, piece by piece. *)
Lemma body_pieces normalize data filePath name elements :
  outcome (_normalizeObjectConfigDataBody w this normalize data filePath name)
    = Ok elements ->
  exists extended parser plugins processors overridden,
    outcome (flattenExtends w this normalize (cd_extends data) filePath name)
      = Ok extended
    /\ outcome (loadParserOf w this data filePath name) = Ok parser
    /\ outcome (loadPluginsOf w this data filePath name) = Ok plugins
    /\ outcome (processorsOf normalize plugins filePath name) = Ok processors
    /\ outcome (flattenOverrides normalize (cd_overrides data) filePath name)
         = Ok overridden
    /\ elements
       = (extended ++ processors
            ++ [ownElement data filePath name parser plugins]
            ++ overridden)%list.
Proof.
  unfold _normalizeObjectConfigDataBody. intros H.
  bind_ok H as ex Hex. bind_ok H as pa Hpa. bind_ok H as pl Hpl.
  bind_ok H as pr Hpr. bind_ok H as ov Hov.
  inversion H.
  exists ex, pa, pl, pr, ov. repeat split; assumption.
Qed.

(** What one call of [_normalizeObjectConfigData] returns. *)
Lemma normalize_level fuel data filePath name elements :
  outcome (_normalizeObjectConfigData w this fuel (Some data) filePath name)
    = Ok elements ->
  exists fuel' body,
    fuel = S fuel'
    /\ outcome
         (_normalizeObjectConfigDataBody w this
            (_normalizeObjectConfigData w this fuel') data filePath name)
       = Ok body
    /\ elements
       = map (applyCriteria
                (OverrideTester.create (cd_files data)
                   (cd_excludedFiles data) (basePathOf w this filePath))
                (basePathOf w this filePath)) body.
Proof.
  destruct fuel as [| fuel']; simpl; [discriminate |]. intros H.
  bind_ok H as body Hb.
  inversion H. exists fuel', body. auto.
Qed.

Lemma truthy_nonempty (entry : string) :
  Js.truthy entry = negb (String.eqb entry "").
Proof. destruct entry; reflexivity. Qed.

Lemma extendListOf_written data :
  extendListOf (cd_extends data) = nonEmptyExtends data.
Proof.
  unfold extendListOf, nonEmptyExtends, writtenExtends.
  destruct (cd_extends data) as [| entry | entries];
    apply filter_ext; intros entry'; apply truthy_nonempty.
Qed.

Lemma concat_flat_map {A B} (h : A -> list B) xs yss :
  Forall2 (fun x r => r = h x) xs yss -> List.concat yss = flat_map h xs.
Proof.
  induction 1 as [| x r xs yss Hr _ IH]; simpl; [reflexivity |].
  rewrite Hr, IH. reflexivity.
Qed.

(** What the loop over the processors yields, whatever the fuel. *)
Lemma processorsOf_closed fuel plugins filePath name processors :
  outcome (processorsOf (_normalizeObjectConfigData w this fuel) plugins
             filePath name) = Ok processors ->
  processors = processorElements w this filePath name plugins.
Proof.
  destruct plugins as [loadedPlugins |]; simpl;
    [| intros H; inversion H; reflexivity].
  unfold _takeFileExtensionProcessors. intros H.
  apply yield_each_Ok in H. destruct H as (yss & HF & ->).
  apply concat_flat_map.
  eapply Forall2_impl; [| exact HF]. clear HF.
  intros [pluginId plugin] r Hr. simpl fst. simpl snd.
  unfold extensionProcessors.
  destruct (dep_definition plugin) as [definition |];
    [| inversion Hr; reflexivity].
  destruct (mod_processors definition) as [ids |];
    [| inversion Hr; reflexivity].
  apply yield_each_Ok in Hr. destruct Hr as (rs & HF & ->).
  transitivity
    (flat_map
       (fun processorId =>
          [processorElement w this filePath name pluginId processorId])
       (filter (Js.startsWith ".") ids)).
  - apply concat_flat_map.
    eapply Forall2_impl; [| exact HF]. clear HF.
    intros processorId r Hr.
    destruct fuel as [| fuel']; [discriminate Hr |].
    inversion Hr. reflexivity.
  - clear HF.
    induction (filter (Js.startsWith ".") ids) as [| id rest IH];
      simpl; [| rewrite IH]; reflexivity.
Qed.

Lemma loadParserOf_value data filePath name parser :
  outcome (loadParserOf w this data filePath name) = Ok parser ->
  parserOf w this data filePath name parser.
Proof.
  unfold loadParserOf, parserOf.
  destruct (cd_parser data) as [parserName |];
    [| intros H; inversion H; reflexivity].
  rewrite truthy_nonempty.
  destruct (String.eqb parserName ""); simpl;
    [intros H; inversion H; reflexivity |].
  intros H. bind_ok H as dep Hdep. inversion H. eauto.
Qed.

Lemma loadPluginsOf_value data filePath name plugins :
  outcome (loadPluginsOf w this data filePath name) = Ok plugins ->
  pluginsOf w this data filePath name plugins.
Proof.
  unfold loadPluginsOf, pluginsOf.
  destruct (cd_plugins data) as [names |];
    [| intros H; inversion H; reflexivity].
  intros H. bind_ok H as loadedPlugins Hl. inversion H. eauto.
Qed.

(** C1.  The elements that a config data flattens to come in this order:
    for each non-empty entry of [extends], in the declared order, all the
    elements of that entry; then one element for each file-extension
    processor of the plugins of the config, plugin by plugin; then the
    element of the declaring config itself, which holds the parser and the
    plugins that were loaded for it; then, for each entry of [overrides],
    in the declared order, all the elements of that entry. *)
Theorem flattening_order
  (fuel : nat) (data : ConfigData) (filePath name : string)
  (elements : list ConfigArrayElement) :
  outcome (_normalizeObjectConfigData w this (S fuel) (Some data) filePath name)
    = Ok elements ->
  flattened_as w this fuel data filePath name elements.
Proof.
  intros H. apply normalize_level in H.
  destruct H as (fuel' & body & Hf & Hb & ->). injection Hf as <-.
  apply body_pieces in Hb.
  destruct Hb as (ex & pa & pl & pr & ov & Hex & Hpa & Hpl & Hpr & Hov & ->).
  unfold flattenExtends in Hex. rewrite extendListOf_written in Hex.
  apply yield_each_Ok in Hex. destruct Hex as (exs & Hexs & ->).
  apply yield_each_Ok in Hov. destruct Hov as (ovs & Hovs & ->).
  apply processorsOf_closed in Hpr. subst pr.
  exists exs, ovs, pa, pl. split; [| split; [| split; [| split]]].
  - eapply Forall2_impl; [| exact Hexs]. simpl. intros a r Hr.
    apply outcome_bind_Ok in Hr. exact Hr.
  - exact Hovs.
  - apply loadParserOf_value. exact Hpa.
  - apply loadPluginsOf_value. exact Hpl.
  - reflexivity.
Qed.

End Order.

(** The project of [Demo]: one entry of [extends], one of [overrides]. *)
Lemma flattening_order_witness :
  flattened_as Demo.world Demo.factory 2 Demo.rc
    "/proj/.eslintrc.json" ".eslintrc.json" demo_elements
  /\ map el_name demo_elements
     = [ ".eslintrc.json " ++ Js.raquo ++ " eslint-config-foo";
         ".eslintrc.json";
         ".eslintrc.json#overrides[0] " ++ Js.raquo ++ " eslint-config-root";
         ".eslintrc.json#overrides[0]" ].
Proof.
  split; [| reflexivity].
  apply (flattening_order Demo.world Demo.factory).
  vm_compute. reflexivity.
Defined.

(** The config [demo_with_processor] has neither [extends] nor
    [overrides], and still flattens to two elements: the element of the
    processor [md/.md] comes before its own. *)
Lemma processor_elements_precede_own_element :
  nonEmptyExtends demo_with_processor = []
  /\ cd_overrides demo_with_processor = []
  /\ exists processor own,
       outcome (create Demo.world Demo.factory 2 (Some demo_with_processor)
                  "" "" None)
       = Ok [processor; own]
       /\ el_name processor
          = "#processors[" ++ Js.dquote ++ "md/.md" ++ Js.dquote ++ "]"
       /\ el_processor processor = Some "md/.md"
       /\ el_criteria processor
          = Some (OverrideTester.mk [(["*.md"], [])] "/proj")
       /\ el_name own = ""
       /\ el_processor own = None
       /\ el_criteria own = None.
Proof.
  split; [reflexivity |]. split; [reflexivity |].
  vm_compute. do 2 eexists. split; [reflexivity |]. repeat split.
Qed.

(* ------------------------------------------------------------------ *)
(** ** Elements with criteria: [root] and the base path *)
(* ------------------------------------------------------------------ *)

Lemma applyCriteria_scoped criteria basePath element :
  scoped_has_no_root (applyCriteria criteria basePath element).
Proof.
  unfold scoped_has_no_root, applyCriteria.
  destruct (OverrideTester.and criteria (el_criteria element)); simpl.
  - reflexivity.
  - intros H. contradiction H. reflexivity.
Qed.

Lemma applyCriteria_based criteria basePath element :
  based_at basePath (applyCriteria criteria basePath element).
Proof.
  unfold based_at, applyCriteria.
  destruct (OverrideTester.and criteria (el_criteria element)); simpl;
    intros c H; inversion H; reflexivity.
Qed.

(** Whatever a generator yields has passed through the loop of its own
    level last. *)
Lemma run_applies w this fuel g elements :
  outcome (run (_normalizeObjectConfigData w this fuel) g) = Ok elements ->
  exists criteria body,
    elements
    = map (applyCriteria criteria (basePathOf w this (gen_filePath g))) body.
Proof.
  unfold run. destruct (gen_configData g) as [data |].
  - intros H. apply normalize_level in H.
    destruct H as (fuel' & body & _ & _ & ->). eauto.
  - destruct fuel; discriminate.
Qed.

Lemma Forall_createConfigArray (P : ConfigArrayElement -> Prop)
  elements parent :
  (forall p, parent = Some p -> Forall P p) ->
  (forall l, elements = Some l -> Forall P l) ->
  Forall P (createConfigArray elements parent).
Proof.
  intros Hp He. unfold createConfigArray.
  destruct elements as [l |], parent as [p |]; auto.
  destruct (negb (ConfigArray_root l)); auto.
  apply Forall_app. auto.
Qed.

(** The generator that a call of a public method drains, and the array it
    returns. *)
Lemma resolution_Ok w this fuel r parent arr :
  outcome (resolution w this fuel r parent) = Ok arr ->
  arr = createConfigArray None parent
  \/ exists g fresh,
       outcome (run (_normalizeObjectConfigData w this fuel) g) = Ok fresh
       /\ arr = createConfigArray (Some fresh) parent
       /\ match r with
          | Create configData filePath name =>
              outcome (_normalizeConfigData w this configData filePath name)
              = Ok g
          | LoadFile filePath name =>
              outcome (_loadConfigData w this
                         (path_resolve w (_cwd this) filePath) name) = Ok g
          | LoadOnDirectory directoryPath name =>
              outcome (_loadConfigDataOnDirectory w this
                         (path_resolve w (_cwd this) directoryPath) name)
              = Ok (Some g)
          end.
Proof.
  destruct r as [configData filePath name | filePath name | dir name]; simpl.
  - unfold create. destruct configData as [data |].
    + intros H. bind_ok H as g Hg. bind_ok H as els Hf.
      inversion H. right. exists g, els. auto.
    + intros H. inversion H. left. reflexivity.
  - unfold loadFile. intros H. bind_ok H as g Hg. bind_ok H as els Hf.
    inversion H. right. exists g, els. auto.
  - unfold loadOnDirectory. intros H.
    apply outcome_bind_Ok in H. destruct H as ([g |] & Hg & H).
    + apply outcome_bind_Ok in H. destruct H as (fresh & Hf & H).
      inversion H. right. exists g, fresh. auto.
    + inversion H. left. reflexivity.
Qed.

(** C2.  In the array that [create], [loadFile] or [loadOnDirectory]
    returns, every element with criteria has [root] undefined, whatever the
    config it came from declared (the elements of the parent array, which
    came out of an earlier call, included). *)
Theorem scoped_elements_have_no_root w this fuel r parent arr :
  (forall p, parent = Some p -> Forall scoped_has_no_root p) ->
  outcome (resolution w this fuel r parent) = Ok arr ->
  Forall scoped_has_no_root arr.
Proof.
  intros Hp H. apply resolution_Ok in H.
  destruct H as [-> | (g & fresh & Hrun & -> & _)];
    apply Forall_createConfigArray; try assumption; try discriminate.
  intros l Hl. injection Hl as <-.
  apply run_applies in Hrun. destruct Hrun as (criteria & body & ->).
  apply Forall_forall. intros e He. apply in_map_iff in He.
  destruct He as (e0 & <- & _). apply applyCriteria_scoped.
Qed.

(** The project of [Demo]: the config extended under [overrides] declares
    [root: true].  The array of the project is then the parent of the one
    of the directory [pkg]. *)
Lemma scoped_elements_have_no_root_witness :
  Forall scoped_has_no_root demo_array
  /\ Forall scoped_has_no_root demo_cascade.
Proof.
  assert (Forall scoped_has_no_root demo_array) as Hparent.
  { apply (@scoped_elements_have_no_root Demo.world Demo.factory 3
             (LoadFile ".eslintrc.json" "") None).
    - intros p Hp. discriminate Hp.
    - vm_compute. reflexivity. }
  split; [exact Hparent |].
  apply (@scoped_elements_have_no_root Demo.world Demo.factory 3
           (LoadOnDirectory "pkg" "") (Some demo_array)).
  - intros p Hp. injection Hp as <-. exact Hparent.
  - vm_compute. reflexivity.
Defined.
Lemma normalizeConfigData_filePath w this configData filePath name g :
  outcome (_normalizeConfigData w this configData filePath name) = Ok g ->
  gen_filePath g
  = if negb (Js.truthy filePath) then ""
    else path_resolve w (_cwd this) filePath.
Proof.
  unfold _normalizeConfigData.
  destruct (validateConfigSchema w configData _); simpl; intros H;
    inversion H; reflexivity.
Qed.

Lemma loadConfigData_filePath w this filePath name g :
  outcome (_loadConfigData w this filePath name) = Ok g ->
  gen_filePath g
  = if negb (Js.truthy filePath) then ""
    else path_resolve w (_cwd this) filePath.
Proof.
  unfold _loadConfigData. intros H.
  apply outcome_bind_Ok in H. destruct H as (u & _ & H).
  apply outcome_bind_Ok in H. destruct H as (configData & _ & H).
  eapply normalizeConfigData_filePath. exact H.
Qed.

Lemma loadFirstOf_filePath w this directoryPath name filenames g :
  outcome (loadFirstOf w this directoryPath name filenames) = Ok (Some g) ->
  exists filename,
    In filename filenames
    /\ gen_filePath g
       = if negb (Js.truthy (path_join w directoryPath filename)) then ""
         else path_resolve w (_cwd this) (path_join w directoryPath filename).
Proof.
  induction filenames as [| filename rest IH]; simpl.
  - discriminate.
  - intros H. apply outcome_bind_Ok in H.
    destruct H as ([data |] & _ & H).
    + apply outcome_bind_Ok in H. destruct H as (g' & Hg & H).
      inversion H. subst g'. exists filename. split; [left; reflexivity |].
      eapply normalizeConfigData_filePath. exact Hg.
    + destruct (IH H) as (f & Hin & Hf). exists f. split; [right |]; auto.
Qed.

Lemma run_based w this fuel g fresh :
  outcome (run (_normalizeObjectConfigData w this fuel) g) = Ok fresh ->
  Forall (based_at (basePathOf w this (gen_filePath g))) fresh.
Proof.
  intros Hrun. apply run_applies in Hrun.
  destruct Hrun as (criteria & body & ->).
  apply Forall_forall. intros e He. apply in_map_iff in He.
  destruct He as (e0 & <- & _). apply applyCriteria_based.
Qed.

(** C4.  The criteria of every element that a load call adds to the array
    carry the directory of the config file that the call started from, not
    that of a file reached through [extends]: each level of the recursion
    stamps its own base path on what passes through it, and the outermost
    level is the last to do so. *)
Theorem basePath_of_entry_file w this fuel parent arr :
  NodePath w this ->
  (forall filePath name,
     outcome (loadFile w this fuel filePath name parent) = Ok arr ->
     exists fresh,
       arr = createConfigArray (Some fresh) parent
       /\ Forall
            (based_at (path_dirname w (path_resolve w (_cwd this) filePath)))
            fresh)
  /\ (forall directoryPath name,
        outcome (loadOnDirectory w this fuel directoryPath name parent)
        = Ok arr ->
        arr = createConfigArray None parent
        \/ exists filename fresh,
             In filename configFilenames
             /\ arr = createConfigArray (Some fresh) parent
             /\ Forall
                  (based_at
                     (path_dirname w
                        (path_resolve w (_cwd this)
                           (path_join w
                              (path_resolve w (_cwd this) directoryPath)
                              filename))))
                  fresh).
Proof.
  intros [Hne Habs Hjoin]. split.
  - intros filePath name H. unfold loadFile in H.
    bind_ok H as g Hg.
    apply outcome_bind_Ok in H. destruct H as (fresh & Hrun & H).
    inversion H. exists fresh. split; [reflexivity |].
    apply loadConfigData_filePath in Hg.
    rewrite Hne, Habs in Hg. simpl in Hg.
    apply run_based in Hrun. rewrite Hg in Hrun.
    unfold basePathOf in Hrun. rewrite Hne in Hrun. exact Hrun.
  - intros directoryPath name H. unfold loadOnDirectory in H.
    apply outcome_bind_Ok in H. destruct H as ([g |] & Hg & H).
    + apply outcome_bind_Ok in H. destruct H as (fresh & Hrun & H).
      inversion H. right.
      apply loadFirstOf_filePath in Hg. destruct Hg as (f & Hin & Hf).
      exists f, fresh. split; [exact Hin | split; [reflexivity |]].
      rewrite Hjoin in Hf. simpl in Hf.
      apply run_based in Hrun. rewrite Hf in Hrun.
      unfold basePathOf in Hrun. rewrite Hne in Hrun. exact Hrun.
    + inversion H. left. reflexivity.
Qed.

Lemma Demo_NodePath : NodePath Demo.world Demo.factory.
Proof.
  split; simpl.
  - intros p. unfold Demo.resolve.
    destruct (Demo.isAbsolute p) eqn:E; [| reflexivity].
    destruct p; [discriminate | reflexivity].
  - intros p. unfold Demo.resolve.
    destruct (Demo.isAbsolute p) eqn:E; [rewrite E; reflexivity |].
    reflexivity.
  - intros d f. unfold Demo.join. destruct d; reflexivity.
Qed.

(** The project of [Demo]: the config extended under [overrides] lives in
    [/proj/node_modules/eslint-config-root], the entry file in [/proj]. *)
Lemma basePath_of_entry_file_witness :
  exists fresh,
    demo_array = createConfigArray (Some fresh) None
    /\ Forall (based_at "/proj") fresh.
Proof.
  apply (proj1 (@basePath_of_entry_file Demo.world Demo.factory 3 None
                  demo_array Demo_NodePath) ".eslintrc.json" "").
  vm_compute. reflexivity.
Defined.

(* ------------------------------------------------------------------ *)
(** ** The conjunction of criteria *)
(* ------------------------------------------------------------------ *)

Lemma and_null_l c : OverrideTester.and None c = c.
Proof. reflexivity. Qed.

Lemma and_null_r c : OverrideTester.and c None = c.
Proof. destruct c; reflexivity. Qed.

(** Criteria that share a base path match a file together exactly when
    each of them matches it. *)
Lemma applies_and minimatch relative (a b : option OverrideTester.t) base p :
  OverrideTester.applies minimatch relative
    (option_map (OverrideTester.set_basePath base) (OverrideTester.and a b)) p
  = OverrideTester.applies minimatch relative
      (option_map (OverrideTester.set_basePath base) a) p
    && OverrideTester.applies minimatch relative
         (option_map (OverrideTester.set_basePath base) b) p.
Proof.
  destruct a as [x |], b as [y |]; simpl; try reflexivity.
  - unfold OverrideTester.test. simpl. apply forallb_app.
  - rewrite andb_true_r. reflexivity.
Qed.

Lemma create_stamped files excludedFiles base :
  option_map (OverrideTester.set_basePath base)
    (OverrideTester.create files excludedFiles base)
  = OverrideTester.create files excludedFiles base.
Proof. destruct files, excludedFiles; reflexivity. Qed.

Lemma and_create_stamped f1 e1 f2 e2 base :
  option_map (OverrideTester.set_basePath base)
    (OverrideTester.and (OverrideTester.create f1 e1 base)
       (OverrideTester.create f2 e2 base))
  = OverrideTester.and (OverrideTester.create f1 e1 base)
      (OverrideTester.create f2 e2 base).
Proof. destruct f1, e1, f2, e2; reflexivity. Qed.

Lemma applies_and_create minimatch relative f1 e1 f2 e2 base p :
  OverrideTester.applies minimatch relative
    (OverrideTester.and (OverrideTester.create f1 e1 base)
       (OverrideTester.create f2 e2 base)) p
  = OverrideTester.applies minimatch relative
      (OverrideTester.create f1 e1 base) p
    && OverrideTester.applies minimatch relative
         (OverrideTester.create f2 e2 base) p.
Proof.
  rewrite <- and_create_stamped, applies_and, !create_stamped. reflexivity.
Qed.

Lemma applyCriteria_criteria criteria basePath element :
  el_criteria (applyCriteria criteria basePath element)
  = option_map (OverrideTester.set_basePath basePath)
      (OverrideTester.and criteria (el_criteria element)).
Proof.
  unfold applyCriteria.
  destruct (OverrideTester.and criteria (el_criteria element)); reflexivity.
Qed.

Lemma nth_error_combine_seq {A} (l : list A) s i x :
  nth_error l i = Some x ->
  nth_error (combine (seq s (List.length l)) l) i = Some (s + i, x).
Proof.
  revert s i. induction l as [| a l IH]; intros s [| i]; simpl;
    try discriminate.
  - intros H. inversion H. rewrite Nat.add_0_r. reflexivity.
  - intros H. rewrite (IH (S s) i H). f_equal. f_equal. lia.
Qed.

Lemma Forall2_nth_split {A B} (R : A -> B -> Prop) xs ys i x :
  Forall2 R xs ys -> nth_error xs i = Some x ->
  exists ys1 y ys2, ys = (ys1 ++ y :: ys2)%list /\ R x y.
Proof.
  intros HF. revert i. induction HF as [| a b xs ys Hab HF IH];
    intros [| i]; simpl; try discriminate.
  - intros H. inversion H. subst a. exists [], b, ys. auto.
  - intros H. destruct (IH i H) as (ys1 & y & ys2 & -> & HR).
    exists (b :: ys1), y, ys2. auto.
Qed.

(** C3.  A level with criteria X that declares an entry of [overrides] with
    criteria Y yields the element of that entry with the criteria
    AND(X, Y).  [null] is the identity of AND, and a path matches AND(X, Y)
    exactly when it matches X and matches Y, in whichever order the two
    were combined. *)
Theorem nested_override_criteria w this minimatch fuel data filePath name
  elements i entry :
  outcome (_normalizeObjectConfigData w this fuel (Some data) filePath name)
    = Ok elements ->
  nth_error (cd_overrides data) i = Some entry ->
  let base := basePathOf w this filePath in
  let X := OverrideTester.create (cd_files data) (cd_excludedFiles data) base in
  let Y :=
    OverrideTester.create (cd_files entry) (cd_excludedFiles entry) base in
  let matches := OverrideTester.applies minimatch (path_relative w) in
  has_grandchild w this data filePath name i entry elements
  /\ (forall c, OverrideTester.and None c = c /\ OverrideTester.and c None = c)
  /\ (forall p,
        matches (OverrideTester.and X Y) p = matches X p && matches Y p
        /\ matches (OverrideTester.and X Y) p
           = matches (OverrideTester.and Y X) p).
Proof.
  intros H Hi base X Y matches. split; [| split].
  - apply normalize_level in H.
    destruct H as (fuel1 & body & -> & Hb & ->).
    apply body_pieces in Hb.
    destruct Hb as (ex & pa & pl & pr & ov & _ & _ & _ & _ & Hov & ->).
    apply yield_each_Ok in Hov. destruct Hov as (ovs & Hovs & ->).
    apply (nth_error_combine_seq _ 0) in Hi.
    destruct (Forall2_nth_split i Hovs Hi) as (o1 & r & o2 & -> & Hr).
    simpl in Hr. apply normalize_level in Hr.
    destruct Hr as (fuel2 & body2 & _ & Hb2 & ->).
    apply body_pieces in Hb2.
    destruct Hb2 as (ex2 & pa2 & pl2 & pr2 & ov2 & _ & _ & _ & _ & _ & ->).
    unfold has_grandchild. fold base. fold X. fold Y.
    exists (map (applyCriteria X base)
              (ex ++ pr ++ [ownElement data filePath name pa pl]
                 ++ List.concat o1)
            ++ map (applyCriteria X base)
                 (map (applyCriteria Y base) (ex2 ++ pr2)))%list.
    exists (map (applyCriteria X base) (map (applyCriteria Y base) ov2)
            ++ map (applyCriteria X base) (List.concat o2))%list.
    exists pa2, pl2. split.
    + rewrite concat_app. simpl.
      repeat (rewrite ?map_app, <- ?app_assoc; simpl). reflexivity.
    + rewrite !applyCriteria_criteria. simpl. rewrite and_null_r.
      unfold Y at 1. rewrite create_stamped. apply and_create_stamped.
  - intros c. split; [apply and_null_l | apply and_null_r].
  - intros p. unfold matches, X, Y. split.
    + apply applies_and_create.
    + rewrite !applies_and_create. apply andb_comm.
Qed.

(** The nested [overrides] of [demo_nested], with a matcher that compares
    the pattern with the path. *)
Lemma nested_override_criteria_witness :
  has_grandchild Demo.world Demo.factory demo_nested "" "#overrides[0]" 0
    (Demo.override "*.yyy" Undef (Demo.rulesOf "semi" 2) [])
    demo_nested_elements.
Proof.
  apply (@nested_override_criteria Demo.world Demo.factory String.eqb 2
           demo_nested "" "#overrides[0]" demo_nested_elements 0
           (Demo.override "*.yyy" Undef (Demo.rulesOf "semi" 2) [])).
  - vm_compute. reflexivity.
  - reflexivity.
Defined.

(* ------------------------------------------------------------------ *)
(** ** Loading parsers and plugins *)
(* ------------------------------------------------------------------ *)

Lemma resolveAndRequire_cases w request relativeTo :
  match ModuleResolver_resolve w request relativeTo with
  | Throws e =>
      resolveAndRequire w request relativeTo
      = ([EvResolve request relativeTo], Throw e)
  | Returns filePath =>
      match require w filePath with
      | Throws e =>
          resolveAndRequire w request relativeTo
          = ([EvResolve request relativeTo; EvRequire filePath], Throw e)
      | Returns definition =>
          resolveAndRequire w request relativeTo
          = ([EvResolve request relativeTo; EvRequire filePath],
             Ok (filePath, definition))
      end
  end.
Proof.
  unfold resolveAndRequire.
  destruct (ModuleResolver_resolve w request relativeTo) as [fp | e];
    [| reflexivity].
  simpl. destruct (require w fp); reflexivity.
Qed.

Lemma loadPlugin_whitespace w this nameOrPath importerPath
  importerName :
  isFilePath w nameOrPath = false ->
  Js.has_whitespace nameOrPath = true ->
  _loadPlugin w this nameOrPath importerPath importerName
  = ([], Ok (whitespaceDependency w nameOrPath importerPath)).
Proof.
  intros Hpath Hws. unfold _loadPlugin. rewrite Hpath, Hws. reflexivity.
Qed.

(** The plugin named ["a b"] does not make [create] throw: the array is
    returned, and the error sits in the dependency. *)
Lemma whitespace_error_is_not_raised :
  Js.has_whitespace "a b" = true
  /\ (forall e,
        outcome (create Demo.world Demo.factory 1 (Some demo_whitespace)
                   "" "" None) <> Throw e)
  /\ exists element dep error,
       outcome (create Demo.world Demo.factory 1 (Some demo_whitespace)
                  "" "" None) = Ok [element]
       /\ el_plugins element = Some [("a b", dep)]
       /\ dep_error dep = Some error
       /\ err_messageTemplate error = Some "whitespace-found".
Proof.
  split; [reflexivity |]. split; [intros e; vm_compute; discriminate |].
  do 3 eexists. vm_compute. repeat split.
Qed.

(** C5, as the code has it.  For a plugin name with white space (one that
    is not a file path), [_loadPlugin] asks nothing of the module resolver
    and of the additional plugin pool, and does not throw: it returns at
    once a dependency without definition whose [error] is the structured
    error of the template [whitespace-found]. *)
Theorem whitespace_error_is_captured w this nameOrPath importerPath
  importerName :
  isFilePath w nameOrPath = false ->
  Js.has_whitespace nameOrPath = true ->
  _loadPlugin w this nameOrPath importerPath importerName
  = ([], Ok (whitespaceDependency w nameOrPath importerPath)).
Proof. apply loadPlugin_whitespace. Qed.

Lemma whitespace_error_is_captured_witness :
  _loadPlugin Demo.world Demo.factory "a b" "/proj/.eslintrc.json" "rc"
  = ([], Ok (whitespaceDependency Demo.world "a b" "/proj/.eslintrc.json")).
Proof.
  apply whitespace_error_is_captured; reflexivity.
Defined.

(** Reached through [extends: "plugin:..."], the same error is thrown. *)
Lemma whitespace_error_in_extends w this extendName importerPath importerName :
  let pluginName :=
    Js.slice extendName 7 (Js.lastIndexOf "/"%char extendName) in
  isFilePath w pluginName = false ->
  Js.has_whitespace pluginName = true ->
  _loadExtendedPluginConfig w this extendName importerPath importerName
  = ([], Throw (whitespaceError pluginName
                  (naming_normalizePackageName w pluginName "eslint-plugin"))).
Proof.
  intros pluginName Hpath Hws. unfold _loadExtendedPluginConfig.
  fold pluginName. rewrite Hpath.
  rewrite (loadPlugin_whitespace w this pluginName importerPath
             importerName Hpath Hws).
  reflexivity.
Qed.

(** In the project of [Demo] the plugin [local] is installed next to the
    importer [/proj/sub/.eslintrc.json] only.  The module resolver finds it
    from there, but [_loadPlugin] asks from the project root, where it is
    not, and never from the importer.  The parser [my-parser] is asked for
    under the name as written. *)
Lemma plugin_is_not_resolved_from_importer :
  ModuleResolver_resolve Demo.world "eslint-plugin-local"
    "/proj/sub/.eslintrc.json"
  = Returns "/proj/sub/node_modules/eslint-plugin-local/index.js"
  /\ trace (_loadPlugin Demo.world Demo.factory "local"
              "/proj/sub/.eslintrc.json" "sub")
     = [EvResolve "eslint-plugin-local" "/proj/.eslintrc"]
  /\ (exists dep,
        outcome (_loadPlugin Demo.world Demo.factory "local"
                   "/proj/sub/.eslintrc.json" "sub") = Ok dep
        /\ dep_definition dep = None)
  /\ trace (_loadParser Demo.world Demo.factory "my-parser"
              "/proj/sub/.eslintrc.json" "sub")
     = [EvResolve "my-parser" "/proj/sub/.eslintrc.json";
        EvRequire "/proj/sub/node_modules/my-parser/index.js"].
Proof.
  split; [reflexivity |]. split; [reflexivity |].
  split; [| reflexivity]. eexists. vm_compute. split; reflexivity.
Qed.

Lemma trace_catch_resolveAndRequire {A} w request relativeTo
  (k : string * Module -> M A) (h : Error -> M A) :
  (forall x, trace (k x) = []) ->
  (forall e, Forall is_require (trace (h e))) ->
  exists rest,
    trace (catch (bind (resolveAndRequire w request relativeTo) k) h)
    = EvResolve request relativeTo :: rest
    /\ Forall is_require rest.
Proof.
  intros Hk Hh.
  pose proof (resolveAndRequire_cases w request relativeTo) as Hc.
  destruct (ModuleResolver_resolve w request relativeTo) as [fp | e].
  - destruct (require w fp) as [d | e]; rewrite Hc.
    + specialize (Hk (fp, d)). simpl. destruct (k (fp, d)) as [t o].
      simpl in Hk. subst t. simpl. destruct o; simpl.
      * eexists. split; [reflexivity |]. repeat constructor.
      * specialize (Hh e). destruct (h e) as [t' o']. simpl in *.
        eexists. split; [reflexivity |]. constructor; [exact I | exact Hh].
      * eexists. split; [reflexivity |]. repeat constructor.
    + simpl. specialize (Hh e). destruct (h e) as [t' o']. simpl in *.
      eexists. split; [reflexivity |]. constructor; [exact I | exact Hh].
  - rewrite Hc. simpl. specialize (Hh e). destruct (h e) as [t' o'].
    simpl in *. eexists. split; [reflexivity |]. exact Hh.
Qed.

(** C6, as the code has it.  A parser that is not in the additional pool
    is asked of the module resolver under its name as written, relative to
    the importing file, or to [.eslintrc] in the working directory when no
    importer path is given.  A plugin (not a file path, without white
    space, not in the additional pool) is asked under its normalized
    package name, always relative to [.eslintrc] in the working directory,
    whatever the importer.  In both cases this is the only resolution that
    is made. *)
Theorem dependencies_are_resolved_from w this nameOrPath importerPath
  importerName :
  (assoc nameOrPath (_additionalParserPool this) = None ->
   exists rest,
     trace (_loadParser w this nameOrPath importerPath importerName)
     = EvResolve nameOrPath
         (if Js.truthy importerPath then importerPath
          else path_join w (_cwd this) ".eslintrc") :: rest
     /\ Forall is_require rest)
  /\ (let request :=
        naming_normalizePackageName w nameOrPath "eslint-plugin" in
      isFilePath w nameOrPath = false ->
      Js.has_whitespace nameOrPath = false ->
      assoc request (_additionalPluginPool this) = None ->
      assoc (naming_getShorthandName w request "eslint-plugin")
        (_additionalPluginPool this) = None ->
      exists rest,
        trace (_loadPlugin w this nameOrPath importerPath importerName)
        = EvResolve request (path_join w (_cwd this) ".eslintrc") :: rest
        /\ Forall is_require rest).
Proof.
  split.
  - intros Hpool. unfold _loadParser. rewrite Hpool.
    apply trace_catch_resolveAndRequire.
    + intros [fp d]. reflexivity.
    + intros e. destruct (String.eqb nameOrPath "espree"); simpl;
        repeat constructor.
  - intros request Hpath Hws Hp1 Hp2. unfold _loadPlugin.
    rewrite Hpath, Hws. fold request. rewrite Hp1, Hp2.
    unfold resolvePlugin. apply trace_catch_resolveAndRequire.
    + intros [fp d]. reflexivity.
    + intros e. constructor.
Qed.

Lemma dependencies_are_resolved_from_witness :
  (exists rest,
     trace (_loadParser Demo.world Demo.factory "my-parser"
              "/proj/sub/.eslintrc.json" "sub")
     = EvResolve "my-parser" "/proj/sub/.eslintrc.json" :: rest
     /\ Forall is_require rest)
  /\ (exists rest,
        trace (_loadPlugin Demo.world Demo.factory "local"
                 "/proj/sub/.eslintrc.json" "sub")
        = EvResolve "eslint-plugin-local" "/proj/.eslintrc" :: rest
        /\ Forall is_require rest).
Proof.
  split.
  - apply (proj1 (dependencies_are_resolved_from Demo.world Demo.factory
                    "my-parser" "/proj/sub/.eslintrc.json" "sub")).
    reflexivity.
  - apply (proj2 (dependencies_are_resolved_from Demo.world Demo.factory
                    "local" "/proj/sub/.eslintrc.json" "sub"));
      reflexivity.
Defined.

Lemma outcome_catch_Ok {A} (m : M A) (h : Error -> M A) :
  (forall e, outcome m = Throw e -> exists a, outcome (h e) = Ok a) ->
  outcome m <> OutOfFuel ->
  exists a, outcome (catch m h) = Ok a.
Proof.
  destruct m as [t [a | e |]]; simpl; intros Hh Hf.
  - eauto.
  - destruct (Hh e eq_refl) as (a & Ha). destruct (h e) as [t' o'].
    simpl in *. eauto.
  - contradiction Hf. reflexivity.
Qed.

Lemma outcome_catch_Throw {A} (m : M A) (h : Error -> M A) e :
  outcome m = Throw e -> outcome (catch m h) = outcome (h e).
Proof.
  destruct m as [t o]. simpl. intros ->. destruct (h e). reflexivity.
Qed.

Lemma resolveAndRequire_fuel w request relativeTo :
  outcome (resolveAndRequire w request relativeTo) <> OutOfFuel.
Proof.
  pose proof (resolveAndRequire_cases w request relativeTo) as Hc.
  destruct (ModuleResolver_resolve w request relativeTo) as [fp | e];
    [destruct (require w fp) |]; rewrite Hc; discriminate.
Qed.

Lemma outcome_bind_fuel {A B} (m : M A) (f : A -> M B) :
  outcome m <> OutOfFuel ->
  (forall a, outcome (f a) <> OutOfFuel) ->
  outcome (bind m f) <> OutOfFuel.
Proof.
  destruct m as [t [a | e |]]; simpl; intros Hm Hf.
  - specialize (Hf a). destruct (f a). exact Hf.
  - discriminate.
  - contradiction Hm. reflexivity.
Qed.

(** [_loadParser] returns a dependency, whatever the module system does. *)
Lemma loadParser_total w this nameOrPath importerPath importerName :
  exists dep,
    outcome (_loadParser w this nameOrPath importerPath importerName) = Ok dep.
Proof.
  unfold _loadParser.
  destruct (assoc nameOrPath (_additionalParserPool this)).
  - eexists. reflexivity.
  - apply outcome_catch_Ok.
    + intros e _. destruct (String.eqb nameOrPath "espree"); eexists;
        reflexivity.
    + apply outcome_bind_fuel; [apply resolveAndRequire_fuel |].
      intros [fp d]. discriminate.
Qed.

Lemma resolvePlugin_total w this request id importerPath importerName :
  exists dep,
    outcome (resolvePlugin w this request id importerPath importerName)
    = Ok dep.
Proof.
  unfold resolvePlugin. apply outcome_catch_Ok.
  - intros e _. eexists. reflexivity.
  - apply outcome_bind_fuel; [apply resolveAndRequire_fuel |].
    intros [fp d]. discriminate.
Qed.

(** [_loadPlugin] returns a dependency, whatever the module system does. *)
Lemma loadPlugin_total w this nameOrPath importerPath importerName :
  exists dep,
    outcome (_loadPlugin w this nameOrPath importerPath importerName) = Ok dep.
Proof.
  unfold _loadPlugin.
  destruct (isFilePath w nameOrPath); [apply resolvePlugin_total |].
  destruct (Js.has_whitespace nameOrPath); [eexists; reflexivity |].
  destruct (assoc _ (_additionalPluginPool this)).
  - eexists. reflexivity.
  - destruct (assoc _ (_additionalPluginPool this)).
    + eexists. reflexivity.
    + apply resolvePlugin_total.
Qed.

Lemma loadPluginsInto_total w this names importerPath importerName :
  Forall (fun n => isFilePath w n = false) names ->
  forall map,
  exists plugins,
    outcome (loadPluginsInto w this map names importerPath importerName)
    = Ok plugins.
Proof.
  induction 1 as [| n rest Hn _ IH]; intros map; simpl.
  - eexists. reflexivity.
  - rewrite Hn.
    destruct (loadPlugin_total w this n importerPath importerName)
      as (dep & Hdep).
    rewrite (outcome_bind_step _ _ Hdep). apply IH.
Qed.

Lemma loadParserOf_total w this data filePath name :
  exists parser, outcome (loadParserOf w this data filePath name) = Ok parser.
Proof.
  unfold loadParserOf. destruct (cd_parser data) as [parserName |].
  - destruct (Js.truthy parserName).
    + destruct (loadParser_total w this parserName filePath name)
        as (dep & Hdep).
      rewrite (outcome_bind_step _ _ Hdep). eexists. reflexivity.
    + eexists. reflexivity.
  - eexists. reflexivity.
Qed.

(** A processor named like a file extension gets one element. *)
Lemma processor_element w this fuel pluginId processorId filePath name :
  exists element,
    outcome (_normalizeObjectConfigData w this (S fuel)
               (Some (processorConfig pluginId processorId)) filePath name)
    = Ok [element].
Proof. eexists. reflexivity. Qed.

Lemma processorsOf_total w this fuel plugins filePath name :
  exists processors,
    outcome (processorsOf (_normalizeObjectConfigData w this (S fuel))
               plugins filePath name) = Ok processors.
Proof.
  destruct plugins as [plugins |]; [| eexists; reflexivity].
  simpl. unfold _takeFileExtensionProcessors.
  apply yield_each_total. intros [pluginId plugin] _.
  destruct (match dep_definition plugin with
            | Some definition => mod_processors definition
            | None => None
            end) as [processors |]; [| eexists; reflexivity].
  apply yield_each_total. intros processorId _.
  destruct (processor_element w this fuel pluginId processorId filePath
              (processorName name pluginId processorId)) as (el & Hel).
  eauto.
Qed.

(* ------------------------------------------------------------------ *)
(** ** File paths in [plugins] *)
(* ------------------------------------------------------------------ *)

Lemma isFilePath_of_path w name :
  looks_like_path w name -> isFilePath w name = true.
Proof.
  unfold looks_like_path, isFilePath, Js.startsWith.
  intros [H | [H | H]].
  - destruct name as [| a name]; [discriminate |].
    cbn [String.prefix] in H.
    destruct (ascii_dec "."%char a) as [<- |]; [| discriminate].
    destruct name as [| b name]; [discriminate |].
    cbn [String.prefix] in H.
    destruct (ascii_dec "/"%char b) as [<- |]; [| discriminate].
    reflexivity.
  - destruct name as [| a name]; [discriminate |].
    cbn [String.prefix] in H.
    destruct (ascii_dec "."%char a) as [<- |]; [| discriminate].
    destruct name as [| b name]; [discriminate |].
    cbn [String.prefix] in H.
    destruct (ascii_dec "."%char b) as [<- |]; [| discriminate].
    destruct name as [| c name]; [discriminate |].
    cbn [String.prefix] in H.
    destruct (ascii_dec "/"%char c) as [<- |]; [| discriminate].
    reflexivity.
  - rewrite H. apply orb_true_r.
Qed.

Lemma loadPluginsInto_path w this names importerPath importerName :
  Exists (fun n => isFilePath w n = true) names ->
  forall map,
    outcome (loadPluginsInto w this map names importerPath importerName)
    = Throw filePathInPlugins.
Proof.
  induction names as [| n rest IH]; intros HE map.
  - inversion HE.
  - simpl. destruct (isFilePath w n) eqn:Hn; [reflexivity |].
    destruct (loadPlugin_total w this n importerPath importerName)
      as (dep & Hdep).
    rewrite (outcome_bind_step _ _ Hdep). apply IH.
    inversion HE as [? ? Hh | ? ? Ht]; subst; [congruence | exact Ht].
Qed.

(** C10.  A [plugins] list with an entry that is a file path (one that
    starts with [./] or [../], or is absolute) makes [_loadPlugins] throw
    the error "Plugins array cannot includes file paths.": nothing is
    captured in a dependency, and the level that declares the list throws
    once its [extends] are flattened. *)
Theorem file_path_in_plugins_throws w this names importerPath importerName :
  Exists (looks_like_path w) names ->
  outcome (_loadPlugins w this names importerPath importerName)
  = Throw filePathInPlugins
  /\ (forall normalize data extended,
        cd_plugins data = Some names ->
        outcome (flattenExtends w this normalize (cd_extends data)
                   importerPath importerName) = Ok extended ->
        outcome (_normalizeObjectConfigDataBody w this normalize data
                   importerPath importerName)
        = Throw filePathInPlugins).
Proof.
  intros HE.
  assert (Exists (fun n => isFilePath w n = true) names) as HE'.
  { eapply Exists_impl; [| exact HE]. intros n. apply isFilePath_of_path. }
  split.
  - apply loadPluginsInto_path. exact HE'.
  - intros normalize data extended Hnames Hex.
    unfold _normalizeObjectConfigDataBody.
    rewrite (outcome_bind_step _ _ Hex).
    destruct (loadParserOf_total w this data importerPath importerName)
      as (pa & Hpa).
    rewrite (outcome_bind_step _ _ Hpa).
    apply outcome_bind_Throw. unfold loadPluginsOf. rewrite Hnames.
    apply outcome_bind_Throw. apply loadPluginsInto_path. exact HE'.
Qed.

Lemma file_path_in_plugins_throws_witness :
  outcome (_loadPlugins Demo.world Demo.factory ["md"; "./x"; "local"] "" "")
  = Throw filePathInPlugins.
Proof.
  apply (@file_path_in_plugins_throws Demo.world Demo.factory
           ["md"; "./x"; "local"] "" "").
  apply Exists_cons_tl. apply Exists_cons_hd. left. reflexivity.
Defined.

(* ------------------------------------------------------------------ *)
(** ** The built-in configs *)
(* ------------------------------------------------------------------ *)

Lemma loadExtends_builtin w this extendName importerPath importerName :
  Js.startsWith "eslint:" extendName = true ->
  extendName <> "eslint:recommended" ->
  extendName <> "eslint:all" ->
  _loadExtends w this extendName importerPath importerName
  = ([], Throw (referencedFrom importerPath importerName
                  (configMissingError extendName))).
Proof.
  intros Hpre H1 H2. unfold _loadExtends, _loadExtendedBuiltInConfig.
  rewrite Hpre.
  apply String.eqb_neq in H1. apply String.eqb_neq in H2.
  rewrite H1, H2. reflexivity.
Qed.

(** C8.  An entry [eslint:<name>] of [extends] loads only when it is
    [eslint:recommended] or [eslint:all].  For any other name under
    [eslint:], [_loadExtends] throws, without loading anything, the error
    of the template [extend-config-missing] whose message and data name the
    entry; so a config that lists such an entry does not resolve. *)
Theorem builtin_extends_are_two w this extendName importerPath importerName :
  Js.startsWith "eslint:" extendName = true ->
  (extendName <> "eslint:recommended" ->
   extendName <> "eslint:all" ->
   _loadExtends w this extendName importerPath importerName
   = ([], Throw
            (mkError
               ("Failed to load config " ++ Js.dquote ++ extendName
                  ++ Js.dquote ++ " to extend from." ++ Js.newline
                  ++ "Referenced from: "
                  ++ Js.or_else importerPath importerName)
               None (Some "extend-config-missing")
               [("configName", extendName)])))
  /\ (forall g,
        outcome (_loadExtends w this extendName importerPath importerName)
        = Ok g ->
        extendName = "eslint:recommended" \/ extendName = "eslint:all")
  /\ (forall fuel data elements,
        In extendName (extendListOf (cd_extends data)) ->
        outcome (_normalizeObjectConfigData w this fuel (Some data)
                   importerPath importerName) = Ok elements ->
        extendName = "eslint:recommended" \/ extendName = "eslint:all").
Proof.
  intros Hpre.
  assert (forall g,
             outcome (_loadExtends w this extendName importerPath importerName)
             = Ok g ->
             extendName = "eslint:recommended" \/ extendName = "eslint:all")
    as Honly.
  { intros g Hg.
    destruct (String.eqb extendName "eslint:recommended") eqn:E1;
      [left; apply String.eqb_eq; exact E1 |].
    destruct (String.eqb extendName "eslint:all") eqn:E2;
      [right; apply String.eqb_eq; exact E2 |].
    apply String.eqb_neq in E1. apply String.eqb_neq in E2.
    rewrite (loadExtends_builtin w this importerPath importerName Hpre E1 E2)
      in Hg.
    discriminate. }
  split; [| split; [exact Honly |]].
  - intros H1 H2. rewrite (loadExtends_builtin _ _ _ _ Hpre H1 H2).
    unfold referencedFrom, configMissingError, set_message. simpl.
    rewrite !append_assoc. reflexivity.
  - intros fuel data elements Hin H.
    apply normalize_level in H. destruct H as (fuel' & body & _ & Hb & _).
    apply body_pieces in Hb.
    destruct Hb as (ex & _ & _ & _ & _ & Hex & _).
    apply yield_each_Ok in Hex. destruct Hex as (exs & HF & _).
    clear - HF Hin Honly.
    induction HF as [| a r l l' Har HF IH]; [contradiction |].
    destruct Hin as [-> | Hin]; [| exact (IH Hin)].
    apply outcome_bind_Ok in Har. destruct Har as (g & Hg & _).
    exact (Honly g Hg).
Qed.

Lemma builtin_extends_are_two_witness :
  _loadExtends Demo.world Demo.factory "eslint:foo" "/proj/.eslintrc.json"
    ".eslintrc.json"
  = ([], Throw
           (mkError
              ("Failed to load config " ++ Js.dquote ++ "eslint:foo"
                 ++ Js.dquote ++ " to extend from." ++ Js.newline
                 ++ "Referenced from: "
                 ++ Js.or_else "/proj/.eslintrc.json" ".eslintrc.json")
              None (Some "extend-config-missing")
              [("configName", "eslint:foo")])).
Proof.
  apply (proj1 (@builtin_extends_are_two Demo.world Demo.factory "eslint:foo"
                  "/proj/.eslintrc.json" ".eslintrc.json" eq_refl));
    discriminate.
Defined.

(* ------------------------------------------------------------------ *)
(** ** The search for a config file in a directory *)
(* ------------------------------------------------------------------ *)

(** A missing file is passed over, whatever its format. *)
Lemma absent_skipped w filePath : absent w filePath -> skipped w filePath.
Proof.
  intros [(e1 & Hfs & Hc1) (e2 & Hjs & Hc2)].
  unfold skipped, loadConfigFile, loadJSConfigFile, loadPackageJSONConfigFile,
    loadJSONConfigFile, loadYAMLConfigFile, loadLegacyConfigFile, readFile.
  rewrite Hfs, Hjs.
  destruct (String.eqb (path_extname w filePath) ".js"); simpl.
  { unfold soft_code, code_is. simpl. rewrite Hc2. reflexivity. }
  destruct (String.eqb (path_extname w filePath) ".json"); simpl.
  { destruct (String.eqb (path_basename w filePath) "package.json"); simpl;
      unfold soft_code, code_is; simpl; rewrite Hc1; reflexivity. }
  destruct (String.eqb (path_extname w filePath) ".yaml"
            || String.eqb (path_extname w filePath) ".yml"); simpl;
    unfold soft_code, code_is; simpl; rewrite Hc1; reflexivity.
Qed.

(** A manifest without [eslintConfig] is passed over. *)
Lemma manifest_skipped w filePath :
  manifest_without_field w filePath -> skipped w filePath.
Proof.
  intros (Hext & Hbase & content & self & Hfs & Hparse).
  unfold skipped, loadConfigFile. rewrite Hext, Hbase. simpl.
  unfold loadPackageJSONConfigFile, loadJSONConfigFile, readFile.
  rewrite Hfs. simpl. rewrite Hparse. reflexivity.
Qed.

Lemma loadFirstOf_skipped w this directoryPath name filename rest :
  skipped w (path_join w directoryPath filename) ->
  loadFirstOf w this directoryPath name (filename :: rest)
  = (EvLoadConfigFile (path_join w directoryPath filename)
       :: trace (loadFirstOf w this directoryPath name rest),
     outcome (loadFirstOf w this directoryPath name rest)).
Proof.
  unfold skipped. simpl.
  destruct (loadConfigFile w (path_join w directoryPath filename))
    as [[data |] | e]; simpl.
  - contradiction.
  - intros _. destruct (loadFirstOf w this directoryPath name rest).
    reflexivity.
  - intros ->. simpl.
    destruct (loadFirstOf w this directoryPath name rest). reflexivity.
Qed.

Lemma loadFirstOf_skipped_all w this directoryPath name pre rest :
  Forall (fun f => skipped w (path_join w directoryPath f)) pre ->
  loadFirstOf w this directoryPath name (pre ++ rest)
  = ((loadEvents w directoryPath pre
        ++ trace (loadFirstOf w this directoryPath name rest))%list,
     outcome (loadFirstOf w this directoryPath name rest)).
Proof.
  induction 1 as [| f pre Hf _ IH]; simpl app.
  - apply run_pair.
  - rewrite (@loadFirstOf_skipped w this directoryPath name f (pre ++ rest) Hf),
      IH.
    reflexivity.
Qed.

Lemma loadFirstOf_found w this directoryPath name filename rest data :
  loadConfigFile w (path_join w directoryPath filename) = Returns (Some data) ->
  loadFirstOf w this directoryPath name (filename :: rest)
  = (EvLoadConfigFile (path_join w directoryPath filename)
       :: trace (_normalizeConfigData w this (Some data)
                   (path_join w directoryPath filename) name),
     match
       outcome (_normalizeConfigData w this (Some data)
                  (path_join w directoryPath filename) name)
     with
     | Ok g => Ok (Some g)
     | Throw e => Throw e
     | OutOfFuel => OutOfFuel
     end).
Proof.
  intros H. simpl. rewrite H. simpl.
  destruct (_normalizeConfigData w this (Some data)
              (path_join w directoryPath filename) name) as [t [g | e |]];
    simpl; rewrite ?app_nil_r; reflexivity.
Qed.

Lemma loadFirstOf_failed w this directoryPath name filename rest e :
  loadConfigFile w (path_join w directoryPath filename) = Throws e ->
  soft_code e = false ->
  loadFirstOf w this directoryPath name (filename :: rest)
  = ([EvLoadConfigFile (path_join w directoryPath filename)], Throw e).
Proof. intros H Hs. simpl. rewrite H. simpl. rewrite Hs. reflexivity. Qed.

(** C9.  [loadOnDirectory] tries the names of [configFilenames] in order.
    When every candidate is missing, or is a manifest without
    [eslintConfig], it has tried them all and returns the parent array, or
    an empty array without parent, and throws nothing.  The first candidate
    that loads is the one that is normalized, and the later ones are not
    tried.  A candidate that fails with another error than the three that
    are passed over makes the call throw that error. *)
Theorem directory_search w this fuel directoryPath name parent :
  let dir := path_resolve w (_cwd this) directoryPath in
  ((forall f,
      In f configFilenames ->
      absent w (path_join w dir f)
      \/ manifest_without_field w (path_join w dir f)) ->
   _loadConfigDataOnDirectory w this dir name
   = (loadEvents w dir configFilenames, Ok None)
   /\ loadOnDirectory w this fuel directoryPath name parent
      = (loadEvents w dir configFilenames, Ok (parentOrEmpty parent)))
  /\ (forall pre f post data,
        configFilenames = (pre ++ f :: post)%list ->
        Forall (fun f' => skipped w (path_join w dir f')) pre ->
        loadConfigFile w (path_join w dir f) = Returns (Some data) ->
        loadOnDirectory w this fuel directoryPath name parent
        = ((loadEvents w dir (pre ++ [f])
              ++ trace (loadFound w this fuel data (path_join w dir f) name
                          parent))%list,
           outcome (loadFound w this fuel data (path_join w dir f) name
                      parent)))
  /\ (forall pre f post e,
        configFilenames = (pre ++ f :: post)%list ->
        Forall (fun f' => skipped w (path_join w dir f')) pre ->
        loadConfigFile w (path_join w dir f) = Throws e ->
        soft_code e = false ->
        loadOnDirectory w this fuel directoryPath name parent
        = (loadEvents w dir (pre ++ [f]), Throw e)).
Proof.
  intros dir. unfold loadOnDirectory, _loadConfigDataOnDirectory. fold dir.
  split; [| split].
  - intros Hall.
    assert (Forall (fun f => skipped w (path_join w dir f)) configFilenames)
      as HF.
    { apply Forall_forall. intros f Hf.
      destruct (Hall f Hf); [apply absent_skipped | apply manifest_skipped];
        assumption. }
    pose proof (@loadFirstOf_skipped_all w this dir name configFilenames []
                  HF) as Hnone.
    rewrite app_nil_r in Hnone.
    cbn [loadFirstOf trace outcome ret fst snd] in Hnone.
    rewrite app_nil_r in Hnone. rewrite Hnone.
    split; [reflexivity |].
    cbn [bind ret]. rewrite app_nil_r. destruct parent; reflexivity.
  - intros pre f post data Hsplit Hpre Hload. rewrite Hsplit.
    rewrite (@loadFirstOf_skipped_all w this dir name pre (f :: post) Hpre).
    rewrite (@loadFirstOf_found w this dir name f post data Hload).
    unfold loadFound, loadEvents. rewrite map_app. simpl.
    destruct (_normalizeConfigData w this (Some data) (path_join w dir f) name)
      as [t [g | e |]]; simpl.
    + destruct (run (_normalizeObjectConfigData w this fuel) g)
        as [t' [els | e |]]; simpl;
        rewrite <- ?app_assoc; simpl; rewrite ?app_nil_r; reflexivity.
    + rewrite <- app_assoc. reflexivity.
    + rewrite <- app_assoc. reflexivity.
  - intros pre f post e Hsplit Hpre Hload Hsoft. rewrite Hsplit.
    rewrite (@loadFirstOf_skipped_all w this dir name pre (f :: post) Hpre).
    rewrite (@loadFirstOf_failed w this dir name f post e Hload Hsoft).
    unfold loadEvents. rewrite map_app. reflexivity.
Qed.


(** The project of [Demo]: the directory [bare] holds only a manifest
    without [eslintConfig]. *)
Lemma directory_search_witness :
  loadOnDirectory Demo.world Demo.factory 3 "bare" "" (Some demo_array)
  = (loadEvents Demo.world "/proj/bare" configFilenames, Ok demo_array).
Proof.
  apply (proj1 (@directory_search Demo.world Demo.factory 3 "bare" ""
                  (Some demo_array))).
  intros f Hf. simpl in Hf.
  destruct Hf as [<- | [<- | [<- | [<- | [<- | [<- | []]]]]]];
    try (left; split; eexists; split; reflexivity).
  right. split; [reflexivity | split; [reflexivity |]].
  do 2 eexists. split; reflexivity.
Defined.

(* ------------------------------------------------------------------ *)
(** ** File paths, and the reading of config files *)
(* ------------------------------------------------------------------ *)

Lemma prefix_cons x p a s :
  String.prefix (String x p) (String a s) = Ascii.eqb x a && String.prefix p s.
Proof.
  cbn [String.prefix]. destruct (ascii_dec x a) as [-> | Hne].
  - rewrite Ascii.eqb_refl. reflexivity.
  - apply Ascii.eqb_neq in Hne. rewrite Hne. reflexivity.
Qed.

Lemma prefix_nil s : String.prefix "" s = true.
Proof. destruct s; reflexivity. Qed.

Lemma prefix_append a b : String.prefix a (a ++ b) = true.
Proof.
  induction a as [| x a IH]; simpl append.
  - apply prefix_nil.
  - rewrite prefix_cons, Ascii.eqb_refl. exact IH.
Qed.

Lemma substring_all s : String.substring 0 (String.length s) s = s.
Proof. induction s as [| a s IH]; simpl; [| rewrite IH]; reflexivity. Qed.

(** X1.  [isFilePath] holds exactly of the names that start with [./],
    [.\], [../] or [..\] and of the absolute paths. *)
Theorem isFilePath_prefixes w name :
  isFilePath w name
  = (Js.startsWith "./" name || Js.startsWith ".\" name
     || Js.startsWith "../" name || Js.startsWith "..\" name
     || path_isAbsolute w name).
Proof.
  unfold isFilePath, Js.startsWith.
  rewrite <- !orb_assoc. rewrite !orb_assoc. f_equal.
  destruct name as [| a [| b [| c rest]]];
    unfold dot_relative, is_sep;
    rewrite ?prefix_cons, ?prefix_nil; cbn [String.prefix];
    rewrite ?(Ascii.eqb_sym "."%char), ?(Ascii.eqb_sym "/"%char),
      ?(Ascii.eqb_sym "\"%char);
    repeat match goal with
           | |- context [Ascii.eqb ?x ?y] => destruct (Ascii.eqb x y)
           end;
    reflexivity.
Qed.


(** X2.  [readFile] removes one byte order mark from the start of what it
    reads, and only that: a second mark stays, and a content without mark
    is returned as it is. *)
Theorem readFile_strips_one_bom w filePath content :
  fs_readFileSync w filePath = Returns content ->
  (forall rest, content = Js.bom ++ rest -> readFile w filePath = Returns rest)
  /\ (String.prefix Js.bom content = false ->
      readFile w filePath = Returns content).
Proof.
  intros Hread. unfold readFile. rewrite Hread. cbn [res_bind]. split.
  - intros rest ->. unfold Js.strip_bom. rewrite prefix_append.
    unfold Js.bom. simpl. rewrite Nat.sub_0_r, substring_all. reflexivity.
  - intros Hno. unfold Js.strip_bom. rewrite Hno. reflexivity.
Qed.

Lemma readFile_strips_one_bom_witness :
  readFile demo_bom_world "/proj/.eslintrc.yaml" = Returns "".
Proof.
  apply (proj1 (@readFile_strips_one_bom demo_bom_world
                  "/proj/.eslintrc.yaml" (Js.bom ++ "") eq_refl) "").
  reflexivity.
Defined.

Lemma rethrow_cannot_read {A} filePath (r : Res A) e :
  rethrow (cannot_read filePath) r = Throws e -> wrapped filePath e.
Proof.
  destruct r as [a | e0]; simpl; [discriminate |].
  intros H. inversion H. exists (err_message e0). reflexivity.
Qed.

Lemma loadJSONConfigFile_wrapped w filePath e :
  loadJSONConfigFile w filePath = Throws e ->
  wrapped filePath e /\ err_messageTemplate e = Some "failed-to-read-json".
Proof.
  unfold loadJSONConfigFile.
  destruct (res_bind (readFile w filePath) _) as [a | e0]; simpl;
    [discriminate |].
  intros H. inversion H. split; [| reflexivity].
  exists (err_message e0). reflexivity.
Qed.

(** X3.  Whatever the format, an error that [loadConfigFile] throws has a
    message that starts with [Cannot read config file: ], the path of the
    file and, on the next line, [Error: ] and the message of the cause. *)
Theorem loadConfigFile_error_names_file w filePath e :
  loadConfigFile w filePath = Throws e ->
  exists cause,
    err_message e
    = "Cannot read config file: " ++ filePath ++ Js.newline ++ "Error: "
        ++ cause.
Proof.
  unfold loadConfigFile.
  destruct (String.eqb (path_extname w filePath) ".js").
  { apply rethrow_cannot_read. }
  destruct (String.eqb (path_extname w filePath) ".json").
  { destruct (String.eqb (path_basename w filePath) "package.json").
    - apply rethrow_cannot_read.
    - destruct (loadJSONConfigFile w filePath) as [doc | e0] eqn:E; simpl;
        [discriminate |].
      intros H. inversion H. subst e0.
      apply (loadJSONConfigFile_wrapped w filePath E). }
  destruct (String.eqb (path_extname w filePath) ".yaml"
            || String.eqb (path_extname w filePath) ".yml");
    apply rethrow_cannot_read.
Qed.

Lemma loadConfigFile_error_names_file_witness :
  exists cause,
    err_message demo_missing_error
    = "Cannot read config file: " ++ "/proj/none.json" ++ Js.newline
        ++ "Error: " ++ cause.
Proof.
  apply (@loadConfigFile_error_names_file Demo.world "/proj/none.json"
           demo_missing_error).
  vm_compute. reflexivity.
Defined.


(** X4.  A config file that is neither a script nor a JSON file never
    loads to a falsy value: what is loaded is the document that the YAML
    parser returns for the content of the file (without its comments, when
    the file has none of the YAML extensions), but for a falsy document,
    such as that of an empty file, in place of which the empty object is
    returned. *)
Theorem yaml_and_legacy_are_never_falsy w filePath v :
  path_extname w filePath <> ".js" ->
  path_extname w filePath <> ".json" ->
  loadConfigFile w filePath = Returns v ->
  v <> None
  /\ exists content document,
       readFile w filePath = Returns content
       /\ yaml_safeLoad w
            (if String.eqb (path_extname w filePath) ".yaml"
                || String.eqb (path_extname w filePath) ".yml"
             then content else stripComments w content)
          = Returns document
       /\ v = match document with
              | Some _ => document
              | None => Some emptyConfigData
              end.
Proof.
  intros Hjs Hjson. unfold loadConfigFile.
  apply String.eqb_neq in Hjs. apply String.eqb_neq in Hjson.
  rewrite Hjs, Hjson.
  destruct (String.eqb (path_extname w filePath) ".yaml"
            || String.eqb (path_extname w filePath) ".yml");
    unfold loadYAMLConfigFile, loadLegacyConfigFile;
    destruct (readFile w filePath) as [content | e]; simpl;
    try discriminate;
    match goal with
    | |- context [yaml_safeLoad ?w ?c] =>
        destruct (yaml_safeLoad w c) as [[data |] | e] eqn:Hdoc
    end; simpl; intros H; inversion H;
    (split; [discriminate |]); eauto.
Qed.

Lemma yaml_and_legacy_are_never_falsy_witness :
  Some emptyConfigData <> None
  /\ exists content document,
       readFile demo_bom_world "/proj/.eslintrc.yaml" = Returns content
       /\ yaml_safeLoad demo_bom_world content = Returns document
       /\ Some emptyConfigData
          = match document with
            | Some _ => document
            | None => Some emptyConfigData
            end.
Proof.
  apply (@yaml_and_legacy_are_never_falsy demo_bom_world
           "/proj/.eslintrc.yaml" (Some emptyConfigData));
    [discriminate | discriminate | reflexivity].
Defined.

Lemma absent_throws w filePath :
  absent w filePath ->
  exists e, loadConfigFile w filePath = Throws e /\ soft_code e = true.
Proof.
  intros [(e1 & Hfs & Hc1) (e2 & Hjs & Hc2)].
  unfold loadConfigFile, loadJSConfigFile, loadPackageJSONConfigFile,
    loadJSONConfigFile, loadYAMLConfigFile, loadLegacyConfigFile, readFile.
  rewrite Hfs, Hjs.
  destruct (String.eqb (path_extname w filePath) ".js"); simpl.
  { eexists. split; [reflexivity |].
    unfold soft_code, code_is. simpl. rewrite Hc2. reflexivity. }
  destruct (String.eqb (path_extname w filePath) ".json"); simpl.
  { destruct (String.eqb (path_basename w filePath) "package.json"); simpl;
      (eexists; split; [reflexivity |]);
      unfold soft_code, code_is; simpl; rewrite Hc1; reflexivity. }
  destruct (String.eqb (path_extname w filePath) ".yaml"
            || String.eqb (path_extname w filePath) ".yml"); simpl;
    (eexists; split; [reflexivity |]);
    unfold soft_code, code_is; simpl; rewrite Hc1; reflexivity.
Qed.

Lemma manifest_throws w filePath :
  manifest_without_field w filePath ->
  exists e, loadConfigFile w filePath = Throws e /\ soft_code e = true.
Proof.
  intros (Hext & Hbase & content & self & Hfs & Hparse).
  unfold loadConfigFile. rewrite Hext, Hbase. simpl.
  unfold loadPackageJSONConfigFile, loadJSONConfigFile, readFile.
  rewrite Hfs. simpl. rewrite Hparse. simpl.
  eexists. split; reflexivity.
Qed.

(** X5.  What the search in a directory passes over, [loadFile] throws: for
    a file that does not exist, or a [package.json] without
    [eslintConfig], it throws the error of the load, with its code, after
    this one attempt. *)
Theorem loadFile_throws_what_the_search_skips w this fuel filePath name
  parent :
  let absolutePath := path_resolve w (_cwd this) filePath in
  absent w absolutePath \/ manifest_without_field w absolutePath ->
  exists e,
    loadFile w this fuel filePath name parent
    = ([EvLoadConfigFile absolutePath], Throw e)
    /\ soft_code e = true
    /\ loadConfigFile w absolutePath = Throws e.
Proof.
  intros absolutePath H.
  assert (exists e,
             loadConfigFile w absolutePath = Throws e /\ soft_code e = true)
    as (e & He & Hsoft).
  { destruct H; [apply absent_throws | apply manifest_throws]; assumption. }
  exists e. split; [| split; assumption].
  unfold loadFile, _loadConfigData. fold absolutePath. rewrite He.
  reflexivity.
Qed.

Lemma loadFile_throws_what_the_search_skips_witness :
  exists e,
    loadFile Demo.world Demo.factory 3 "bare/package.json" "" None
    = ([EvLoadConfigFile "/proj/bare/package.json"], Throw e)
    /\ soft_code e = true
    /\ loadConfigFile Demo.world "/proj/bare/package.json" = Throws e.
Proof.
  apply (@loadFile_throws_what_the_search_skips Demo.world Demo.factory 3
           "bare/package.json" "" None).
  right. split; [reflexivity | split; [reflexivity |]].
  do 2 eexists. split; reflexivity.
Defined.

(* ------------------------------------------------------------------ *)
(** ** The array that is returned *)
(* ------------------------------------------------------------------ *)

Lemma bind_ret_l {A B} (a : A) (f : A -> M B) : bind (ret a) f = f a.
Proof. unfold bind, ret. destruct (f a). reflexivity. Qed.

(** X6.  A config data without [extends], [parser], [plugins] and
    [overrides] that passes the validation becomes exactly one element,
    which holds its properties, the resolved file path and the name (the
    path relative to the working directory when no name is given).
    Nothing is loaded for it. *)
Theorem leaf_config_is_one_element w this fuel data filePath name parent :
  let filePath' :=
    if negb (Js.truthy filePath) then ""
    else path_resolve w (_cwd this) filePath in
  let name' :=
    if negb (Js.truthy name)
    then (if Js.truthy filePath'
          then path_relative w (_cwd this) filePath' else filePath')
    else name in
  validateConfigSchema w (Some data) (Js.or_else name' filePath') = None ->
  extendListOf (cd_extends data) = [] ->
  cd_parser data = None ->
  cd_plugins data = None ->
  cd_overrides data = [] ->
  create w this (S fuel) (Some data) filePath name parent
  = ([], Ok (createConfigArray
               (Some [applyCriteria
                        (OverrideTester.create (cd_files data)
                           (cd_excludedFiles data)
                           (basePathOf w this filePath'))
                        (basePathOf w this filePath')
                        (ownElement data filePath' name' NoParser None)])
               parent)).
Proof.
  intros filePath' name' Hvalid Hext Hparser Hplugins Hover.
  unfold create, _normalizeConfigData. fold filePath'. fold name'.
  rewrite Hvalid, bind_ret_l. unfold run.
  cbn [gen_configData gen_filePath gen_name _normalizeObjectConfigData].
  unfold _normalizeObjectConfigDataBody.
  unfold flattenExtends, loadParserOf, loadPluginsOf, flattenOverrides.
  rewrite Hext, Hparser, Hplugins, Hover. reflexivity.
Qed.

Lemma leaf_config_is_one_element_witness :
  create Demo.world Demo.factory 1 (Some demo_leaf) "sub/.eslintrc" "" None
  = ([], Ok [ownElement demo_leaf "/proj/sub/.eslintrc" "sub/.eslintrc"
               NoParser None]).
Proof.
  apply (@leaf_config_is_one_element Demo.world Demo.factory 0 demo_leaf
           "sub/.eslintrc" "" None); reflexivity.
Defined.

(* ------------------------------------------------------------------ *)
(** ** More on parsers and plugins *)
(* ------------------------------------------------------------------ *)

Lemma catch_resolveAndRequire_outcome {A} w request relativeTo
  (k : string -> Module -> A) (h : Error -> M A) :
  outcome
    (catch ('(filePath, definition) <-
              resolveAndRequire w request relativeTo ;;
            ret (k filePath definition)) h)
  = match ModuleResolver_resolve w request relativeTo with
    | Returns filePath =>
        match require w filePath with
        | Returns definition => Ok (k filePath definition)
        | Throws e => outcome (h e)
        end
    | Throws e => outcome (h e)
    end.
Proof.
  pose proof (resolveAndRequire_cases w request relativeTo) as Hc.
  destruct (ModuleResolver_resolve w request relativeTo) as [fp | e].
  - destruct (require w fp) as [d | e]; rewrite Hc; simpl.
    + reflexivity.
    + destruct (h e). reflexivity.
  - rewrite Hc. simpl. destruct (h e). reflexivity.
Qed.

Lemma resolvePlugin_shape w this request id importerPath importerName :
  exists dep,
    outcome (resolvePlugin w this request id importerPath importerName)
    = Ok dep
    /\ dep_id dep = id
    /\ dep_importerPath dep = importerPath.
Proof.
  unfold resolvePlugin. rewrite catch_resolveAndRequire_outcome.
  destruct (ModuleResolver_resolve w request (projectRootRc w this))
    as [fp | e]; [destruct (require w fp) as [d | e] |];
    simpl; eexists; (split; [reflexivity |]); split; reflexivity.
Qed.

(** The id of the dependency of a plugin. *)
Lemma loadPlugin_shape w this nameOrPath importerPath importerName :
  exists dep,
    outcome (_loadPlugin w this nameOrPath importerPath importerName) = Ok dep
    /\ dep_id dep = pluginIdOf w nameOrPath
    /\ dep_importerPath dep = importerPath.
Proof.
  unfold _loadPlugin, pluginIdOf.
  destruct (isFilePath w nameOrPath); [apply resolvePlugin_shape |].
  destruct (Js.has_whitespace nameOrPath).
  { eexists. split; [reflexivity |]. split; reflexivity. }
  destruct (assoc _ (_additionalPluginPool this)).
  { eexists. split; [reflexivity |]. split; reflexivity. }
  destruct (assoc _ (_additionalPluginPool this)).
  { eexists. split; [reflexivity |]. split; reflexivity. }
  apply resolvePlugin_shape.
Qed.

(** X8.  The parser named [espree] never fails to load: whatever the
    pool, the resolution and the load of the module do, [_loadParser]
    returns for it a dependency without error.  When the pool has no
    [espree] and the resolution or the load throws, the dependency is the
    parser bundled with the factory, under the path of the bundled one. *)
Theorem espree_never_fails w this importerPath importerName :
  (exists dep,
     outcome (_loadParser w this "espree" importerPath importerName) = Ok dep
     /\ dep_error dep = None
     /\ dep_id dep = "espree")
  /\ (forall e,
        assoc "espree" (_additionalParserPool this) = None ->
        outcome (resolveAndRequire w "espree"
                   (relativeToOf w this importerPath)) = Throw e ->
        outcome (_loadParser w this "espree" importerPath importerName)
        = Ok (loaded (espree_bundled w) (espree_bundled_path w) "espree"
                importerName importerPath)).
Proof.
  split.
  - unfold _loadParser.
    destruct (assoc "espree" (_additionalParserPool this)).
    { eexists. split; [reflexivity |]. split; reflexivity. }
    rewrite catch_resolveAndRequire_outcome.
    destruct (ModuleResolver_resolve w "espree"
                (relativeToOf w this importerPath))
      as [fp | e]; [destruct (require w fp) as [d | e] |];
      simpl; eexists; (split; [reflexivity |]); split; reflexivity.
  - intros e Hpool Hthrow. unfold _loadParser. rewrite Hpool.
    rewrite (@outcome_catch_Throw _ _ _ e).
    + reflexivity.
    + apply outcome_bind_Throw. exact Hthrow.
Qed.

(** The project of [Demo] has no [espree] of its own. *)
Lemma espree_never_fails_witness :
  outcome (_loadParser Demo.world Demo.factory "espree" "" "rc")
  = Ok (loaded (espree_bundled Demo.world) (espree_bundled_path Demo.world)
          "espree" "rc" "").
Proof.
  apply (proj2 (@espree_never_fails Demo.world Demo.factory "" "rc")
           (Demo.moduleNotFound "espree")); reflexivity.
Defined.

Lemma has_whitespace_anywhere before c after :
  Js.ascii_space c = true ->
  Js.has_whitespace (before ++ String c after) = true.
Proof.
  intros Hc. induction before as [| a before IH].
  - simpl append. cbn [Js.has_whitespace]. rewrite Hc. reflexivity.
  - simpl append. cbn [Js.has_whitespace]. rewrite IH. apply orb_true_r.
Qed.

(** X9.  A tab, a line feed, a vertical tab, a form feed, a carriage
    return or a space anywhere in the name of a plugin, be it the last
    character, is white space: [_loadPlugin] resolves nothing and returns
    the dependency with the error of the template [whitespace-found]. *)
Theorem whitespace_anywhere_in_plugin_name w this before c after importerPath
  importerName :
  let name := before ++ String c after in
  Js.ascii_space c = true ->
  isFilePath w name = false ->
  _loadPlugin w this name importerPath importerName
  = ([], Ok (whitespaceDependency w name importerPath)).
Proof.
  intros name Hc Hpath. apply loadPlugin_whitespace; [exact Hpath |].
  apply has_whitespace_anywhere. exact Hc.
Qed.

Lemma whitespace_anywhere_in_plugin_name_witness :
  _loadPlugin Demo.world Demo.factory
    ("whitespace" ++ String (ascii_of_nat 9) "") "" ""
  = ([], Ok (whitespaceDependency Demo.world
               ("whitespace" ++ String (ascii_of_nat 9) "") "")).
Proof.
  apply (@whitespace_anywhere_in_plugin_name Demo.world Demo.factory
           "whitespace" (ascii_of_nat 9) "" "" ""); reflexivity.
Defined.


Lemma assoc_set_same {A} k (v : A) obj :
  assoc k (JsObject.set k v obj) = Some v.
Proof.
  induction obj as [| [k' v'] rest IH]; simpl.
  - rewrite String.eqb_refl. reflexivity.
  - destruct (String.eqb k k') eqn:E; simpl.
    + rewrite String.eqb_refl. reflexivity.
    + destruct (JsObject.array_index k) as [i |].
      * destruct (JsObject.array_index k') as [j |].
        -- destruct (i <? j)%N; simpl.
           ++ rewrite String.eqb_refl. reflexivity.
           ++ rewrite E. exact IH.
        -- simpl. rewrite String.eqb_refl. reflexivity.
      * simpl. rewrite E. exact IH.
Qed.

Lemma assoc_set_other {A} k k2 (v : A) obj :
  k2 <> k -> assoc k2 (JsObject.set k v obj) = assoc k2 obj.
Proof.
  intros Hne. apply String.eqb_neq in Hne.
  induction obj as [| [k' v'] rest IH]; simpl.
  - rewrite Hne. reflexivity.
  - destruct (String.eqb k k') eqn:E; simpl.
    + apply String.eqb_eq in E. subst k'. rewrite Hne. reflexivity.
    + destruct (JsObject.array_index k) as [i |].
      * destruct (JsObject.array_index k') as [j |].
        -- destruct (i <? j)%N; simpl.
           ++ rewrite Hne. reflexivity.
           ++ rewrite IH. reflexivity.
        -- simpl. rewrite Hne. reflexivity.
      * simpl. rewrite IH. reflexivity.
Qed.

Lemma In_set {A} k (v : A) obj k2 v2 :
  In (k2, v2) (JsObject.set k v obj) ->
  (k2 = k /\ v2 = v) \/ In (k2, v2) obj.
Proof.
  induction obj as [| [k' v'] rest IH]; simpl.
  - intros [H | []]. inversion H. auto.
  - destruct (String.eqb k k') eqn:E.
    + intros [H | H]; [inversion H; auto | auto].
    + destruct (JsObject.array_index k) as [i |].
      * destruct (JsObject.array_index k') as [j |].
        -- destruct (i <? j)%N.
           ++ intros [H | [H | H]]; [inversion H; auto | auto | auto].
           ++ intros [H | H]; [auto |].
              destruct (IH H) as [? | ?]; auto.
        -- intros [H | [H | H]]; [inversion H; auto | auto | auto].
      * intros [H | H]; [auto |]. destruct (IH H) as [? | ?]; auto.
Qed.

Lemma assoc_assign_same {A} k (v : A) obj :
  k <> "__proto__" -> assoc k (JsObject.assign k v obj) = Some v.
Proof.
  intros Hk. apply String.eqb_neq in Hk. unfold JsObject.assign.
  rewrite Hk. apply assoc_set_same.
Qed.

Lemma assoc_assign_other {A} k k2 (v : A) obj :
  k2 <> k -> assoc k2 (JsObject.assign k v obj) = assoc k2 obj.
Proof.
  intros Hne. unfold JsObject.assign.
  destruct (String.eqb k "__proto__"); [reflexivity |].
  apply assoc_set_other. exact Hne.
Qed.

Lemma In_assign {A} k (v : A) obj k2 v2 :
  In (k2, v2) (JsObject.assign k v obj) ->
  (k2 = k /\ v2 = v /\ k <> "__proto__") \/ In (k2, v2) obj.
Proof.
  unfold JsObject.assign. destruct (String.eqb k "__proto__") eqn:E.
  - auto.
  - apply String.eqb_neq in E. intros H. apply In_set in H.
    destruct H as [[-> ->] | H]; auto.
Qed.

Lemma loadPluginsInto_cons w this map n rest importerPath importerName result :
  outcome (loadPluginsInto w this map (n :: rest) importerPath importerName)
  = Ok result ->
  exists dep,
    isFilePath w n = false
    /\ outcome (_loadPlugin w this n importerPath importerName) = Ok dep
    /\ dep_id dep = pluginIdOf w n
    /\ dep_importerPath dep = importerPath
    /\ outcome (loadPluginsInto w this (JsObject.assign (dep_id dep) dep map)
                  rest importerPath importerName) = Ok result.
Proof.
  simpl. destruct (isFilePath w n) eqn:Hn; [discriminate |]. intros H.
  bind_ok H as dep Hdep. exists dep.
  destruct (loadPlugin_shape w this n importerPath importerName)
    as (dep' & Hdep' & Hid & Hip).
  rewrite Hdep in Hdep'. injection Hdep' as <-. auto.
Qed.

Lemma loadPluginsInto_entries w this names importerPath importerName :
  forall map result,
    outcome (loadPluginsInto w this map names importerPath importerName)
    = Ok result ->
    forall k d,
      In (k, d) result ->
      In (k, d) map
      \/ (k <> "__proto__" /\ dep_id d = k
          /\ dep_importerPath d = importerPath
          /\ exists n, In n names /\ k = pluginIdOf w n).
Proof.
  induction names as [| n rest IH]; intros map result H k d Hin.
  - inversion H. subst. auto.
  - apply loadPluginsInto_cons in H.
    destruct H as (dep & _ & _ & Hid & Hip & H).
    destruct (IH _ _ H k d Hin) as [Hold | (H0 & H1 & H2 & n' & Hn' & Hk)].
    + apply In_assign in Hold.
      destruct Hold as [(-> & -> & Hproto) | Hold]; [| auto].
      right. split; [exact Hproto |].
      split; [reflexivity | split; [exact Hip |]].
      exists n. split; [left; reflexivity | exact Hid].
    + right. split; [exact H0 |]. split; [exact H1 | split; [exact H2 |]].
      exists n'. split; [right; exact Hn' | exact Hk].
Qed.

Lemma loadPluginsInto_kept w this names importerPath importerName :
  forall map result,
    outcome (loadPluginsInto w this map names importerPath importerName)
    = Ok result ->
    forall k,
      Forall (fun n => pluginIdOf w n <> k) names ->
      assoc k result = assoc k map.
Proof.
  induction names as [| n rest IH]; intros map result H k Hk.
  - inversion H. reflexivity.
  - apply loadPluginsInto_cons in H.
    destruct H as (dep & _ & _ & Hid & _ & H).
    inversion Hk as [| ? ? Hn Hrest]; subst.
    rewrite (IH _ _ H k Hrest). apply assoc_assign_other.
    rewrite Hid. intros Heq. apply Hn. symmetry. exact Heq.
Qed.

Lemma loadPluginsInto_present w this names importerPath importerName :
  forall map result,
    outcome (loadPluginsInto w this map names importerPath importerName)
    = Ok result ->
    forall k,
      k <> "__proto__" ->
      assoc k map <> None \/ (exists n, In n names /\ k = pluginIdOf w n) ->
      assoc k result <> None.
Proof.
  induction names as [| n rest IH]; intros map result H k Hproto Hk.
  - inversion H. subst. destruct Hk as [Hk | (n & [] & _)]. exact Hk.
  - apply loadPluginsInto_cons in H.
    destruct H as (dep & _ & _ & Hid & _ & H).
    apply (IH _ _ H k Hproto).
    destruct (String.eqb k (dep_id dep)) eqn:E.
    + apply String.eqb_eq in E. subst k. left.
      rewrite assoc_assign_same by exact Hproto. discriminate.
    + apply String.eqb_neq in E.
      destruct Hk as [Hk | (n' & [-> | Hn'] & Hk)].
      * left. rewrite assoc_assign_other by exact E. exact Hk.
      * contradiction E. rewrite Hid. exact Hk.
      * right. exists n'. auto.
Qed.

Lemma loadPluginsInto_app w this before after importerPath importerName :
  forall map result,
    outcome (loadPluginsInto w this map (before ++ after) importerPath
               importerName) = Ok result ->
    exists middle,
      outcome (loadPluginsInto w this middle after importerPath importerName)
      = Ok result.
Proof.
  induction before as [| n rest IH]; intros map result H.
  - exists map. exact H.
  - simpl app in H. apply loadPluginsInto_cons in H.
    destruct H as (dep & _ & _ & _ & _ & H). exact (IH _ _ H).
Qed.

(** The entry of the last name with a given id. *)
Lemma loadPlugins_last w this before n after importerPath importerName map d :
  outcome (_loadPlugins w this (before ++ n :: after) importerPath
             importerName) = Ok map ->
  Forall (fun n' => pluginIdOf w n' <> pluginIdOf w n) after ->
  pluginIdOf w n <> "__proto__" ->
  outcome (_loadPlugin w this n importerPath importerName) = Ok d ->
  assoc (pluginIdOf w n) map = Some d.
Proof.
  unfold _loadPlugins. intros Hmap Hafter Hproto Hd.
  apply loadPluginsInto_app in Hmap. destruct Hmap as (middle & Hmap).
  apply loadPluginsInto_cons in Hmap.
  destruct Hmap as (dep & _ & Hdep & Hid & _ & Hmap).
  rewrite Hd in Hdep. injection Hdep as <-.
  rewrite (@loadPluginsInto_kept w this after importerPath importerName
             _ _ Hmap _ Hafter).
  rewrite <- Hid. apply assoc_assign_same. rewrite Hid. exact Hproto.
Qed.



(** X10.  For a list without file paths, [_loadPlugins] returns a map in
    which every entry is filed under the id of its dependency, carries the
    importer path and comes from a name of the list.  The map never has
    the key [__proto__]: a plugin with that id sets the prototype of the
    map and gets no entry.  Every other name of the list has its entry;
    and when several names have the same id, the entry is the dependency
    of the last of them. *)
Theorem loadPlugins_files_by_id w this names importerPath importerName :
  Forall (fun n => isFilePath w n = false) names ->
  exists map,
    outcome (_loadPlugins w this names importerPath importerName) = Ok map
    /\ (forall k d,
          In (k, d) map ->
          k <> "__proto__"
          /\ dep_id d = k /\ dep_importerPath d = importerPath
          /\ exists n, In n names /\ k = pluginIdOf w n)
    /\ (forall n,
          In n names ->
          pluginIdOf w n <> "__proto__" ->
          assoc (pluginIdOf w n) map <> None)
    /\ (forall before n after d,
          names = (before ++ n :: after)%list ->
          Forall (fun n' => pluginIdOf w n' <> pluginIdOf w n) after ->
          pluginIdOf w n <> "__proto__" ->
          outcome (_loadPlugin w this n importerPath importerName) = Ok d ->
          assoc (pluginIdOf w n) map = Some d).
Proof.
  intros Hnames.
  destruct (loadPluginsInto_total w this importerPath importerName Hnames [])
    as (map & Hmap).
  exists map. split; [exact Hmap |]. split; [| split].
  - intros k d Hin.
    destruct (@loadPluginsInto_entries w this names importerPath importerName
                _ _ Hmap k d Hin) as [[] | H].
    exact H.
  - intros n Hn Hproto.
    apply (@loadPluginsInto_present w this names importerPath importerName
             _ _ Hmap _ Hproto).
    right. exists n. auto.
  - intros before n after d -> Hafter Hproto Hd.
    exact (@loadPlugins_last w this before n after importerPath importerName
             map d Hmap Hafter Hproto Hd).
Qed.

(** In the project of [Demo], [md] and [eslint-plugin-md] are one plugin,
    and the plugin [__proto__] gets no entry. *)
Lemma loadPlugins_files_by_id_witness :
  exists map,
    outcome (_loadPlugins Demo.world Demo.factory
               ["md"; "__proto__"; "local"; "eslint-plugin-md"] "" "rc")
    = Ok map
    /\ (forall k d,
          In (k, d) map ->
          k <> "__proto__"
          /\ dep_id d = k /\ dep_importerPath d = ""
          /\ exists n,
               In n ["md"; "__proto__"; "local"; "eslint-plugin-md"]
               /\ k = pluginIdOf Demo.world n)
    /\ (forall n,
          In n ["md"; "__proto__"; "local"; "eslint-plugin-md"] ->
          pluginIdOf Demo.world n <> "__proto__" ->
          assoc (pluginIdOf Demo.world n) map <> None)
    /\ (forall before n after d,
          ["md"; "__proto__"; "local"; "eslint-plugin-md"]
          = (before ++ n :: after)%list ->
          Forall (fun n' => pluginIdOf Demo.world n' <> pluginIdOf Demo.world n)
            after ->
          pluginIdOf Demo.world n <> "__proto__" ->
          outcome (_loadPlugin Demo.world Demo.factory n "" "rc") = Ok d ->
          assoc (pluginIdOf Demo.world n) map = Some d).
Proof.
  apply (@loadPlugins_files_by_id Demo.world Demo.factory
           ["md"; "__proto__"; "local"; "eslint-plugin-md"] "" "rc").
  repeat constructor.
Defined.

Lemma yield_each_pure {A B} (f : A -> M (list B)) (g : A -> list B) xs :
  (forall x, In x xs -> f x = ([], Ok (g x))) ->
  yield_each f xs = ([], Ok (flat_map g xs)).
Proof.
  induction xs as [| x rest IH]; intros H; simpl.
  - reflexivity.
  - rewrite (H x (or_introl eq_refl)), IH;
      [reflexivity | intros; apply H; right; assumption].
Qed.

(** X11.  [_takeFileExtensionProcessors] loads nothing and does not throw.
    It yields one element for each processor whose id starts with a dot,
    plugin by plugin in the order of the map and processor by processor in
    the order of the definition: the element has [files: ["*" + id]], the
    processor [pluginId/id], and no [root].  A plugin that failed to load
    or that defines no processors yields nothing. *)
Theorem processors_for_file_extensions w this fuel plugins filePath name :
  _takeFileExtensionProcessors (_normalizeObjectConfigData w this (S fuel))
    plugins filePath name
  = ([], Ok (flat_map
               (fun entry : string * ConfigDependency =>
                  map (processorElement w this filePath name (fst entry))
                    (extensionProcessors (snd entry)))
               plugins)).
Proof.
  unfold _takeFileExtensionProcessors. apply yield_each_pure.
  intros [pluginId plugin] _. unfold extensionProcessors. simpl fst. simpl snd.
  destruct (dep_definition plugin) as [definition |]; [| reflexivity].
  destruct (mod_processors definition) as [processors |]; [| reflexivity].
  rewrite (yield_each_pure _
             (fun processorId =>
                [processorElement w this filePath name pluginId processorId])).
  - reflexivity.
  - intros processorId _. reflexivity.
Qed.

(* ------------------------------------------------------------------ *)
(** ** More on [extends] *)
(* ------------------------------------------------------------------ *)

Lemma outcome_catch_throw_inv {A} (m : M A) (f : Error -> Error) e :
  outcome (catch m (fun error => throw (f error))) = Throw e ->
  exists cause, outcome m = Throw cause /\ e = f cause.
Proof.
  destruct m as [t [a | e0 |]]; simpl; try discriminate.
  intros H. inversion H. eauto.
Qed.

(** X12.  [_loadExtends] throws exactly when the loader that it calls for
    the entry throws ([_loadExtendedBuiltInConfig] for [eslint:],
    [_loadExtendedPluginConfig] for [plugin:], otherwise
    [_loadExtendedShareableConfig]), and what it throws is the error of
    that loader with one line added to its message: [Referenced from: ]
    and the path of the importer, or its name when it has no path.  Code,
    template and data of the error are those of the loader's error. *)
Theorem extends_errors_name_the_importer w this extendName importerPath
  importerName e :
  outcome (_loadExtends w this extendName importerPath importerName) = Throw e
  <-> exists cause,
        (if Js.startsWith "eslint:" extendName
         then outcome (_loadExtendedBuiltInConfig w this extendName
                         importerName)
         else if Js.startsWith "plugin:" extendName
         then outcome (_loadExtendedPluginConfig w this extendName
                         importerPath importerName)
         else outcome (_loadExtendedShareableConfig w this extendName
                         importerPath importerName))
        = Throw cause
        /\ e = mkError
                 (err_message cause ++ Js.newline ++ "Referenced from: "
                    ++ Js.or_else importerPath importerName)
                 (err_code cause) (err_messageTemplate cause)
                 (err_messageData cause).
Proof.
  unfold _loadExtends. split.
  - intros H. apply outcome_catch_throw_inv in H.
    destruct H as (cause & Hcause & ->). exists cause.
    split; [| reflexivity].
    destruct (Js.startsWith "eslint:" extendName); [exact Hcause |].
    destruct (Js.startsWith "plugin:" extendName); exact Hcause.
  - intros (cause & Hcause & ->).
    rewrite (@outcome_catch_Throw _ _ _ cause); [reflexivity |].
    destruct (Js.startsWith "eslint:" extendName); [exact Hcause |].
    destruct (Js.startsWith "plugin:" extendName); exact Hcause.
Qed.

(** There is no built-in config [eslint:foo]. *)
Lemma extends_errors_name_the_importer_witness :
  outcome (_loadExtends Demo.world Demo.factory "eslint:foo"
             "/proj/.eslintrc.json" ".eslintrc.json")
  = Throw (mkError
             (err_message (configMissingError "eslint:foo") ++ Js.newline
                ++ "Referenced from: /proj/.eslintrc.json")
             None (Some "extend-config-missing")
             [("configName", "eslint:foo")]).
Proof.
  apply (proj2 (@extends_errors_name_the_importer Demo.world Demo.factory
                  "eslint:foo" "/proj/.eslintrc.json" ".eslintrc.json" _)).
  exists (configMissingError "eslint:foo"). split; reflexivity.
Defined.

(** X13.  An error that is raised while the elements of an extended config
    are drained (an [extends] of its own that fails, a file path among its
    plugins) passes through the level that extends it as it is: that level
    adds no [Referenced from] line, so the message names only the config
    whose own entry failed. *)
Theorem errors_of_extended_config_pass_unchanged w this normalize data
  filePath name extendName rest g e :
  extendListOf (cd_extends data) = extendName :: rest ->
  outcome (_loadExtends w this extendName filePath name) = Ok g ->
  outcome (run normalize g) = Throw e ->
  outcome (_normalizeObjectConfigDataBody w this normalize data filePath name)
  = Throw e.
Proof.
  intros Hlist Hg He. unfold _normalizeObjectConfigDataBody.
  apply outcome_bind_Throw. unfold flattenExtends. rewrite Hlist. simpl.
  apply outcome_bind_Throw. rewrite (outcome_bind_step _ _ Hg). exact He.
Qed.

(** The config [chain] is found and read, and fails on its own [extends];
    the error names [chain], not the file that extends it. *)
Lemma errors_of_extended_config_pass_unchanged_witness :
  outcome
    (_normalizeObjectConfigDataBody demo_chain_world Demo.factory
       (_normalizeObjectConfigData demo_chain_world Demo.factory 2)
       demo_chained "/proj/.eslintrc.json" ".eslintrc.json")
  = Throw
      (referencedFrom "/proj/node_modules/eslint-config-chain/index.js"
         (".eslintrc.json " ++ Js.raquo ++ " eslint-config-chain")
         (configMissingError "eslint:foo")).
Proof.
  eapply (@errors_of_extended_config_pass_unchanged demo_chain_world
            Demo.factory _ demo_chained "/proj/.eslintrc.json"
            ".eslintrc.json" "chain" []).
  - reflexivity.
  - vm_compute. reflexivity.
  - vm_compute. reflexivity.
Defined.


Lemma length_append a b :
  String.length (a ++ b) = String.length a + String.length b.
Proof. induction a as [| x a IH]; simpl; [| rewrite IH]; reflexivity. Qed.

Lemma substring_skip a k n s :
  String.substring (String.length a + k) n (a ++ s) = String.substring k n s.
Proof. induction a as [| x a IH]; simpl; [reflexivity | exact IH]. Qed.

Lemma substring_prefix p s :
  String.substring 0 (String.length p) (p ++ s) = p.
Proof.
  induction p as [| x p IH]; simpl.
  - destruct s; reflexivity.
  - rewrite IH. reflexivity.
Qed.

Lemma lastIndexOf_from_range c s :
  forall i acc,
    Js.lastIndexOf_from c s i acc = acc
    \/ (i <= Js.lastIndexOf_from c s i acc)%Z.
Proof.
  induction s as [| a rest IH]; intros i acc; simpl.
  - left. reflexivity.
  - destruct (IH (i + 1)%Z (if Ascii.eqb a c then i else acc)) as [H | H].
    + rewrite H. destruct (Ascii.eqb a c); [right; lia | left; reflexivity].
    + right. lia.
Qed.

Lemma lastIndexOf_from_absent c s :
  forall i,
    (0 <= i)%Z ->
    Js.lastIndexOf_from c s i (-1) = (-1)%Z ->
    forall j acc, Js.lastIndexOf_from c s j acc = acc.
Proof.
  induction s as [| a rest IH]; intros i Hi H j acc; simpl.
  - reflexivity.
  - simpl in H. destruct (Ascii.eqb a c).
    + exfalso.
      destruct (@lastIndexOf_from_range c rest (i + 1)%Z i); lia.
    + apply (@IH (i + 1)%Z); [lia | exact H].
Qed.

Lemma lastIndexOf_from_last c a b :
  (forall j acc, Js.lastIndexOf_from c b j acc = acc) ->
  forall i acc,
    Js.lastIndexOf_from c (a ++ String c b) i acc = (i + Js.len a)%Z.
Proof.
  intros Hb. induction a as [| x a IH]; intros i acc.
  - simpl. rewrite Ascii.eqb_refl, Hb. unfold Js.len. simpl. lia.
  - simpl. rewrite IH. unfold Js.len. simpl String.length. lia.
Qed.

Lemma clamp_inside n i : (0 <= i <= n)%Z -> Js.clamp n i = i.
Proof.
  intros H. unfold Js.clamp. destruct (Z.ltb_spec i 0); lia.
Qed.

Lemma slice_middle a b c :
  Js.slice (a ++ b ++ c) (Js.len a) (Js.len a + Js.len b) = b.
Proof.
  unfold Js.slice.
  assert (Js.len (a ++ b ++ c) = (Js.len a + Js.len b + Js.len c)%Z) as Hn.
  { unfold Js.len. rewrite !length_append. lia. }
  rewrite Hn. unfold Js.len.
  rewrite !clamp_inside by lia.
  replace (Z.to_nat (Z.of_nat (String.length a))) with (String.length a + 0)
    by lia.
  replace (Z.to_nat (Z.max _ 0)) with (String.length b) by lia.
  rewrite substring_skip. apply substring_prefix.
Qed.

Lemma slice_from_suffix a c : Js.slice_from (a ++ c) (Js.len a) = c.
Proof.
  unfold Js.slice_from, Js.slice.
  assert (Js.len (a ++ c) = (Js.len a + Js.len c)%Z) as Hn.
  { unfold Js.len. rewrite !length_append. lia. }
  rewrite Hn. unfold Js.len.
  rewrite !clamp_inside by lia.
  replace (Z.to_nat (Z.of_nat (String.length a))) with (String.length a + 0)
    by lia.
  replace (Z.to_nat (Z.max _ 0)) with (String.length c) by lia.
  rewrite substring_skip. apply substring_all.
Qed.

(** The two halves of [plugin:<pluginName>/<configName>]. *)
Lemma plugin_extends_halves pluginName configName :
  Js.lastIndexOf "/" configName = (-1)%Z ->
  let extendName := "plugin:" ++ pluginName ++ "/" ++ configName in
  Js.slice extendName 7 (Js.lastIndexOf "/" extendName) = pluginName
  /\ Js.slice_from extendName (Js.lastIndexOf "/" extendName + 1) = configName.
Proof.
  intros Hc extendName.
  assert (forall j acc, Js.lastIndexOf_from "/" configName j acc = acc) as Habs.
  { apply (@lastIndexOf_from_absent "/"%char configName 0%Z);
      [lia | exact Hc]. }
  assert (extendName = ("plugin:" ++ pluginName) ++ String "/" configName)
    as Hsplit.
  { unfold extendName. rewrite append_assoc. reflexivity. }
  assert (Js.lastIndexOf "/" extendName = (7 + Js.len pluginName)%Z) as Hlast.
  { unfold Js.lastIndexOf. rewrite Hsplit, (@lastIndexOf_from_last _ _ _ Habs).
    unfold Js.len. rewrite length_append. simpl String.length. lia. }
  rewrite Hlast. split.
  - change 7%Z with (Js.len "plugin:"). apply slice_middle.
  - replace (7 + Js.len pluginName + 1)%Z
      with (Js.len (("plugin:" ++ pluginName) ++ "/")).
    + replace extendName with ((("plugin:" ++ pluginName) ++ "/") ++ configName).
      * apply slice_from_suffix.
      * unfold extendName. rewrite !append_assoc. reflexivity.
    + unfold Js.len. rewrite !length_append. simpl String.length. lia.
Qed.


(** X14.  [plugin:<pluginName>/<configName>] is cut at its last slash, so
    the name of the plugin may hold slashes itself (a scoped package).  A
    plugin name that is a file path is refused.  Otherwise that plugin is
    loaded: when its definition has the config as a property of its own,
    the config is normalized under the file path of the plugin and the
    name [<importer> >> plugin:<id>/<configName>]; when it has not, and
    the name of the config is none that a plain object inherits, the load
    error of the plugin is thrown, or the error of a missing config. *)
Theorem plugin_extends_is_cut_at_last_slash w this pluginName configName
  importerPath importerName :
  Js.lastIndexOf "/" configName = (-1)%Z ->
  let extendName := "plugin:" ++ pluginName ++ "/" ++ configName in
  (isFilePath w pluginName = true ->
   _loadExtendedPluginConfig w this extendName importerPath importerName
   = ([], Throw (newError "'extends' cannot use a file path for plugins.")))
  /\ (isFilePath w pluginName = false ->
      forall plugin,
        outcome (_loadPlugin w this pluginName importerPath importerName)
        = Ok plugin ->
        (forall configData,
           pluginConfig plugin configName = Some configData ->
           outcome (_loadExtendedPluginConfig w this extendName importerPath
                      importerName)
           = outcome
               (_normalizeConfigData w this (Some configData)
                  (match dep_filePath plugin with
                   | Some f => f
                   | None => ""
                   end)
                  (importerName ++ " " ++ Js.raquo ++ " plugin:"
                     ++ dep_id plugin ++ "/" ++ configName)))
        /\ (pluginConfig plugin configName = None ->
            ~ In configName Js.objectPrototypeNames ->
            outcome (_loadExtendedPluginConfig w this extendName importerPath
                       importerName)
            = Throw (match dep_error plugin with
                     | Some error => error
                     | None => configMissingError extendName
                     end))).
Proof.
  intros Hc extendName.
  destruct (@plugin_extends_halves pluginName configName Hc) as [Hp Hn].
  fold extendName in Hp, Hn.
  unfold _loadExtendedPluginConfig. rewrite Hp, Hn. split.
  - intros ->. reflexivity.
  - intros -> plugin Hplugin. rewrite (outcome_bind_step _ _ Hplugin).
    unfold pluginConfig.
    destruct (dep_definition plugin) as [definition |];
      [| split; [discriminate | reflexivity]].
    destruct (mod_configs definition) as [configs |];
      [| split; [discriminate | reflexivity]].
    destruct (assoc configName configs) as [found |]; split;
      try discriminate; try reflexivity.
    intros configData H. injection H as <-. reflexivity.
Qed.

(** The config [strict] of the plugin [md] in the project of [Demo]. *)
Lemma plugin_extends_is_cut_at_last_slash_witness :
  exists plugin configData,
    outcome (_loadPlugin Demo.world Demo.factory "md" "" "rc") = Ok plugin
    /\ pluginConfig plugin "strict" = Some configData
    /\ outcome (_loadExtendedPluginConfig Demo.world Demo.factory
                  ("plugin:" ++ "md" ++ "/" ++ "strict") "" "rc")
       = Ok (mkGen (Some configData)
               "/proj/node_modules/eslint-plugin-md/index.js"
               ("rc " ++ Js.raquo ++ " plugin:md/strict")).
Proof.
  pose proof (proj2 (@plugin_extends_is_cut_at_last_slash Demo.world
                       Demo.factory "md" "strict" "" "rc" eq_refl) eq_refl)
    as H.
  do 2 eexists. split; [vm_compute; reflexivity |].
  match goal with
  | |- pluginConfig ?plugin _ = _ /\ _ =>
      assert (outcome (_loadPlugin Demo.world Demo.factory "md" "" "rc")
              = Ok plugin) as Hplugin by (vm_compute; reflexivity);
      destruct (H plugin Hplugin) as [Hown _]
  end.
  split; [vm_compute; reflexivity |].
  erewrite Hown; vm_compute; reflexivity.
Defined.

Lemma plugin_is_not_builtin extendName :
  Js.startsWith "plugin:" extendName = true ->
  Js.startsWith "eslint:" extendName = false.
Proof.
  unfold Js.startsWith. destruct extendName as [| a rest]; [discriminate |].
  rewrite !prefix_cons.
  destruct (Ascii.eqb_spec "p" a) as [<- |]; [reflexivity | discriminate].
Qed.

(** X15.  Under [extends], a plugin that cannot be loaded is fatal: the
    error that [plugins] would keep in the dependency is thrown by
    [_loadExtends], with the line that names the importer. *)
Theorem failing_plugin_is_fatal_in_extends w this extendName importerPath
  importerName e :
  let pluginName :=
    Js.slice extendName 7 (Js.lastIndexOf "/"%char extendName) in
  let request := naming_normalizePackageName w pluginName "eslint-plugin" in
  Js.startsWith "plugin:" extendName = true ->
  isFilePath w pluginName = false ->
  Js.has_whitespace pluginName = false ->
  assoc request (_additionalPluginPool this) = None ->
  assoc (naming_getShorthandName w request "eslint-plugin")
    (_additionalPluginPool this) = None ->
  outcome (resolveAndRequire w request (projectRootRc w this)) = Throw e ->
  outcome (_loadExtends w this extendName importerPath importerName)
  = Throw (referencedFrom importerPath importerName
             (pluginNotFound this request e)).
Proof.
  intros pluginName request Hplugin Hpath Hws Hp1 Hp2 He.
  unfold _loadExtends.
  rewrite (@plugin_is_not_builtin extendName Hplugin), Hplugin.
  rewrite (@outcome_catch_Throw _ _ _ (pluginNotFound this request e));
    [reflexivity |].
  unfold _loadExtendedPluginConfig. fold pluginName. rewrite Hpath.
  assert (outcome (_loadPlugin w this pluginName importerPath importerName)
          = Ok (failed (pluginNotFound this request e)
                  (naming_getShorthandName w request "eslint-plugin")
                  importerName importerPath)) as Hdep.
  { unfold _loadPlugin. rewrite Hpath, Hws. fold request. rewrite Hp1, Hp2.
    unfold resolvePlugin.
    rewrite (@outcome_catch_Throw _ _ _ e); [reflexivity |].
    apply outcome_bind_Throw. exact He. }
  rewrite (outcome_bind_step _ _ Hdep). reflexivity.
Qed.

(** In the project of [Demo] the plugin [local] is not installed at the
    root. *)
Lemma failing_plugin_is_fatal_in_extends_witness :
  outcome (_loadExtends Demo.world Demo.factory "plugin:local/all"
             "/proj/.eslintrc.json" "rc")
  = Throw (referencedFrom "/proj/.eslintrc.json" "rc"
             (pluginNotFound Demo.factory "eslint-plugin-local"
                (Demo.moduleNotFound "eslint-plugin-local"))).
Proof.
  apply (@failing_plugin_is_fatal_in_extends Demo.world Demo.factory
           "plugin:local/all" "/proj/.eslintrc.json" "rc"
           (Demo.moduleNotFound "eslint-plugin-local")); reflexivity.
Defined.

(** X16.  A shareable config that the module resolver does not find is
    reported by the error of the template [extend-config-missing] that
    names the entry of [extends] as written; so is a module that is missing
    while the file of the config is loaded.  [_loadExtendedShareableConfig]
    never throws an error with the code [MODULE_NOT_FOUND]. *)
Theorem missing_shareable_config w this extendName importerPath importerName :
  let request := shareableRequest w extendName in
  let relativeTo := relativeToOf w this importerPath in
  (forall e,
     ModuleResolver_resolve w request relativeTo = Throws e ->
     code_is "MODULE_NOT_FOUND" e = true ->
     _loadExtendedShareableConfig w this extendName importerPath importerName
     = ([EvResolve request relativeTo], Throw (configMissingError extendName)))
  /\ (forall filePath e,
        ModuleResolver_resolve w request relativeTo = Returns filePath ->
        loadConfigFile w filePath = Throws e ->
        code_is "MODULE_NOT_FOUND" e = true ->
        _loadExtendedShareableConfig w this extendName importerPath
          importerName
        = ([EvResolve request relativeTo; EvLoadConfigFile filePath],
           Throw (configMissingError extendName)))
  /\ (forall e,
        outcome (_loadExtendedShareableConfig w this extendName importerPath
                   importerName) = Throw e ->
        code_is "MODULE_NOT_FOUND" e = false).
Proof.
  intros request relativeTo.
  unfold _loadExtendedShareableConfig. fold (shareableRequest w extendName).
  fold request. fold relativeTo. split; [| split].
  - intros e Hr Hcode. rewrite Hr. simpl. rewrite Hcode. reflexivity.
  - intros filePath e Hr Hload Hcode. rewrite Hr.
    cbn [bind emit lift ret app]. unfold _loadConfigData.
    rewrite Hload. cbn [bind emit lift ret throw catch app].
    rewrite Hcode. reflexivity.
  - intros e.
    destruct (bind (emit (EvResolve request relativeTo)) _)
      as [t [g | e0 |]]; simpl; try discriminate.
    destruct (code_is "MODULE_NOT_FOUND" e0) eqn:Hcode; simpl;
      intros H; inversion H; subst; [reflexivity | exact Hcode].
Qed.

(* ------------------------------------------------------------------ *)
(** ** Fuel *)
(* ------------------------------------------------------------------ *)

Lemma bind_mono {A B} (m1 m2 : M A) (f1 f2 : A -> M B) :
  (finished m1 -> m2 = m1) ->
  (forall a, outcome m1 = Ok a -> finished (f1 a) -> f2 a = f1 a) ->
  finished (bind m1 f1) ->
  bind m2 f2 = bind m1 f1.
Proof.
  unfold finished. intros Hm Hf H.
  destruct m1 as [t [a | e |]]; simpl in *.
  - rewrite Hm by discriminate. simpl.
    rewrite (Hf a eq_refl); [reflexivity |].
    destruct (f1 a). exact H.
  - rewrite Hm by discriminate. reflexivity.
  - contradiction H. reflexivity.
Qed.

Lemma yield_each_mono {A B} (f1 f2 : A -> M (list B)) xs :
  (forall x, In x xs -> finished (f1 x) -> f2 x = f1 x) ->
  finished (yield_each f1 xs) ->
  yield_each f2 xs = yield_each f1 xs.
Proof.
  induction xs as [| x rest IH]; intros Hf H; simpl; [reflexivity |].
  simpl in H. apply bind_mono; [| | exact H].
  - apply Hf. left. reflexivity.
  - intros ys _ H2. apply bind_mono; [| | exact H2].
    + apply IH. intros; apply Hf; [right |]; assumption.
    + reflexivity.
Qed.

Lemma body_mono w this (n1 n2 : JsConfig -> string -> string ->
                                 M (list ConfigArrayElement)) data filePath
  name :
  (forall c f n, finished (n1 c f n) -> n2 c f n = n1 c f n) ->
  finished (_normalizeObjectConfigDataBody w this n1 data filePath name) ->
  _normalizeObjectConfigDataBody w this n2 data filePath name
  = _normalizeObjectConfigDataBody w this n1 data filePath name.
Proof.
  intros Hn. unfold _normalizeObjectConfigDataBody. intros H.
  apply bind_mono; [| | exact H].
  { unfold flattenExtends. apply yield_each_mono. intros x _ Hx.
    apply bind_mono; [reflexivity | | exact Hx].
    intros g _. unfold run. apply Hn. }
  intros ex _ H1. apply bind_mono; [reflexivity | | exact H1].
  intros pa _ H2. apply bind_mono; [reflexivity | | exact H2].
  intros pl _ H3. apply bind_mono; [| | exact H3].
  { unfold processorsOf. destruct pl as [plugins |]; [| reflexivity].
    unfold _takeFileExtensionProcessors. apply yield_each_mono.
    intros [pluginId plugin] _.
    destruct (match dep_definition plugin with
              | Some definition => mod_processors definition
              | None => None
              end); [| reflexivity].
    apply yield_each_mono. intros processorId _. apply Hn. }
  intros pr _ H4. apply bind_mono; [| | exact H4].
  { unfold flattenOverrides. apply yield_each_mono. intros entry _.
    apply Hn. }
  reflexivity.
Qed.

Lemma normalize_more_fuel w this fuel :
  forall configData filePath name,
    finished (_normalizeObjectConfigData w this fuel configData filePath name) ->
    _normalizeObjectConfigData w this (S fuel) configData filePath name
    = _normalizeObjectConfigData w this fuel configData filePath name.
Proof.
  induction fuel as [| fuel IH]; intros configData filePath name H.
  - contradiction H. reflexivity.
  - destruct configData as [data |]; [| reflexivity].
    cbn [_normalizeObjectConfigData] in H |- *.
    apply bind_mono; [| reflexivity | exact H].
    apply body_mono. exact IH.
Qed.

Lemma normalize_enough_fuel w this fuel extra configData filePath name :
  finished (_normalizeObjectConfigData w this fuel configData filePath name) ->
  _normalizeObjectConfigData w this (extra + fuel) configData filePath name
  = _normalizeObjectConfigData w this fuel configData filePath name.
Proof.
  intros H. induction extra as [| extra IH]; [reflexivity |].
  change (S extra + fuel) with (S (extra + fuel)).
  rewrite normalize_more_fuel; rewrite IH; [reflexivity | assumption].
Qed.

(** Fuel only bounds the depth of the recursion through [extends]
    and [overrides]: once a call of [create], [loadFile] or
    [loadOnDirectory] finishes with some fuel, by returning or by
    throwing, it does the same loads and has the same outcome with any
    larger fuel. *)
Theorem result_does_not_depend_on_fuel w this fuel fuel' r parent :
  fuel <= fuel' ->
  outcome (resolution w this fuel r parent) <> OutOfFuel ->
  resolution w this fuel' r parent = resolution w this fuel r parent.
Proof.
  intros Hle H. replace fuel' with ((fuel' - fuel) + fuel) by lia.
  generalize (fuel' - fuel). intros extra.
  assert (forall g,
             finished (bind (run (_normalizeObjectConfigData w this fuel) g)
                         (fun elements =>
                            ret (createConfigArray (Some elements) parent))) ->
             bind (run (_normalizeObjectConfigData w this (extra + fuel)) g)
               (fun elements => ret (createConfigArray (Some elements) parent))
             = bind (run (_normalizeObjectConfigData w this fuel) g)
                 (fun elements =>
                    ret (createConfigArray (Some elements) parent))) as Hrun.
  { intros g Hg. apply bind_mono; [| reflexivity | exact Hg].
    unfold run. apply normalize_enough_fuel. }
  destruct r as [configData filePath name | filePath name | dir name];
    simpl in *.
  - unfold create in *. destruct configData; [| reflexivity].
    apply bind_mono; [reflexivity | | exact H]. intros g _. apply Hrun.
  - unfold loadFile in *.
    apply bind_mono; [reflexivity | | exact H]. intros g _. apply Hrun.
  - unfold loadOnDirectory in *.
    apply bind_mono; [reflexivity | | exact H].
    intros [g |] _; [apply Hrun | reflexivity].
Qed.

Lemma result_does_not_depend_on_fuel_witness :
  resolution Demo.world Demo.factory 100 (LoadFile ".eslintrc.json" "") None
  = resolution Demo.world Demo.factory 3 (LoadFile ".eslintrc.json" "") None.
Proof.
  apply (@result_does_not_depend_on_fuel Demo.world Demo.factory 3 100
           (LoadFile ".eslintrc.json" "") None).
  - repeat constructor.
  - vm_compute. discriminate.
Defined.


Lemma bind_returns_or_refuses {A B} (m : M A) (f : A -> M B) :
  returns_or_refuses_path m ->
  (forall a, returns_or_refuses_path (f a)) ->
  returns_or_refuses_path (bind m f).
Proof.
  unfold returns_or_refuses_path. intros [(a & Ha) | Hm] Hf.
  - rewrite (outcome_bind_step _ _ Ha). apply Hf.
  - right. apply outcome_bind_Throw. exact Hm.
Qed.

Lemma yield_each_returns_or_refuses {A B} (f : A -> M (list B)) xs :
  (forall x, In x xs -> returns_or_refuses_path (f x)) ->
  returns_or_refuses_path (yield_each f xs).
Proof.
  induction xs as [| x rest IH]; intros H; simpl.
  - left. eexists. reflexivity.
  - apply bind_returns_or_refuses; [apply H; left; reflexivity |].
    intros ys. apply bind_returns_or_refuses.
    + apply IH. intros; apply H; right; assumption.
    + intros zs. left. eexists. reflexivity.
Qed.

Lemma paths_or_not w names :
  Forall (fun n => isFilePath w n = false) names
  \/ Exists (fun n => isFilePath w n = true) names.
Proof.
  induction names as [| n rest [IH | IH]].
  - left. constructor.
  - destruct (isFilePath w n) eqn:E.
    + right. left. exact E.
    + left. constructor; assumption.
  - right. right. exact IH.
Qed.

(** X17.  A config data that extends nothing, at any depth of its
    [overrides], always resolves: with more fuel than its [overrides]
    nest, [_normalizeObjectConfigData] returns its elements, unless a file
    path among the plugins makes it throw.  Only what [extends] reaches can
    keep the flattening from finishing or make it fail otherwise. *)
Theorem config_without_extends_resolves w this fuel :
  forall data filePath name,
    extends_nothing data = true ->
    nesting data < fuel ->
    (exists elements,
       outcome (_normalizeObjectConfigData w this fuel (Some data) filePath
                  name) = Ok elements)
    \/ outcome (_normalizeObjectConfigData w this fuel (Some data) filePath
                  name) = Throw filePathInPlugins.
Proof.
  induction fuel as [| fuel IH]; intros data filePath name Hext Hnest;
    [lia |].
  change (returns_or_refuses_path
            (_normalizeObjectConfigData w this (S fuel) (Some data) filePath
               name)).
  destruct data as [files excluded env extend globals parser parserOptions
                      plugins processor root rules settings overrides].
  cbn [extends_nothing] in Hext. cbn [nesting] in Hnest.
  destruct (extendListOf extend) eqn:Hlist; [| discriminate].
  cbn [_normalizeObjectConfigData].
  apply bind_returns_or_refuses; [| intros; left; eexists; reflexivity].
  unfold _normalizeObjectConfigDataBody.
  apply bind_returns_or_refuses.
  { unfold flattenExtends. cbn [cd_extends]. rewrite Hlist.
    left. eexists. reflexivity. }
  intros ex. apply bind_returns_or_refuses.
  { left. apply loadParserOf_total. }
  intros pa. apply bind_returns_or_refuses.
  { unfold loadPluginsOf. cbn [cd_plugins].
    destruct plugins as [names |]; [| left; eexists; reflexivity].
    unfold _loadPlugins. destruct (paths_or_not w names) as [Hn | Hn].
    - destruct (loadPluginsInto_total w this filePath name Hn []) as (m & Hm).
      left. rewrite (outcome_bind_step _ _ Hm). eexists. reflexivity.
    - right. apply outcome_bind_Throw.
      apply loadPluginsInto_path. exact Hn. }
  intros pl. apply bind_returns_or_refuses.
  { destruct fuel as [| fuel']; [lia |].
    left. apply processorsOf_total. }
  intros pr. apply bind_returns_or_refuses;
    [| intros; left; eexists; reflexivity].
  unfold flattenOverrides. cbn [cd_overrides].
  apply yield_each_returns_or_refuses. intros [i o] Hin.
  apply in_combine_r in Hin. cbn [fst snd].
  apply IH.
  - rewrite forallb_forall in Hext. apply Hext. exact Hin.
  - assert (nesting o <= list_max (map nesting overrides)) as Hle.
    { pose proof (proj1 (list_max_le (map nesting overrides)
                           (list_max (map nesting overrides)))
                    (Nat.le_refl _)) as HF.
      rewrite Forall_forall in HF. apply HF. apply in_map. exact Hin. }
    lia.
Qed.

Lemma config_without_extends_resolves_witness :
  (exists elements,
     outcome (_normalizeObjectConfigData Demo.world Demo.factory 5
                (Some demo_deep) "" "") = Ok elements)
  \/ outcome (_normalizeObjectConfigData Demo.world Demo.factory 5
                (Some demo_deep) "" "") = Throw filePathInPlugins.
Proof.
  apply (@config_without_extends_resolves Demo.world Demo.factory 5
           demo_deep "" ""); [reflexivity | vm_compute; lia].
Defined.

(* ------------------------------------------------------------------ *)
(** ** What a level with criteria yields *)
(* ------------------------------------------------------------------ *)

Lemma create_basePath files excludedFiles base x :
  OverrideTester.create files excludedFiles base = Some x ->
  OverrideTester.basePath x = base.
Proof.
  destruct files, excludedFiles; simpl; intros H; inversion H; reflexivity.
Qed.

(** X18.  Every element that a level with [files] or [excludedFiles]
    yields (its own, those of what it extends, of its processors and of its
    [overrides]) has criteria, relative to the base path of the level, and
    no [root]; and the criteria of the element match no file that the
    criteria of the level do not match. *)
Theorem elements_of_scoped_level_are_scoped w this minimatch fuel data
  filePath name x elements :
  OverrideTester.create (cd_files data) (cd_excludedFiles data)
    (basePathOf w this filePath) = Some x ->
  outcome (_normalizeObjectConfigData w this fuel (Some data) filePath name)
  = Ok elements ->
  forall element,
    In element elements ->
    exists c,
      el_criteria element = Some c
      /\ OverrideTester.basePath c = basePathOf w this filePath
      /\ el_root element = None
      /\ forall p,
           OverrideTester.test minimatch (path_relative w) c p = true ->
           OverrideTester.test minimatch (path_relative w) x p = true.
Proof.
  intros Hx H element Hin. apply normalize_level in H.
  destruct H as (fuel' & body & _ & _ & ->). rewrite Hx in Hin.
  apply in_map_iff in Hin. destruct Hin as (e0 & <- & _).
  pose proof (create_basePath _ _ _ Hx) as Hbase.
  unfold applyCriteria.
  destruct (el_criteria e0) as [y |]; simpl.
  - eexists. split; [reflexivity |]. split; [reflexivity |].
    split; [reflexivity |]. intros p. unfold OverrideTester.test. simpl.
    rewrite Hbase, forallb_app. intros Hp.
    apply andb_true_iff in Hp. exact (proj1 Hp).
  - eexists. split; [reflexivity |]. split; [reflexivity |].
    split; [reflexivity |]. intros p. unfold OverrideTester.test. simpl.
    rewrite Hbase. auto.
Qed.

(** The level [demo_nested] matches [*.xxx]; the element of its override
    also requires [*.yyy]. *)
Lemma elements_of_scoped_level_are_scoped_witness :
  Forall
    (fun element =>
       exists c,
         el_criteria element = Some c
         /\ OverrideTester.basePath c = "/proj"
         /\ el_root element = None
         /\ forall p,
              OverrideTester.test String.eqb Demo.relative c p = true ->
              OverrideTester.test String.eqb Demo.relative
                (OverrideTester.mk [(["*.xxx"], [])] "/proj") p = true)
    demo_nested_elements.
Proof.
  apply Forall_forall.
  apply (@elements_of_scoped_level_are_scoped Demo.world Demo.factory
           String.eqb 2 demo_nested "" "#overrides[0]").
  - reflexivity.
  - vm_compute. reflexivity.
Defined.

(* ------------------------------------------------------------------ *)
(** ** The counters of the engine *)
(* ------------------------------------------------------------------ *)

Lemma stats_fold messages :
  forall acc,
    fold_left
      (fun stat message =>
         if CLIEngine.isError message
         then CLIEngine.mkStats (S (CLIEngine.errorCount stat))
                (CLIEngine.warningCount stat)
                (if CLIEngine.hasFix message
                 then S (CLIEngine.fixableErrorCount stat)
                 else CLIEngine.fixableErrorCount stat)
                (CLIEngine.fixableWarningCount stat)
         else CLIEngine.mkStats (CLIEngine.errorCount stat)
                (S (CLIEngine.warningCount stat))
                (CLIEngine.fixableErrorCount stat)
                (if CLIEngine.hasFix message
                 then S (CLIEngine.fixableWarningCount stat)
                 else CLIEngine.fixableWarningCount stat))
      messages acc
    = CLIEngine.mkStats
        (CLIEngine.errorCount acc
         + List.length (filter CLIEngine.isError messages))
        (CLIEngine.warningCount acc
         + List.length
             (filter (fun m => negb (CLIEngine.isError m)) messages))
        (CLIEngine.fixableErrorCount acc
         + List.length
             (filter (fun m => CLIEngine.isError m && CLIEngine.hasFix m)
                messages))
        (CLIEngine.fixableWarningCount acc
         + List.length
             (filter
                (fun m => negb (CLIEngine.isError m) && CLIEngine.hasFix m)
                messages)).
Proof.
  induction messages as [| m rest IH]; intros acc; simpl.
  - destruct acc. simpl. f_equal; lia.
  - rewrite IH.
    destruct (CLIEngine.isError m), (CLIEngine.hasFix m); simpl;
      f_equal; lia.
Qed.

Lemma stats_closed messages :
  CLIEngine.calculateStatsPerFile messages
  = CLIEngine.mkStats
      (List.length (filter CLIEngine.isError messages))
      (List.length (filter (fun m => negb (CLIEngine.isError m)) messages))
      (List.length
         (filter (fun m => CLIEngine.isError m && CLIEngine.hasFix m)
            messages))
      (List.length
         (filter (fun m => negb (CLIEngine.isError m) && CLIEngine.hasFix m)
            messages)).
Proof. unfold CLIEngine.calculateStatsPerFile. apply stats_fold. Qed.

Lemma filter_split {A} (f : A -> bool) l :
  List.length (filter f l) + List.length (filter (fun x => negb (f x)) l)
  = List.length l.
Proof.
  induction l as [| x l IH]; simpl; [reflexivity |].
  destruct (f x); simpl; lia.
Qed.

Lemma filter_and_le {A} (f g : A -> bool) l :
  List.length (filter (fun x => f x && g x) l) <= List.length (filter f l).
Proof.
  induction l as [| x l IH]; simpl; [lia |].
  destruct (f x), (g x); simpl; lia.
Qed.

Lemma filter_cases {A} (f g : A -> bool) l :
  List.length (filter (fun x => f x && g x) l)
  + List.length (filter (fun x => negb (f x) && g x) l)
  = List.length (filter g l).
Proof.
  induction l as [| x l IH]; simpl; [reflexivity |].
  destruct (f x), (g x); simpl; lia.
Qed.

Lemma stats_per_file_counts_aux messages :
  CLIEngine.errorCount (CLIEngine.calculateStatsPerFile messages)
  + CLIEngine.warningCount (CLIEngine.calculateStatsPerFile messages)
  = List.length messages.
Proof. rewrite stats_closed. simpl. apply filter_split. Qed.

(** X19.  [calculateStatsPerFile] counts every message once, as an error
    when it is fatal or of severity 2 and as a warning otherwise; the
    fixable counters count, among the errors and among the warnings, the
    messages with a fix, so neither exceeds its counter. *)
Theorem stats_per_file_count_each_message messages :
  let stats := CLIEngine.calculateStatsPerFile messages in
  CLIEngine.errorCount stats + CLIEngine.warningCount stats
  = List.length messages
  /\ CLIEngine.errorCount stats
     = List.length (filter CLIEngine.isError messages)
  /\ CLIEngine.fixableErrorCount stats
       + CLIEngine.fixableWarningCount stats
     = List.length (filter CLIEngine.hasFix messages)
  /\ CLIEngine.fixableErrorCount stats <= CLIEngine.errorCount stats
  /\ CLIEngine.fixableWarningCount stats <= CLIEngine.warningCount stats.
Proof.
  intros stats. unfold stats. rewrite stats_closed. simpl.
  split; [apply filter_split |]. split; [reflexivity |].
  split; [apply filter_cases |].
  split; [apply filter_and_le |].
  apply (filter_and_le (fun m => negb (CLIEngine.isError m))).
Qed.

Lemma run_fold results :
  forall acc,
    Forall CLIEngine.consistent results ->
    fold_left
      (fun stat result =>
         CLIEngine.mkStats
           (CLIEngine.errorCount stat + CLIEngine.res_errorCount result)
           (CLIEngine.warningCount stat + CLIEngine.res_warningCount result)
           (CLIEngine.fixableErrorCount stat
            + CLIEngine.res_fixableErrorCount result)
           (CLIEngine.fixableWarningCount stat
            + CLIEngine.res_fixableWarningCount result))
      results acc
    = let all :=
        CLIEngine.calculateStatsPerFile
          (List.concat (map CLIEngine.res_messages results)) in
      CLIEngine.mkStats
        (CLIEngine.errorCount acc + CLIEngine.errorCount all)
        (CLIEngine.warningCount acc + CLIEngine.warningCount all)
        (CLIEngine.fixableErrorCount acc + CLIEngine.fixableErrorCount all)
        (CLIEngine.fixableWarningCount acc
         + CLIEngine.fixableWarningCount all).
Proof.
  induction results as [| r rest IH]; intros acc HF; simpl.
  - destruct acc. simpl. f_equal; lia.
  - inversion HF as [| ? ? Hr Hrest]; subst. rewrite (IH _ Hrest). simpl.
    unfold CLIEngine.consistent in Hr.
    rewrite !stats_closed in *. simpl in *.
    injection Hr as H1 H2 H3 H4.
    rewrite !filter_app, !length_app. f_equal; lia.
Qed.

(** X20.  When the counters of every result are those of its messages,
    the totals of [calculateStatsPerRun] are what [calculateStatsPerFile]
    counts in all the messages of the run taken together. *)
Theorem stats_per_run_are_stats_of_all_messages results :
  Forall CLIEngine.consistent results ->
  CLIEngine.calculateStatsPerRun results
  = CLIEngine.calculateStatsPerFile
      (List.concat (map CLIEngine.res_messages results)).
Proof.
  intros HF. unfold CLIEngine.calculateStatsPerRun.
  rewrite (run_fold CLIEngine.noStats HF). simpl.
  destruct (CLIEngine.calculateStatsPerFile _). reflexivity.
Qed.

(** X21.  The results that the engine makes itself are consistent: the
    counters of the result of [verifyText] and of [createIgnoreResult] are
    those of their messages.  The result for an ignored file is always one
    warning that is not fatal, whatever the reason. *)
Theorem results_of_the_engine_are_consistent w processCwd basename text
  filePath baseDir verified :
  CLIEngine.consistent (CLIEngine.verifyText basename text filePath verified)
  /\ CLIEngine.consistent
       (CLIEngine.createIgnoreResult w processCwd filePath baseDir)
  /\ exists message,
       CLIEngine.res_messages
         (CLIEngine.createIgnoreResult w processCwd filePath baseDir)
       = [CLIEngine.mkMessage None (Some false) 1 message None]
       /\ CLIEngine.res_warningCount
            (CLIEngine.createIgnoreResult w processCwd filePath baseDir) = 1
       /\ CLIEngine.res_errorCount
            (CLIEngine.createIgnoreResult w processCwd filePath baseDir) = 0.
Proof.
  split; [| split].
  - unfold CLIEngine.consistent, CLIEngine.verifyText. simpl.
    destruct (CLIEngine.calculateStatsPerFile _). reflexivity.
  - reflexivity.
  - eexists. repeat split.
Qed.

(** X22.  The result of [verifyText] holds the output exactly when the
    text was fixed, and the source text exactly when there are messages
    and the text was not fixed; it never holds both. *)
Theorem verifyText_output_or_source basename text filePath verified :
  let result := CLIEngine.verifyText basename text filePath verified in
  CLIEngine.res_output result
  = (if CLIEngine.vf_fixed verified
     then Some (CLIEngine.vf_output verified) else None)
  /\ CLIEngine.res_source result
     = (if CLIEngine.vf_fixed verified then None
        else match CLIEngine.vf_messages verified with
             | [] => None
             | _ :: _ => Some text
             end)
  /\ (CLIEngine.res_output result = None
      \/ CLIEngine.res_source result = None).
Proof.
  intros result. unfold result, CLIEngine.verifyText. simpl.
  pose proof (stats_per_file_counts_aux (CLIEngine.vf_messages verified))
    as Hcount.
  rewrite Hcount.
  destruct (CLIEngine.vf_fixed verified); simpl.
  - rewrite andb_false_r. auto.
  - rewrite andb_true_r.
    destruct (CLIEngine.vf_messages verified); simpl; auto.
Qed.


Lemma stats_per_run_are_stats_of_all_messages_witness :
  CLIEngine.calculateStatsPerRun demo_results
  = CLIEngine.calculateStatsPerFile
      (List.concat (map CLIEngine.res_messages demo_results)).
Proof.
  apply stats_per_run_are_stats_of_all_messages.
  repeat constructor.
Defined.

(* ------------------------------------------------------------------ *)
(** ** The options of the command line *)
(* ------------------------------------------------------------------ *)

Lemma addKey_unfold defaultValue map def :
  CLIEngine.addKey defaultValue map def
  = if negb (String.eqb (keyOf def) "__proto__")
    then JsObject.set (keyOf def) (valueOf defaultValue def) map
    else map.
Proof. reflexivity. Qed.

Lemma fold_addKey_kept defaultValue k defs :
  forall acc,
    Forall (fun def => keyOf def <> k) defs ->
    assoc k (fold_left (CLIEngine.addKey defaultValue) defs acc) = assoc k acc.
Proof.
  induction defs as [| def rest IH]; intros acc HF; simpl; [reflexivity |].
  inversion HF as [| ? ? Hdef Hrest]; subst.
  rewrite (IH _ Hrest), addKey_unfold.
  destruct (negb (String.eqb (keyOf def) "__proto__")); [| reflexivity].
  apply assoc_set_other. intros Heq. apply Hdef. symmetry. exact Heq.
Qed.

Lemma fold_addKey_proto defaultValue defs :
  forall acc,
    assoc "__proto__" acc = None ->
    assoc "__proto__" (fold_left (CLIEngine.addKey defaultValue) defs acc)
    = None.
Proof.
  induction defs as [| def rest IH]; intros acc Hacc; simpl; [exact Hacc |].
  apply IH. rewrite addKey_unfold.
  destruct (String.eqb (keyOf def) "__proto__") eqn:E; simpl; [exact Hacc |].
  apply String.eqb_neq in E. rewrite assoc_set_other; [exact Hacc |].
  intros Heq. apply E. symmetry. exact Heq.
Qed.

Lemma fold_addKey_entries defaultValue defs :
  forall acc k v,
    In (k, v) (fold_left (CLIEngine.addKey defaultValue) defs acc) ->
    In (k, v) acc
    \/ exists def,
         In def defs /\ k = keyOf def /\ v = valueOf defaultValue def.
Proof.
  induction defs as [| def rest IH]; intros acc k v Hin; simpl in Hin.
  - left. exact Hin.
  - destruct (IH _ _ _ Hin) as [Hacc | (d & Hd & Hk & Hv)].
    + rewrite addKey_unfold in Hacc.
      destruct (negb (String.eqb (keyOf def) "__proto__")); [| auto].
      apply In_set in Hacc. destruct Hacc as [[-> ->] | Hacc]; [| auto].
      right. exists def. split; [left; reflexivity | auto].
    + right. exists d. split; [right; exact Hd | auto].
Qed.

Lemma split_without c s : has_char c s = false -> CLIEngine.split c s = [s].
Proof.
  induction s as [| a s IH]; simpl; [reflexivity |].
  intros H. apply orb_false_iff in H. destruct H as [Ha Hs].
  rewrite Ha, (IH Hs). reflexivity.
Qed.

Lemma split_at_first c k rest :
  has_char c k = false ->
  CLIEngine.split c (k ++ String c rest) = k :: CLIEngine.split c rest.
Proof.
  induction k as [| a k IH]; simpl.
  - intros _. rewrite Ascii.eqb_refl. reflexivity.
  - intros H. apply orb_false_iff in H. destruct H as [Ha Hk].
    rewrite Ha, (IH Hk). reflexivity.
Qed.

(** X23.  [toBooleanMap] gives no map for a falsy value and for an empty
    array, and throws for a value that is not an array.  Otherwise the map
    never has the key [__proto__]; each of its entries comes from an
    element of the array; and for each key the last element with that key
    decides.  An element [key] gets the default value, an element
    [key:value] the value [true] exactly when [value] is ["true"]. *)
Theorem toBooleanMap_reads_keys keys defaultValue displayName :
  (CLIEngine.toBooleanMap keys defaultValue displayName = Returns None
   <-> keys = CLIEngine.KeysFalsy \/ keys = CLIEngine.KeysArray [])
  /\ (keys = CLIEngine.KeysOther ->
      CLIEngine.toBooleanMap keys defaultValue displayName
      = Throws (newError (displayName ++ " must be an array.")))
  /\ (forall map,
        CLIEngine.toBooleanMap keys defaultValue displayName
        = Returns (Some map) ->
        exists defs,
          keys = CLIEngine.KeysArray defs
          /\ assoc "__proto__" map = None
          /\ (forall k v,
                In (k, v) map ->
                exists def,
                  In def defs /\ k = keyOf def
                  /\ v = valueOf defaultValue def)
          /\ (forall before def after,
                defs = (before ++ def :: after)%list ->
                keyOf def <> "__proto__" ->
                Forall (fun later => keyOf later <> keyOf def) after ->
                assoc (keyOf def) map = Some (valueOf defaultValue def)))
  /\ (forall key value,
        has_char ":" key = false ->
        has_char ":" value = false ->
        keyOf key = key /\ valueOf defaultValue key = defaultValue
        /\ keyOf (key ++ ":" ++ value) = key
        /\ valueOf defaultValue (key ++ ":" ++ value)
           = String.eqb value "true").
Proof.
  split; [| split; [| split]].
  - destruct keys as [| [| def rest] |]; simpl; split; intros H;
      try reflexivity; try discriminate; auto;
      destruct H as [H | H]; discriminate.
  - intros ->. reflexivity.
  - intros map H. destruct keys as [| [| def0 rest] |]; try discriminate.
    exists (def0 :: rest). split; [reflexivity |].
    assert (map
            = fold_left (CLIEngine.addKey defaultValue) (def0 :: rest) [])
      as -> by (injection H as <-; reflexivity).
    clear H.
    split; [apply fold_addKey_proto; reflexivity |]. split.
    + intros k v Hin.
      destruct (fold_addKey_entries _ _ _ _ _ Hin) as [[] | Hd]. exact Hd.
    + intros before def after Hsplit Hproto Hafter. rewrite Hsplit.
      rewrite fold_left_app. simpl.
      rewrite (fold_addKey_kept _ _ Hafter), addKey_unfold.
      apply String.eqb_neq in Hproto. rewrite Hproto. simpl.
      apply assoc_set_same.
  - intros key value Hk Hv. unfold keyOf, valueOf.
    rewrite (@split_without ":"%char key Hk).
    change (key ++ ":" ++ value) with (key ++ String ":" value).
    rewrite (@split_at_first ":"%char key value Hk),
      (@split_without ":"%char value Hv).
    repeat split.
Qed.


(** X24.  [createConfigDataFromOptions] gives [null] exactly when the
    options name no environment and no global and hold no parser, parser
    options, plugins and rules.  A value of [envs] that is not an array
    makes it throw.  The config data it gives otherwise extends nothing,
    has no [overrides], [files], [excludedFiles] and [root], and holds the
    parser, the plugins and the rules of the options. *)
Theorem config_data_from_options options :
  (CLIEngine.createConfigDataFromOptions options = Returns None
   <-> names_nothing (CLIEngine.opt_envs options)
       /\ names_nothing (CLIEngine.opt_globals options)
       /\ CLIEngine.opt_parser options = None
       /\ CLIEngine.opt_parserOptions options = None
       /\ CLIEngine.opt_plugins options = None
       /\ CLIEngine.opt_rules options = None)
  /\ (CLIEngine.opt_envs options = CLIEngine.KeysOther ->
      CLIEngine.createConfigDataFromOptions options
      = Throws (newError "envs must be an array."))
  /\ (forall data,
        CLIEngine.createConfigDataFromOptions options = Returns (Some data) ->
        extends_nothing data = true
        /\ nesting data = 1
        /\ cd_files data = Undef
        /\ cd_excludedFiles data = Undef
        /\ cd_root data = None
        /\ cd_parser data = CLIEngine.opt_parser options
        /\ cd_plugins data = CLIEngine.opt_plugins options
        /\ cd_rules data = CLIEngine.opt_rules options).
Proof.
  destruct options as [envs globals parser parserOptions plugins rules].
  unfold CLIEngine.createConfigDataFromOptions, names_nothing.
  cbn [CLIEngine.opt_envs CLIEngine.opt_globals CLIEngine.opt_parser
       CLIEngine.opt_parserOptions CLIEngine.opt_plugins CLIEngine.opt_rules].
  destruct envs as [| [| def rest] |], globals as [| [| def' rest'] |],
    parser, parserOptions, plugins, rules;
    cbn [CLIEngine.toBooleanMap res_bind option_map];
    (split;
     [ split;
       [ intros H; try discriminate H; repeat split; auto
       | intros (H1 & H2 & H3 & H4 & H5 & H6);
         try discriminate; try reflexivity;
         destruct H1 as [H1 | H1], H2 as [H2 | H2]; discriminate ]
     | split;
       [ intros H; try discriminate H; reflexivity
       | intros data H; try discriminate H;
         injection H as <-; repeat split ] ]).
Qed.


Lemma isValidFixType_In fixType :
  CLIEngine.isValidFixType fixType = true
  <-> In fixType CLIEngine.validFixTypes.
Proof.
  unfold CLIEngine.isValidFixType. rewrite existsb_exists. split.
  - intros (x & Hin & Heq). apply String.eqb_eq in Heq. subst x. exact Hin.
  - intros Hin. exists fixType. split; [exact Hin | apply String.eqb_refl].
Qed.

(** X25.  [validateFixTypes] returns exactly when every fix type of the
    array is one of [problem], [suggestion] and [layout].  When it throws,
    the error names the first fix type of the array that is none of them,
    whatever follows it. *)
Theorem fix_types_are_validated fixTypes :
  (CLIEngine.validateFixTypes fixTypes = Returns tt
   <-> Forall (fun fixType => In fixType CLIEngine.validFixTypes) fixTypes)
  /\ (forall e,
        CLIEngine.validateFixTypes fixTypes = Throws e ->
        exists valid invalid rest,
          fixTypes = (valid ++ invalid :: rest)%list
          /\ Forall (fun fixType => In fixType CLIEngine.validFixTypes) valid
          /\ ~ In invalid CLIEngine.validFixTypes
          /\ e = newError ("Invalid fix type " ++ Js.dquote ++ invalid
                             ++ Js.dquote ++ " found.")).
Proof.
  induction fixTypes as [| fixType rest [IHr IHt]].
  - split.
    + split; [intros _; constructor | intros _; reflexivity].
    + intros e H. discriminate H.
  - cbn [CLIEngine.validateFixTypes].
    destruct (CLIEngine.isValidFixType fixType) eqn:Hv; cbn [negb].
    + apply isValidFixType_In in Hv. split.
      * split.
        -- intros H. constructor; [exact Hv | apply IHr; exact H].
        -- intros H. inversion H; subst. apply IHr. assumption.
      * intros e H. destruct (IHt e H) as (valid & invalid & tl & -> & Hf & Hn & ->).
        exists (fixType :: valid), invalid, tl.
        repeat split; auto.
    + assert (Hn : ~ In fixType CLIEngine.validFixTypes).
      { intros Hin. apply isValidFixType_In in Hin. congruence. }
      split.
      * split; [intros H; discriminate H |].
        intros H. inversion H; subst. contradiction.
      * intros e H. injection H as <-.
        exists [], fixType, rest. repeat split; auto.
Qed.


Lemma missing_shareable_config_witness :
  _loadExtendedShareableConfig Demo.world Demo.factory "nothere"
    "/proj/.eslintrc.json" "rc"
  = ([EvResolve "eslint-config-nothere" "/proj/.eslintrc.json"],
     Throw (configMissingError "nothere")).
Proof.
  apply (proj1 (@missing_shareable_config Demo.world Demo.factory "nothere"
                  "/proj/.eslintrc.json" "rc")
           (Demo.moduleNotFound "eslint-config-nothere")); reflexivity.
Defined.


(** X26.  When the config file holds [null], which the search of a
    directory skips, [loadFile] returns no config array: after the one load
    it throws, either the error of the schema validation or the type error
    of destructuring [null]. *)
Theorem loadFile_of_a_null_config w this fuel filePath name parent :
  let absolutePath := path_resolve w (_cwd this) filePath in
  loadConfigFile w absolutePath = Returns None ->
  skipped w absolutePath
  /\ exists e,
       loadFile w this (S fuel) filePath name parent
       = ([EvLoadConfigFile absolutePath], Throw e)
       /\ (e = destructureNull
           \/ exists source, validateConfigSchema w None source = Some e).
Proof.
  intros absolutePath Hnull. split.
  - unfold skipped. rewrite Hnull. exact I.
  - unfold loadFile, _loadConfigData. fold absolutePath. rewrite Hnull.
    cbn [bind emit lift ret app]. unfold _normalizeConfigData.
    match goal with
    | |- context [validateConfigSchema w None ?source] =>
        destruct (validateConfigSchema w None source) as [e |] eqn:Hv
    end.
    + exists e. split; [reflexivity | right; eauto].
    + exists destructureNull. split; [reflexivity | left; reflexivity].
Qed.

Lemma loadFile_of_a_null_config_witness :
  skipped demo_null_world "/proj/.eslintrc.js"
  /\ exists e,
       loadFile demo_null_world Demo.factory 1 ".eslintrc.js" "" None
       = ([EvLoadConfigFile "/proj/.eslintrc.js"], Throw e)
       /\ (e = destructureNull
           \/ exists source,
                validateConfigSchema demo_null_world None source = Some e).
Proof.
  apply (@loadFile_of_a_null_config demo_null_world Demo.factory 0
           ".eslintrc.js" "" None).
  reflexivity.
Defined.


(* ------------------------------------------------------------------ *)
(** ** The file and the names of the elements *)
(* ------------------------------------------------------------------ *)

Lemma prefix_of_longer a b s :
  String.prefix (a ++ b) s = true -> String.prefix a s = true.
Proof.
  revert s. induction a as [| x a IH]; intros s H.
  - apply prefix_nil.
  - destruct s as [| y s]; [discriminate H |].
    change (String.prefix (String x (a ++ b)) (String y s) = true) in H.
    rewrite prefix_cons in *. apply andb_true_iff in H.
    destruct H as [Hxy H]. rewrite Hxy. simpl. apply IH. exact H.
Qed.

Lemma prefix_refl s : String.prefix s s = true.
Proof.
  induction s as [| x s IH]; [reflexivity |].
  rewrite prefix_cons, Ascii.eqb_refl. exact IH.
Qed.

Lemma yield_each_In {A B} (f : A -> M (list B)) xs ys y :
  outcome (yield_each f xs) = Ok ys ->
  In y ys ->
  exists x r, In x xs /\ outcome (f x) = Ok r /\ In y r.
Proof.
  revert ys. induction xs as [| x rest IH]; simpl; intros ys H Hin.
  - inversion H. subst. contradiction.
  - bind_ok H as r Hr. bind_ok H as zs Hz. inversion H. subst ys.
    apply in_app_or in Hin. destruct Hin as [Hin | Hin].
    + exists x, r. auto.
    + destruct (IH zs Hz Hin) as (x' & r' & Hx' & Hr' & Hy).
      exists x', r'. auto.
Qed.

(** X27.  The elements of a config data that extends nothing, at any depth
    of its [overrides], all belong to the one file: each carries the file
    path of the config data, and a name that starts with the name of the
    config data.  Only [extends] brings in elements of other files. *)
Theorem elements_without_extends_are_of_the_file w this fuel :
  forall data filePath name elements,
    extends_nothing data = true ->
    outcome (_normalizeObjectConfigData w this fuel (Some data) filePath name)
    = Ok elements ->
    forall element,
      In element elements ->
      el_filePath element = filePath
      /\ Js.startsWith name (el_name element) = true.
Proof.
  unfold Js.startsWith.
  induction fuel as [| fuel IH];
    intros data filePath name elements Hext H element Hin;
    [discriminate H |].
  apply normalize_level in H.
  destruct H as (fuel' & body & Hfuel & H & ->).
  injection Hfuel as <-.
  apply in_map_iff in Hin. destruct Hin as (e0 & <- & Hin).
  assert (el_filePath e0 = filePath
          /\ String.prefix name (el_name e0) = true) as Hgoal.
  2:{ unfold applyCriteria.
      destruct (OverrideTester.and _ (el_criteria e0)); exact Hgoal. }
  destruct data as [files excluded env extend globals parser parserOptions
                      plugins processor root rules settings overrides].
  cbn [extends_nothing] in Hext.
  destruct (extendListOf extend) eqn:Hlist; [| discriminate].
  unfold _normalizeObjectConfigDataBody in H.
  bind_ok H as extended Hex.
  unfold flattenExtends in Hex. cbn [cd_extends] in Hex.
  rewrite Hlist in Hex. inversion Hex. subst extended.
  bind_ok H as pa Hpa. bind_ok H as pl Hpl. bind_ok H as pr Hpr.
  bind_ok H as ov Hov. inversion H. subst body.
  cbn [app] in Hin. apply in_app_or in Hin. destruct Hin as [Hin | Hin].
  - destruct pl as [loadedPlugins |]; [| inversion Hpr; subst; contradiction].
    cbn [processorsOf] in Hpr. unfold _takeFileExtensionProcessors in Hpr.
    destruct (@yield_each_In _ _ _ _ _ _ Hpr Hin)
      as ([pluginId plugin] & r & _ & Hr & Hy).
    destruct (match dep_definition plugin with
              | Some definition => mod_processors definition
              | None => None
              end) as [processors |];
      [| inversion Hr; subst; contradiction].
    destruct (@yield_each_In _ _ _ _ _ _ Hr Hy)
      as (processorId & r' & _ & Hr' & Hy').
    destruct (IH (processorConfig pluginId processorId) _ _ _ eq_refl Hr'
                _ Hy') as [Hf Hn].
    split; [exact Hf |].
    unfold processorName in Hn. exact (prefix_of_longer _ _ _ Hn).
  - destruct Hin as [<- | Hin].
    + split; [reflexivity | apply prefix_refl].
    + unfold flattenOverrides in Hov. cbn [cd_overrides] in Hov.
      destruct (@yield_each_In _ _ _ _ _ _ Hov Hin)
        as ([i o] & r & Hio & Hr & Hy).
      apply in_combine_r in Hio. cbn [fst snd] in Hr.
      rewrite forallb_forall in Hext.
      destruct (IH _ _ _ _ (Hext o Hio) Hr _ Hy) as [Hf Hn].
      split; [exact Hf |].
      unfold overrideName in Hn. exact (prefix_of_longer _ _ _ Hn).
Qed.

Lemma elements_without_extends_are_of_the_file_witness :
  Forall
    (fun element =>
       el_filePath element = "/proj/.eslintrc.js"
       /\ Js.startsWith "rc" (el_name element) = true)
    match outcome (_normalizeObjectConfigData Demo.world Demo.factory 5
                     (Some demo_deep) "/proj/.eslintrc.js" "rc") with
    | Ok elements => elements
    | _ => []
    end.
Proof.
  apply Forall_forall.
  apply (@elements_without_extends_are_of_the_file Demo.world Demo.factory 5
           demo_deep "/proj/.eslintrc.js" "rc");
    vm_compute; reflexivity.
Defined.
